(** * The voice-detection core: preprocessing, feature extraction, classifiers

    A shallow embedding of [app/audio_processor.py] and [app/classifier.py],
    followed by the code around them: [app/auth.py], [app/models.py], the
    endpoints of [app_main.py] and [main.py], and the feature extraction and
    weight optimization of [train_model.py].

    Numbers.  Python floats and numpy scalars are modelled as exact rationals
    ([Q], compared with [==]); the rounding of binary floating point is not
    modelled.  Sample and interval indices are integers ([Z]) and lengths are
    [nat].

    Exceptions.  A call that can raise returns a [Py.result].  Calls into
    third-party code (librosa, joblib, json, scikit-learn estimators)
    are fields of an interface and return [option]: [None] stands for "the call
    raised some exception".

    Randomness.  [random.uniform(a, b)] is [a + (b - a) * random()]; the draw
    [random()] of the generator is an explicit argument of the heuristic
    classifier. *)

From Stdlib Require Import QArith Qround Qminmax Qabs Lqa.
From Stdlib Require Import ZArith List String Ascii Bool Lia DecimalString.
From Stdlib.Strings Require Import Byte.
Import ListNotations.

Open Scope string_scope.
Open Scope list_scope.
Open Scope Q_scope.

(* ================================================================= *)
(** ** Python values: exceptions, dictionaries, rounding *)

Module Py.

(** The exceptions the two modules raise themselves, and [ExternalError]
    for whatever a third-party call raised (the string names the call). *)
Inductive exn : Type :=
| ValueError (msg : string) (args : list Q)
| RuntimeError (msg : string)
| FileNotFoundError (msg : string)
| IndexError
| ExternalError (call : string).

Inductive result (A : Type) : Type :=
| Ok (a : A)
| Raise (e : exn).
Arguments Ok {A} a.
Arguments Raise {A} e.

Definition bind {A B} (m : result A) (k : A -> result B) : result B :=
  match m with
  | Ok a => k a
  | Raise e => Raise e
  end.

(** A third-party call: an exception of its own becomes [ExternalError]. *)
Definition external {A} (call : string) (r : option A) : result A :=
  match r with
  | Some a => Ok a
  | None => Raise (ExternalError call)
  end.

(** [try: ... except Exception: ...] around a single computation. *)
Definition try_except {A} (m : result A) (handler : exn -> result A) : result A :=
  match m with
  | Ok a => Ok a
  | Raise e => handler e
  end.

(** *** [dict] with [str] keys: insertion-ordered, one entry per key *)

Definition dict (V : Type) : Type := list (string * V).

Definition empty {V} : dict V := [].

Fixpoint find {V} (d : dict V) (k : string) : option V :=
  match d with
  | [] => None
  | (k', v) :: d' => if String.eqb k' k then Some v else find d' k
  end.

(** [d.get(k, default)] *)
Definition get {V} (d : dict V) (k : string) (default : V) : V :=
  match find d k with
  | Some v => v
  | None => default
  end.

(** [k in d] *)
Definition contains {V} (d : dict V) (k : string) : bool :=
  match find d k with
  | Some _ => true
  | None => false
  end.

(** [d[k] = v]: overwrites in place, or appends a new entry. *)
Fixpoint set {V} (d : dict V) (k : string) (v : V) : dict V :=
  match d with
  | [] => [(k, v)]
  | (k', v') :: d' =>
      if String.eqb k' k then (k', v) :: d' else (k', v') :: set d' k v
  end.

Definition items {V} (d : dict V) : list (string * V) := d.
Definition keys {V} (d : dict V) : list string := map fst d.
Definition len {V} (d : dict V) : nat := List.length d.

(** truth value of a dict: [not d] is [True] for the empty dict *)
Definition truthy {V} (d : dict V) : bool :=
  match d with [] => false | _ => true end.

(** The invariant of every Python dict: keys are pairwise distinct. *)
Definition wf {V} (d : dict V) : Prop := NoDup (keys d).

(** *** Comparisons and builtins on numbers *)

Definition ltb (x y : Q) : bool := negb (Qle_bool y x).
Definition gtb (x y : Q) : bool := ltb y x.

(** builtin [sum]: left to right from 0 *)
Definition sum (xs : list Q) : Q := fold_left Qplus xs 0.

(** Nearest integer, ties to the even one (what [round] does). *)
Definition round_half_even (x : Q) : Z :=
  let f := Qfloor x in
  let d := x - inject_Z f in
  if ltb d (1 # 2) then f
  else if ltb (1 # 2) d then (f + 1)%Z
  else if Z.even f then f else (f + 1)%Z.

(** [round(x, ndigits)] for [ndigits >= 0] *)
Definition round (x : Q) (ndigits : nat) : Q :=
  let scale := inject_Z (10 ^ Z.of_nat ndigits) in
  inject_Z (round_half_even (x * scale)) / scale.

(** [random.uniform(a, b)], given the generator's draw [r] in [0, 1). *)
Definition random_uniform (a b r : Q) : Q := a + (b - a) * r.

End Py.

Declare Scope py_scope.
Delimit Scope py_scope with py.
Notation "x <- m ;; k" := (Py.bind m (fun x => k))
  (at level 61, m at next level, right associativity) : py_scope.
Notation "' p <- m ;; k" := (Py.bind m (fun x => match x with p => k end))
  (at level 61, p pattern, m at next level, right associativity) : py_scope.
Infix "<?" := Py.ltb (at level 70, no associativity) : py_scope.
Infix ">?" := Py.gtb (at level 70, no associativity) : py_scope.
Open Scope py_scope.

(* ================================================================= *)
(** ** numpy on one- and two-dimensional arrays *)

(** The two real functions the feature extractors need whose values are not
    rational.  They stay abstract: no property of them is assumed. *)
Class Numeric : Type := {
  np_sqrt : Q -> Q;
  np_log10 : Q -> Q
}.

Module Np.

Inductive dtype : Type := float32 | float64.

(** A one-dimensional array: element type tag and values. *)
Record ndarray : Type := array { arr_dtype : dtype; arr_data : list Q }.

(** A two-dimensional array as the list of its rows. *)
Definition matrix : Type := list (list Q).

Definition size (xs : list Q) : Q := inject_Z (Z.of_nat (List.length xs)).

(** [np.mean] of a 1-d array *)
Definition mean (xs : list Q) : Q := Py.sum xs / size xs.

(** The population variance, [np.var] (ddof = 0). *)
Definition var (xs : list Q) : Q :=
  let m := mean xs in
  mean (map (fun x => (x - m) * (x - m)) xs).

(** [np.std(xs) < t] for a constant [t >= 0].  [np.std] is the real square
    root of [var], irrational in general; against a non-negative bound the
    comparison [sqrt v < t] is [v < t * t]. *)
Definition std_lt (xs : list Q) (t : Q) : bool := var xs <? t * t.

(** [xs[lo:hi]] for [0 <= lo <= hi] *)
Definition slice {A} (xs : list A) (lo hi : nat) : list A :=
  firstn (hi - lo) (skipn lo xs).

(** [np.ptp]: max - min *)
Definition ptp (xs : list Q) : Q :=
  match xs with
  | [] => 0
  | x :: xs' => fold_left Qmax xs' x - fold_left Qmin xs' x
  end.

(** [np.diff] *)
Fixpoint diff (xs : list Q) : list Q :=
  match xs with
  | x :: ((y :: _) as xs') => (y - x) :: diff xs'
  | _ => []
  end.

(** [xs.argmax()]: the first index of the maximum *)
Fixpoint argmax_from (best : Q) (besti i : nat) (xs : list Q) : nat :=
  match xs with
  | [] => besti
  | x :: xs' =>
      if best <? x then argmax_from x i (S i) xs'
      else argmax_from best besti (S i) xs'
  end.
Definition argmax (xs : list Q) : nat :=
  match xs with
  | [] => 0%nat
  | x :: xs' => argmax_from x 0 1 xs'
  end.

(** [m[:, t]] *)
Definition column (m : matrix) (t : nat) : list Q := map (fun row => nth t row 0) m.

(** [m.shape[1]] *)
Definition shape1 (m : matrix) : nat :=
  match m with [] => 0%nat | row :: _ => List.length row end.

(** [m[0]] *)
Definition row0 (m : matrix) : list Q := nth 0 m [].

(** [np.mean(m, axis=1)] *)
Definition mean_axis1 (m : matrix) : list Q := map mean m.

(** [np.mean(m)] over all entries *)
Definition mean_all (m : matrix) : Q := mean (List.concat m).

(** [np.std] as a value *)
Definition std `{Numeric} (xs : list Q) : Q := np_sqrt (var xs).

(** [np.std(m, axis=1)] and [np.std(m)] *)
Definition std_axis1 `{Numeric} (m : matrix) : list Q := map std m.
Definition std_all `{Numeric} (m : matrix) : Q := std (List.concat m).

(** [np.abs(np.diff(xs)) / (xs[:-1] + eps)], element by element *)
Definition rel_abs_diff (xs : list Q) (eps : Q) : list Q :=
  map (fun '(d, x) => Qabs d / (x + eps)) (combine (diff xs) (removelast xs)).

End Np.

(* ================================================================= *)
(** ** [app/classifier.py] *)


(** *** [class MockVoiceClassifier] *)

Module MockVoiceClassifier.

Record t : Type := { model_version : string; is_mock : bool }.

Definition __init__ : t :=
  {| model_version := "1.0.0-mock"; is_mock := true |}.

(** [features[i] if len(features) > i else 0] *)
Definition feature_or_0 (features : list Q) (i : nat) : Q :=
  if (i <? List.length features)%nat then nth i features 0 else 0.

(** The body of [predict] up to and including
    [ai_score = max(0, min(1, 0.5 + ai_score))]. *)
Definition ai_score_normalized (features : list Q) : Q :=
  let ai_score := 0 in
  (* 1. pitch variance *)
  let pitch_std := feature_or_0 features 91 in
  let ai_score :=
    if pitch_std <? 30 then ai_score + 0.25
    else if pitch_std >? 100 then ai_score - 0.1
    else ai_score in
  (* 2. MFCC consistency *)
  let ai_score :=
    if (80 <=? List.length features)%nat then
      let mfcc_std_values := Np.slice features 40 80 in
      if Np.std_lt mfcc_std_values 2 then ai_score + 0.2 else ai_score
    else ai_score in
  (* 3. jitter *)
  let jitter := feature_or_0 features 96 in
  let ai_score :=
    if jitter <? 0.02 then ai_score + 0.15
    else if jitter >? 0.05 then ai_score - 0.1
    else ai_score in
  (* 4. shimmer *)
  let shimmer := feature_or_0 features 97 in
  let ai_score := if shimmer <? 0.03 then ai_score + 0.15 else ai_score in
  (* 5. harmonic-to-noise ratio *)
  let hnr := feature_or_0 features 98 in
  let ai_score := if hnr >? 15 then ai_score + 0.15 else ai_score in
  (* 6. onset patterns *)
  let onset_std := feature_or_0 features 101 in
  let ai_score := if onset_std <? 0.5 then ai_score + 0.1 else ai_score in
  Qmax 0 (Qmin 1 (0.5 + ai_score)).

(** [ai_score] after the "demo variety" noise and the second clamp;
    [r] is the draw of [random.random()]. *)
Definition ai_score_final (features : list Q) (r : Q) : Q :=
  let ai_score := ai_score_normalized features in
  let ai_score := ai_score + Py.random_uniform (-0.1) 0.1 r in
  Qmax 0.05 (Qmin 0.95 ai_score).

Definition predict (self : t) (features : list Q) (language : string) (r : Q)
  : string * Q :=
  let ai_score := ai_score_final features r in
  let is_ai := ai_score >? 0.5 in
  let prediction := if is_ai then "AI_GENERATED" else "HUMAN" in
  let confidence := if is_ai then ai_score else 1 - ai_score in
  (prediction, Py.round confidence 3).

End MockVoiceClassifier.

(** *** Pickled estimators and the model directory *)

(** What [joblib.load] returns: an object used through [predict_proba]
    (sub-models) or [transform] (the scaler).  [None]: the call raised. *)
Record PyObject : Type := {
  predict_proba : Np.matrix -> option Np.matrix;
  transform : Np.matrix -> option Np.matrix
}.

(** The part of the file system the classifier module reads. *)
Class FileSystem : Type := {
  path_exists : string -> bool;
  joblib_load : string -> option PyObject;
  json_load : string -> option (Py.dict Q)
}.

(** [Path(dir) / name] *)
Definition path_join (dir name : string) : string :=
  (dir ++ "/" ++ name)%string.

(** [m[i, j]] *)
Definition index2 (m : Np.matrix) (i j : nat) : Py.result Q :=
  match nth_error m i with
  | Some row =>
      match nth_error row j with
      | Some x => Py.Ok x
      | None => Py.Raise Py.IndexError
      end
  | None => Py.Raise Py.IndexError
  end.

(** A [for] loop whose body may raise, threading the loop state. *)
Fixpoint for_each {S A} (xs : list A) (body : S -> A -> Py.result S) (s : S)
  : Py.result S :=
  match xs with
  | [] => Py.Ok s
  | x :: xs' => s' <- body s x ;; for_each xs' body s'
  end.

(** *** [class EnsembleVoiceClassifier] *)

Module EnsembleVoiceClassifier.

Record t : Type := {
  model_dir : string;
  models : Py.dict PyObject;
  scaler : option PyObject;
  weights : Py.dict Q;
  model_version : string;
  is_mock : bool
}.

Definition with_models (self : t) (m : Py.dict PyObject) : t :=
  {| model_dir := model_dir self; models := m; scaler := scaler self;
     weights := weights self; model_version := model_version self;
     is_mock := is_mock self |}.
Definition with_scaler (self : t) (s : option PyObject) : t :=
  {| model_dir := model_dir self; models := models self; scaler := s;
     weights := weights self; model_version := model_version self;
     is_mock := is_mock self |}.
Definition with_weights (self : t) (w : Py.dict Q) : t :=
  {| model_dir := model_dir self; models := models self; scaler := scaler self;
     weights := w; model_version := model_version self;
     is_mock := is_mock self |}.

Definition model_names : list string :=
  ["random_forest"; "gradient_boosting"; "svm"].

(** [{name: 1/len(self.models) for name in self.models.keys()}] *)
Definition equal_weights (models : Py.dict PyObject) : Py.dict Q :=
  fold_left
    (fun w name => Py.set w name (1 / inject_Z (Z.of_nat (Py.len models))))
    (Py.keys models) Py.empty.

Definition _load_models `{FileSystem} (self : t) : Py.result t :=
  Py.try_except
    ((* individual models *)
     self <- for_each model_names
               (fun self name =>
                  let model_path := path_join (model_dir self) (name ++ ".pkl")%string in
                  if path_exists model_path then
                    m <- Py.external "joblib.load" (joblib_load model_path) ;;
                    Py.Ok (with_models self (Py.set (models self) name m))
                  else Py.Ok self)
               self ;;
     (* scaler *)
     let scaler_path := path_join (model_dir self) "scaler.pkl" in
     self <- (if path_exists scaler_path then
                s <- Py.external "joblib.load" (joblib_load scaler_path) ;;
                Py.Ok (with_scaler self (Some s))
              else Py.Ok self) ;;
     (* ensemble weights *)
     let weights_path := path_join (model_dir self) "weights.json" in
     self <- (if path_exists weights_path then
                w <- Py.external "json.load" (json_load weights_path) ;;
                Py.Ok (with_weights self w)
              else Py.Ok (with_weights self (equal_weights (models self)))) ;;
     if negb (Py.truthy (models self))
     then Py.Raise (Py.FileNotFoundError "No models found")
     else Py.Ok self)
    (fun e => Py.Raise e).

Definition __init__ `{FileSystem} (model_dir : string) : Py.result t :=
  let self :=
    {| model_dir := model_dir; models := Py.empty; scaler := None;
       weights := Py.empty; model_version := "1.0.0"; is_mock := false |} in
  _load_models self.

(** One turn of the loop filling [predictions]: a sub-model that raises is
    skipped. *)
Definition loop_step (features_scaled : Np.matrix) (predictions : Py.dict Q)
    (entry : string * PyObject) : Py.dict Q :=
  let '(name, model) := entry in
  match (probs <- Py.external "predict_proba"
                    (predict_proba model features_scaled) ;;
         index2 probs 0 1) with
  | Py.Ok proba => Py.set predictions name proba
  | Py.Raise _ => predictions
  end.

(** [predictions] after the loop over [self.models.items()]. *)
Definition predictions_of (self : t) (features_scaled : Np.matrix) : Py.dict Q :=
  fold_left (loop_step features_scaled) (Py.items (models self)) Py.empty.

(** [sum(self.weights.get(name, 0) * score for name, score in predictions.items())] *)
Definition weighted_sum (weights predictions : Py.dict Q) : Q :=
  Py.sum (map (fun '(name, score) => Py.get weights name 0 * score)
              (Py.items predictions)).

(** [predict] up to and including the computation of [ensemble_score]. *)
Definition ensemble_score (self : t) (features : list Q) : Py.result Q :=
  (* features.ndim == 1: reshape(1, -1) *)
  let features := [features] in
  features_scaled <-
    match scaler self with
    | Some s => Py.external "scaler.transform" (transform s features)
    | None => Py.Ok features
    end ;;
  let predictions := predictions_of self features_scaled in
  if negb (Py.truthy predictions)
  then Py.Raise (Py.RuntimeError "All models failed to predict")
  else Py.Ok (weighted_sum (weights self) predictions).

Definition predict (self : t) (features : list Q) (language : string)
  : Py.result (string * Q) :=
  ensemble_score <- ensemble_score self features ;;
  let is_ai := ensemble_score >? 0.5 in
  let prediction := if is_ai then "AI_GENERATED" else "HUMAN" in
  let confidence := if is_ai then ensemble_score else 1 - ensemble_score in
  Py.Ok (prediction, Py.round confidence 3).

End EnsembleVoiceClassifier.

(** *** [get_classifier] *)

Inductive classifier : Type :=
| Mock (c : MockVoiceClassifier.t)
| Ensemble (c : EnsembleVoiceClassifier.t).

(** The attribute [is_mock], present on both classes. *)
Definition classifier_is_mock (c : classifier) : bool :=
  match c with
  | Mock m => MockVoiceClassifier.is_mock m
  | Ensemble e => EnsembleVoiceClassifier.is_mock e
  end.

Definition required_files : list string := ["random_forest.pkl"; "scaler.pkl"].

(** truth value of a [str] *)
Definition str_truthy (s : string) : bool :=
  match s with EmptyString => false | _ => true end.

Definition get_classifier `{FileSystem} (model_dir : option string) : classifier :=
  let mock := Mock MockVoiceClassifier.__init__ in
  match model_dir with
  | Some dir =>
      if str_truthy dir then
        if forallb (fun f => path_exists (path_join dir f)) required_files then
          match EnsembleVoiceClassifier.__init__ dir with
          | Py.Ok c => Ensemble c
          | Py.Raise _ => mock
          end
        else mock
      else mock
  | None => mock
  end.

(* ================================================================= *)
(** ** [app/audio_processor.py] *)

(** The librosa calls of the module.  [load] may raise (an undecodable byte
    stream); the analysis routines are taken as total functions of the sample
    buffer: an exception raised inside librosa during extraction is outside
    this model. *)
Class Librosa : Type := {
  load : list byte -> Z -> option (list Q * Z);
  util_normalize : list Q -> list Q;
  effects_trim : list Q -> Z -> list Q * (Z * Z);
  effects_split : list Q -> Z -> list (Z * Z);
  effects_hpss : list Q -> list Q * list Q;
  piptrack : list Q -> Z -> Np.matrix * Np.matrix;
  onset_strength : list Q -> Z -> list Q;
  feature_mfcc : list Q -> Z -> nat -> Np.matrix;
  feature_spectral_centroid : list Q -> Z -> Np.matrix;
  feature_spectral_rolloff : list Q -> Z -> Np.matrix;
  feature_spectral_bandwidth : list Q -> Z -> Np.matrix;
  feature_spectral_contrast : list Q -> Z -> Np.matrix;
  feature_spectral_flatness : list Q -> Np.matrix;
  feature_rms : list Q -> Np.matrix;
  feature_zero_crossing_rate : list Q -> Np.matrix;
  feature_chroma_stft : list Q -> Z -> Np.matrix
}.

(** [librosa.get_duration(y=audio, sr=sr)]: the number of samples over the
    sample rate. *)
Definition get_duration (audio : list Q) (sr : Z) : Q :=
  Np.size audio / inject_Z sr.

Definition eps : Q := 1 # 10000000000.

Module AudioProcessor.

Record t : Type := {
  target_sr : Z;
  min_duration : Q;
  max_duration : Q
}.

Definition __init__ (target_sr : Z) : t :=
  {| target_sr := target_sr; min_duration := 1; max_duration := 60 |}.

Section Methods.
Context `{Librosa} `{Numeric}.

Definition preprocess (self : t) (audio_bytes : list byte)
  : Py.result (list Q * Z * Q) :=
  '(audio, sr) <- Py.external "librosa.load" (load audio_bytes (target_sr self)) ;;
  let duration := get_duration audio sr in
  if duration <? min_duration self then
    Py.Raise (Py.ValueError "Audio too short" [duration; min_duration self])
  else if duration >? max_duration self then
    Py.Raise (Py.ValueError "Audio too long" [duration; max_duration self])
  else
    let audio := util_normalize audio in
    let '(audio, _) := effects_trim audio 30 in
    Py.Ok (audio, sr, duration).

Definition _extract_mfcc_features (audio : list Q) (sr : Z) : list Q :=
  let mfccs := feature_mfcc audio sr 40 in
  let mfcc_mean := Np.mean_axis1 mfccs in
  let mfcc_std := Np.std_axis1 mfccs in
  mfcc_mean ++ mfcc_std.

Definition _extract_spectral_features (audio : list Q) (sr : Z) : list Q :=
  let centroid := Np.row0 (feature_spectral_centroid audio sr) in
  let rolloff := Np.row0 (feature_spectral_rolloff audio sr) in
  let bandwidth := Np.row0 (feature_spectral_bandwidth audio sr) in
  let contrast := feature_spectral_contrast audio sr in
  let flatness := Np.row0 (feature_spectral_flatness audio) in
  [ Np.mean centroid; Np.std centroid;
    Np.mean rolloff; Np.std rolloff;
    Np.mean bandwidth; Np.std bandwidth;
    Np.mean_all contrast; Np.std_all contrast;
    Np.mean flatness; Np.std flatness ].

(** The loop over frames shared by the prosodic and the voice-quality
    extractor: the pitch of the strongest bin of each frame, kept when
    positive. *)
Definition pitch_values_of (audio : list Q) (sr : Z) : list Q :=
  let '(pitches, magnitudes) := piptrack audio sr in
  flat_map
    (fun t =>
       let index := Np.argmax (Np.column magnitudes t) in
       let pitch := nth t (nth index pitches []) 0 in
       if pitch >? 0 then [pitch] else [])
    (seq 0 (Np.shape1 pitches)).

Definition _extract_prosodic_features (audio : list Q) (sr : Z) : list Q :=
  let pitch_values := pitch_values_of audio sr in
  let '(pitch_mean, pitch_std, pitch_range) :=
    match pitch_values with
    | _ :: _ => (Np.mean pitch_values, Np.std pitch_values, Np.ptp pitch_values)
    | [] => (0, 0, 0)
    end in
  let rms := Np.row0 (feature_rms audio) in
  let energy_mean := Np.mean rms in
  let energy_std := Np.std rms in
  let zcr := Np.row0 (feature_zero_crossing_rate audio) in
  let zcr_mean := Np.mean zcr in
  [pitch_mean; pitch_std; pitch_range; energy_mean; energy_std; zcr_mean].

Definition _extract_voice_quality_features (audio : list Q) (sr : Z) : list Q :=
  let pitch_values := pitch_values_of audio sr in
  let jitter :=
    if (1 <? List.length pitch_values)%nat
    then Np.mean (Np.rel_abs_diff pitch_values eps)
    else 0 in
  let rms := Np.row0 (feature_rms audio) in
  let shimmer :=
    if (1 <? List.length rms)%nat
    then Np.mean (Np.rel_abs_diff rms eps)
    else 0 in
  let '(harmonic, percussive) := effects_hpss audio in
  let hnr :=
    10 * np_log10 ((Py.sum (map (fun x => x * x) harmonic) + eps)
                   / (Py.sum (map (fun x => x * x) percussive) + eps)) in
  [jitter; shimmer; hnr].

(** [[intervals[i+1][0] - intervals[i][1] for i in range(len(intervals)-1)]] *)
Definition pauses_of (intervals : list (Z * Z)) : list Z :=
  map (fun i => (fst (nth (i + 1) intervals (0, 0))
                 - snd (nth i intervals (0, 0)))%Z)
      (seq 0 (List.length intervals - 1)).

Definition _extract_temporal_features (audio : list Q) (sr : Z) : list Q :=
  let intervals := effects_split audio 30 in
  let '(silence_ratio, avg_pause) :=
    if (0 <? List.length intervals)%nat then
      let speech_duration :=
        fold_left Z.add (map (fun '(start, end_) => (end_ - start)%Z) intervals) 0%Z in
      let silence_ratio := 1 - inject_Z speech_duration / Np.size audio in
      let avg_pause :=
        if (1 <? List.length intervals)%nat then
          let pauses := pauses_of intervals in
          match pauses with
          | _ :: _ => Np.mean (map inject_Z pauses) / inject_Z sr
          | [] => 0
          end
        else 0 in
      (silence_ratio, avg_pause)
    else (1, 0) in
  let onset_env := onset_strength audio sr in
  let onset_mean := Np.mean onset_env in
  let onset_std := Np.std onset_env in
  [silence_ratio; avg_pause; onset_mean; onset_std].

Definition _extract_chroma_features (audio : list Q) (sr : Z) : list Q :=
  let chroma := feature_chroma_stft audio sr in
  let chroma_mean := Np.mean_axis1 chroma in
  let chroma_std := Np.std_axis1 chroma in
  chroma_mean ++ chroma_std.

Definition extract_all_features (audio : list Q) (sr : Z) : Np.ndarray :=
  let features := [] in
  let features := features ++ _extract_mfcc_features audio sr in
  let features := features ++ _extract_spectral_features audio sr in
  let features := features ++ _extract_prosodic_features audio sr in
  let features := features ++ _extract_voice_quality_features audio sr in
  let features := features ++ _extract_temporal_features audio sr in
  let features := features ++ _extract_chroma_features audio sr in
  Np.array Np.float32 features.

End Methods.

End AudioProcessor.

(* ================================================================= *)
(** ** The documented shapes of librosa's feature matrices *)

(** [librosa.feature.mfcc(..., n_mfcc=n)] has [n] rows (one per coefficient)
    and [librosa.feature.chroma_stft] has 12 rows (one per pitch class). *)
Class LibrosaShapes `{Librosa} : Prop := {
  mfcc_rows : forall audio sr n_mfcc,
    List.length (feature_mfcc audio sr n_mfcc) = n_mfcc;
  chroma_rows : forall audio sr,
    List.length (feature_chroma_stft audio sr) = 12%nat
}.

(* ================================================================= *)
(** ** Executable instances of the interfaces

    Small stand-ins on which the embedding runs on concrete inputs.  They
    make no claim to compute the values of the real libraries. *)

Module Instances.

(** Integer square root and integer base-10 logarithm. *)
Definition coarse_numeric : Numeric :=
  {| np_sqrt := fun x => inject_Z (Z.sqrt (Qfloor x));
     np_log10 := fun x => inject_Z (Z.log2 (Qfloor x) / 3) |}.

(** Unsigned 8-bit PCM: one byte per sample, 128 is silence. *)
Definition pcm_sample (b : byte) : Q :=
  (inject_Z (Z.of_N (Byte.to_N b)) - 128) / 128.

Definition peak (audio : list Q) : Q := fold_left Qmax (map Qabs audio) 0.

(** A sample is above the gate when its power is within [top_db] decibels
    of the peak power: [x^2 * 10^(top_db/10) > peak^2]. *)
Definition above_gate (top_db : Z) (pk x : Q) : bool :=
  x * x * inject_Z (10 ^ (top_db / 10)) >? pk * pk.

Fixpoint drop_silent (gate : Q -> bool) (audio : list Q) : list Q :=
  match audio with
  | [] => []
  | x :: audio' => if gate x then audio else drop_silent gate audio'
  end.

(** Maximal runs of samples above the gate, as [(start, end)] index pairs;
    [open] is the start of the run being read, if any. *)
Fixpoint runs (gate : Q -> bool) (audio : list Q) (i : Z) (open : option Z)
  : list (Z * Z) :=
  match audio with
  | [] => match open with Some s => [(s, i)] | None => [] end
  | x :: audio' =>
      match gate x, open with
      | true, None => runs gate audio' (i + 1) (Some i)
      | true, Some s => runs gate audio' (i + 1) (Some s)
      | false, Some s => (s, i) :: runs gate audio' (i + 1) None
      | false, None => runs gate audio' (i + 1) None
      end
  end.

(** Frames of one sample throughout. *)
Definition sample_librosa : Librosa :=
  {| load := fun audio_bytes sr =>
       match audio_bytes with
       | [] => None
       | _ => Some (map pcm_sample audio_bytes, sr)
       end;
     util_normalize := fun audio =>
       let pk := peak audio in
       if Qeq_bool pk 0 then audio else map (fun x => x / pk) audio;
     effects_trim := fun audio top_db =>
       let gate := above_gate top_db (peak audio) in
       let kept := rev (drop_silent gate (rev (drop_silent gate audio))) in
       let start := Z.of_nat (List.length audio
                              - List.length (drop_silent gate audio)) in
       (kept, (start, (start + Z.of_nat (List.length kept))%Z));
     effects_split := fun audio top_db =>
       runs (above_gate top_db (peak audio)) audio 0 None;
     effects_hpss := fun audio => (audio, map (fun x => x / 2) audio);
     piptrack := fun audio sr => ([map Qabs audio], [audio]);
     onset_strength := fun audio sr => Np.diff audio;
     feature_mfcc := fun audio sr n_mfcc =>
       map (fun k => map (fun x => x * inject_Z (Z.of_nat k)) audio) (seq 0 n_mfcc);
     feature_spectral_centroid := fun audio sr => [audio];
     feature_spectral_rolloff := fun audio sr => [audio];
     feature_spectral_bandwidth := fun audio sr => [audio];
     feature_spectral_contrast := fun audio sr => [audio; audio];
     feature_spectral_flatness := fun audio => [audio];
     feature_rms := fun audio => [map Qabs audio];
     feature_zero_crossing_rate := fun audio => [audio];
     feature_chroma_stft := fun audio sr =>
       map (fun k => map (fun x => x + inject_Z (Z.of_nat k)) audio) (seq 0 12) |}.

(** *** A model directory given by the list of its files *)

Inductive file : Type :=
| Pickle (o : PyObject)
| Json (w : Py.dict Q)
| Corrupt.

Definition directory (files : Py.dict file) : FileSystem :=
  {| path_exists := fun p =>
       match Py.find files p with Some _ => true | None => false end;
     joblib_load := fun p =>
       match Py.find files p with Some (Pickle o) => Some o | _ => None end;
     json_load := fun p =>
       match Py.find files p with Some (Json w) => Some w | _ => None end |}.

(** A fitted binary classifier answering [p] for the positive class of
    every row. *)
Definition estimator (p : Q) : PyObject :=
  {| predict_proba := fun X => Some (map (fun _ => [1 - p; p]) X);
     transform := fun _ => None |}.

(** A sub-model whose [predict_proba] raises. *)
Definition broken_estimator : PyObject :=
  {| predict_proba := fun _ => None; transform := fun _ => None |}.

(** A scaler leaving the features as they are. *)
Definition unit_scaler : PyObject :=
  {| predict_proba := fun _ => None; transform := fun X => Some X |}.

End Instances.

(* ================================================================= *)
(** ** The specification's formulations *)

Module Spec.

Definition clamp (lo hi x : Q) : Q := Qmax lo (Qmin hi x).

(** One row of the adjustment table: [delta] when the condition holds. *)
Definition adjustment (condition : bool) (delta : Q) : Q :=
  if condition then delta else 0.

(** The fixed adjustment table, read on a vector [f] by offset. *)
Definition adjustments (f : list Q) : Q :=
  adjustment (nth 91 f 0 <? 30) 0.25
  + adjustment (nth 91 f 0 >? 100) (-0.10)
  + adjustment (Np.std_lt (Np.slice f 40 80) 2) 0.20
  + adjustment (nth 96 f 0 <? 0.02) 0.15
  + adjustment (nth 96 f 0 >? 0.05) (-0.10)
  + adjustment (nth 97 f 0 <? 0.03) 0.15
  + adjustment (nth 98 f 0 >? 15) 0.15
  + adjustment (nth 101 f 0 <? 0.5) 0.10.

(** The table without its row on [std(40:80)]. *)
Definition scalar_adjustments (f : list Q) : Q :=
  adjustment (nth 91 f 0 <? 30) 0.25
  + adjustment (nth 91 f 0 >? 100) (-0.10)
  + adjustment (nth 96 f 0 <? 0.02) 0.15
  + adjustment (nth 96 f 0 >? 0.05) (-0.10)
  + adjustment (nth 97 f 0 <? 0.03) 0.15
  + adjustment (nth 98 f 0 >? 15) 0.15
  + adjustment (nth 101 f 0 <? 0.5) 0.10.

(** "Every index access beyond the vector's length contributes zero to the
    score": a row applies only where its offset exists. *)
Definition in_range (f : list Q) (i : nat) (row : Q -> Q) : Q :=
  match nth_error f i with
  | Some x => row x
  | None => 0
  end.

Definition zero_contribution_score (f : list Q) : Q :=
  clamp 0 1
    (0.5
     + in_range f 91 (fun x => adjustment (x <? 30) 0.25
                               + adjustment (x >? 100) (-0.10))
     + (if (80 <=? List.length f)%nat
        then adjustment (Np.std_lt (Np.slice f 40 80) 2) 0.20 else 0)
     + in_range f 96 (fun x => adjustment (x <? 0.02) 0.15
                               + adjustment (x >? 0.05) (-0.10))
     + in_range f 97 (fun x => adjustment (x <? 0.03) 0.15)
     + in_range f 98 (fun x => adjustment (x >? 15) 0.15)
     + in_range f 101 (fun x => adjustment (x <? 0.5) 0.10)).

(** The probability mass of the chosen label for a raw score. *)
Definition label_of (score : Q) : string :=
  if score >? 0.5 then "AI_GENERATED" else "HUMAN".
Definition mass_of (score : Q) : Q :=
  if score >? 0.5 then score else 1 - score.

(** The positive-class probability of one sub-model, when it answers. *)
Definition proba_of (model : PyObject) (X : Np.matrix) : option Q :=
  match predict_proba model X with
  | Some probs =>
      match index2 probs 0 1 with
      | Py.Ok p => Some p
      | Py.Raise _ => None
      end
  | None => None
  end.

(** The sub-models that answer, with their probabilities, in order. *)
Definition survivors (models : Py.dict PyObject) (X : Np.matrix)
  : list (string * Q) :=
  flat_map (fun '(name, model) =>
              match proba_of model X with
              | Some p => [(name, p)]
              | None => []
              end) models.

(** The features as the sub-models see them. *)
Definition scaled (self : EnsembleVoiceClassifier.t) (features : list Q)
  : option Np.matrix :=
  match EnsembleVoiceClassifier.scaler self with
  | Some s => transform s [features]
  | None => Some [features]
  end.

Definition total_weight (weights : Py.dict Q) (names : list string) : Q :=
  Py.sum (map (fun name => Py.get weights name 0) names).

(** The fused score with the loaded weights as they are ... *)
Definition fused (weights : Py.dict Q) (answers : list (string * Q)) : Q :=
  Py.sum (map (fun '(name, p) => Py.get weights name 0 * p) answers).

(** ... and with the weights renormalized to sum to 1 over the survivors. *)
Definition renormalized (weights : Py.dict Q) (answers : list (string * Q)) : Q :=
  fused weights answers / total_weight weights (map fst answers).

(** The answers of the sub-models that have an entry in the weight map. *)
Definition weighted_only (weights : Py.dict Q) (answers : list (string * Q))
  : list (string * Q) :=
  filter (fun answer => Py.contains weights (fst answer)) answers.

(** The gaps between consecutive speech intervals. *)
Fixpoint gaps (intervals : list (Z * Z)) : list Z :=
  match intervals with
  | (_, end_) :: (((start, _) :: _) as rest) => (start - end_)%Z :: gaps rest
  | _ => []
  end.

Definition speech_samples (intervals : list (Z * Z)) : Z :=
  fold_right Z.add 0%Z (map (fun iv => (snd iv - fst iv)%Z) intervals).

(** What the loader's weights and the sub-models' answers satisfy in the
    data model: weights are non-negative and sum to at most 1 over the
    loaded sub-models, probabilities lie in [0, 1]. *)
Definition weights_in_range (self : EnsembleVoiceClassifier.t) : Prop :=
  (forall name, 0 <= Py.get (EnsembleVoiceClassifier.weights self) name 0)
  /\ total_weight (EnsembleVoiceClassifier.weights self)
                  (Py.keys (EnsembleVoiceClassifier.models self)) <= 1.

Definition probabilities_in_range (self : EnsembleVoiceClassifier.t) : Prop :=
  forall name model X p,
    In (name, model) (EnsembleVoiceClassifier.models self) ->
    proba_of model X = Some p -> 0 <= p <= 1.

(** [get_classifier]'s condition as the code has it: a directory is given,
    its two required files exist, and every artifact present in it loads. *)
Definition loads_if_present `{FileSystem} (dir name : string) : Prop :=
  path_exists (path_join dir name) = true ->
  joblib_load (path_join dir name) <> None.

Definition present_files_load `{FileSystem} (dir : string) : Prop :=
  loads_if_present dir "random_forest.pkl"
  /\ loads_if_present dir "gradient_boosting.pkl"
  /\ loads_if_present dir "svm.pkl"
  /\ loads_if_present dir "scaler.pkl"
  /\ (path_exists (path_join dir "weights.json") = true ->
      json_load (path_join dir "weights.json") <> None).

Definition ensemble_available `{FileSystem} (model_dir : option string) : Prop :=
  exists dir,
    model_dir = Some dir /\ dir <> ""
    /\ path_exists (path_join dir "random_forest.pkl") = true
    /\ path_exists (path_join dir "scaler.pkl") = true
    /\ present_files_load dir.

(** The claim's condition: every sub-model and the scaler are present and
    load. *)
Definition all_artifacts_load `{FileSystem} (model_dir : option string) : Prop :=
  exists dir,
    model_dir = Some dir
    /\ (forall name, In name ("scaler" :: EnsembleVoiceClassifier.model_names) ->
          path_exists (path_join dir (name ++ ".pkl")) = true
          /\ joblib_load (path_join dir (name ++ ".pkl")) <> None).

End Spec.

(* ================================================================= *)
(** ** Concrete inputs *)

Module Examples.
Import Instances.

(** A vector of the expected length on which only the onset row fires:
    pitch std 50, MFCC stds alternating 0 and 4 (standard deviation 2),
    jitter 0.03, shimmer 0.05, HNR 10, onset std 0. *)
Definition only_onset : list Q :=
  repeat 0 40
  ++ List.concat (repeat [0; 4] 20)
  ++ repeat 0 10
  ++ [0; 50; 0; 0; 0; 0]
  ++ [0.03; 0.05; 10]
  ++ [0; 0; 0; 0]
  ++ repeat 0 24.

Definition zeros : list Q := repeat 0 127.

(** A model directory with the three sub-models, the scaler and weights
    0.5 / 0.3 / 0.2; the second sub-model raises at inference time. *)
Definition degraded_files : Py.dict file :=
  [ ("models/random_forest.pkl", Pickle (estimator 0.6));
    ("models/gradient_boosting.pkl", Pickle broken_estimator);
    ("models/svm.pkl", Pickle (estimator 0.6));
    ("models/scaler.pkl", Pickle unit_scaler);
    ("models/weights.json",
     Json [("random_forest", 0.5); ("gradient_boosting", 0.3); ("svm", 0.2)]) ].

Definition degraded : EnsembleVoiceClassifier.t :=
  {| EnsembleVoiceClassifier.model_dir := "models";
     EnsembleVoiceClassifier.models :=
       [ ("random_forest", estimator 0.6);
         ("gradient_boosting", broken_estimator);
         ("svm", estimator 0.6) ];
     EnsembleVoiceClassifier.scaler := Some unit_scaler;
     EnsembleVoiceClassifier.weights :=
       [("random_forest", 0.5); ("gradient_boosting", 0.3); ("svm", 0.2)];
     EnsembleVoiceClassifier.model_version := "1.0.0";
     EnsembleVoiceClassifier.is_mock := false |}.

(** A directory holding only the two required files. *)
Definition minimal_files : Py.dict file :=
  [ ("models/random_forest.pkl", Pickle (estimator 0.7004));
    ("models/scaler.pkl", Pickle unit_scaler) ].

Definition minimal : EnsembleVoiceClassifier.t :=
  {| EnsembleVoiceClassifier.model_dir := "models";
     EnsembleVoiceClassifier.models := [("random_forest", estimator 0.7004)];
     EnsembleVoiceClassifier.scaler := Some unit_scaler;
     EnsembleVoiceClassifier.weights := [("random_forest", 1 / 1)];
     EnsembleVoiceClassifier.model_version := "1.0.0";
     EnsembleVoiceClassifier.is_mock := false |}.

(** Three answering sub-models, weights for two of them only. *)
Definition partly_weighted : EnsembleVoiceClassifier.t :=
  {| EnsembleVoiceClassifier.model_dir := "models";
     EnsembleVoiceClassifier.models :=
       [ ("random_forest", estimator 0.8);
         ("gradient_boosting", estimator 0.9);
         ("svm", estimator 0.4) ];
     EnsembleVoiceClassifier.scaler := Some unit_scaler;
     EnsembleVoiceClassifier.weights := [("random_forest", 0.6); ("svm", 0.4)];
     EnsembleVoiceClassifier.model_version := "1.0.0";
     EnsembleVoiceClassifier.is_mock := false |}.

(** Sub-models without the scaler. *)
Definition no_scaler_files : Py.dict file :=
  [ ("models/random_forest.pkl", Pickle (estimator 0.6));
    ("models/gradient_boosting.pkl", Pickle (estimator 0.6));
    ("models/svm.pkl", Pickle (estimator 0.6)) ].

(** Two seconds at 10 Hz: half a second of silence, then a loud tone. *)
Definition quiet_start : list byte := repeat x80 5 ++ repeat xff 15.

(** Half a second, and ninety seconds, at 10 Hz. *)
Definition half_second : list byte := repeat xff 5.
Definition ninety_seconds : list byte := repeat xff 900.

End Examples.

(* ================================================================= *)
(** ** [app/config.py] and [app/auth.py] *)

(** [str(n)] for an [int] *)
Definition str_int (n : Z) : string := NilZero.string_of_int (Z.to_int n).

(** The settings the modelled code reads, with the defaults of
    [class Settings]. *)
Record Settings : Type := {
  api_keys : list string;
  rate_limit_per_minute : Z;
  rate_limit_per_hour : Z;
  max_file_size_mb : Z;
  target_sample_rate : Z;
  model_path : string;
  settings_model_version : string;
  app_version : string
}.

Definition default_settings : Settings :=
  {| api_keys := ["demo_key_12345"];
     rate_limit_per_minute := 60;
     rate_limit_per_hour := 1000;
     max_file_size_mb := 10;
     target_sample_rate := 22050;
     model_path := "models";
     settings_model_version := "1.0.0";
     app_version := "1.0.0" |}.

(** [class RateLimiter].  Every [time.time()] of a method is an argument,
    in the order the calls are made. *)
Module RateLimiter.

(** [requests] is a [defaultdict(list)]: a missing key reads as [[]].
    [limits] has the two keys ['per_minute'] and ['per_hour']. *)
Record t : Type := {
  requests : Py.dict (list Q);
  per_minute : Z;
  per_hour : Z
}.

Definition __init__ (settings : Settings) : t :=
  {| requests := Py.empty;
     per_minute := rate_limit_per_minute settings;
     per_hour := rate_limit_per_hour settings |}.

Definition with_requests (self : t) (r : Py.dict (list Q)) : t :=
  {| requests := r; per_minute := per_minute self; per_hour := per_hour self |}.

(** [self.requests[api_key]] *)
Definition stamps (self : t) (api_key : string) : list Q :=
  Py.get (requests self) api_key [].

(** Returns the updated object and the list it returns. *)
Definition _cleanup_old_requests (self : t) (api_key : string)
    (window_seconds : Q) (now : Q) : t * list Q :=
  let current_time := now in
  let cutoff := current_time - window_seconds in
  let kept := filter (fun ts => ts >? cutoff) (stamps self api_key) in
  (with_requests self (Py.set (requests self) api_key kept), kept).

(** [t0] is read on entry, [t1] and [t2] by the two clean-ups. *)
Definition check_rate_limit (self : t) (api_key : string) (t0 t1 t2 : Q)
  : t * (bool * option string) :=
  let current_time := t0 in
  let '(self, minute_requests) := _cleanup_old_requests self api_key 60 t1 in
  if (per_minute self <=? Z.of_nat (List.length minute_requests))%Z then
    (self, (false,
            Some ("Rate limit exceeded: " ++ str_int (per_minute self)
                  ++ " requests per minute")%string))
  else
    let '(self, hour_requests) := _cleanup_old_requests self api_key 3600 t2 in
    if (per_hour self <=? Z.of_nat (List.length hour_requests))%Z then
      (self, (false,
              Some ("Rate limit exceeded: " ++ str_int (per_hour self)
                    ++ " requests per hour")%string))
    else
      let self :=
        with_requests self
          (Py.set (requests self) api_key (stamps self api_key ++ [current_time])) in
      (self, (true, None)).

(** The list comprehension of [get_remaining] reads the clock once per
    stored stamp: [now i] is the reading for the stamp at position [i]. *)
Fixpoint recent_from (i : nat) (now : nat -> Q) (xs : list Q) : list Q :=
  match xs with
  | [] => []
  | ts :: xs' =>
      if ts >? now i - 60 then ts :: recent_from (S i) now xs'
      else recent_from (S i) now xs'
  end.

Definition get_remaining (self : t) (api_key : string) (t1 : Q) (now : nat -> Q)
  : t * Py.dict Z :=
  let '(self, _) := _cleanup_old_requests self api_key 3600 t1 in
  let minute_requests :=
    Z.of_nat (List.length (recent_from 0 now (stamps self api_key))) in
  let hour_requests := Z.of_nat (List.length (stamps self api_key)) in
  (self,
   [ ("remaining_per_minute", Z.max 0 (per_minute self - minute_requests));
     ("remaining_per_hour", Z.max 0 (per_hour self - hour_requests)) ]).

(** The lists [minute_requests] and [hour_requests] that [check_rate_limit]
    gets from its two clean-ups, in terms of the stamps stored on entry. *)
Definition minute_list (self : t) (api_key : string) (t1 : Q) : list Q :=
  filter (fun ts => ts >? t1 - 60) (stamps self api_key).

Definition hour_list (self : t) (api_key : string) (t1 t2 : Q) : list Q :=
  filter (fun ts => ts >? t2 - 3600) (minute_list self api_key t1).

(** A request as the limiter sees it: the key and the three clock readings
    of [check_rate_limit]. *)
Definition request : Type := string * (Q * Q * Q).

(** The limiter after a sequence of [check_rate_limit] calls. *)
Definition after (self : t) (calls : list request) : t :=
  fold_left (fun self '(api_key, (t0, t1, t2)) =>
               fst (check_rate_limit self api_key t0 t1 t2))
            calls self.

End RateLimiter.

(** What [fastapi.HTTPException] carries.  A detail of the form
    [f"{prefix}{str(e)}"] is kept as its prefix and the exception, one of
    the form [f"{prefix}{x:.2f}{suffix}"] as its parts. *)
Inductive detail_text : Type :=
| Text (s : string)
| TextOf (prefix : string) (e : Py.exn)
| TextNumber (prefix : string) (x : Q) (suffix : string).

Record HTTPException : Type := {
  status_code : Z;
  detail : detail_text;
  headers : Py.dict string
}.

(** [verify_api_key]: the key of the [X-API-Key] header ([None] when the
    header is absent), the settings and the global rate limiter; [t0 t1 t2]
    are the clock readings of [check_rate_limit], [t3] and [now] those of
    [get_remaining].  Returns the limiter as the call leaves it. *)
Definition verify_api_key (settings : Settings) (rate_limiter : RateLimiter.t)
    (api_key : option string) (t0 t1 t2 t3 : Q) (now : nat -> Q)
  : RateLimiter.t * (HTTPException + string) :=
  match api_key with
  | None | Some "" =>
      (rate_limiter,
       inl {| status_code := 401;
              detail := Text "API key required. Include X-API-Key header.";
              headers := [("WWW-Authenticate", "ApiKey")] |})
  | Some api_key =>
      if negb (existsb (String.eqb api_key) (api_keys settings)) then
        (rate_limiter,
         inl {| status_code := 403;
                detail := Text "Invalid API key";
                headers := [] |})
      else
        let '(rate_limiter, (is_allowed, error_message)) :=
          RateLimiter.check_rate_limit rate_limiter api_key t0 t1 t2 in
        if negb is_allowed then
          let '(rate_limiter, remaining) :=
            RateLimiter.get_remaining rate_limiter api_key t3 now in
          (rate_limiter,
           inl {| status_code := 429;
                  detail := Text (match error_message with
                                  | Some m => m
                                  | None => ""
                                  end);
                  headers :=
                    [ ("X-RateLimit-Remaining-Minute",
                       str_int (Py.get remaining "remaining_per_minute" 0%Z));
                      ("X-RateLimit-Remaining-Hour",
                       str_int (Py.get remaining "remaining_per_hour" 0%Z));
                      ("Retry-After", "60") ] |})
        else (rate_limiter, inr api_key)
  end.

(* ================================================================= *)
(** ** [app/models.py] and [app_main.py] *)

(** [base64.b64decode]: [None] when it raises [binascii.Error]. *)
Class Base64 : Type := {
  b64decode : string -> option (list byte)
}.

(** [str(e)]: the message of an exception raised by this code; for an
    exception of third-party code the text is the library's, given by
    [external_text]. *)
Definition str_exn (external_text : string -> string) (e : Py.exn) : string :=
  match e with
  | Py.ValueError msg _ => msg
  | Py.RuntimeError msg => msg
  | Py.FileNotFoundError msg => msg
  | Py.IndexError => "list index out of range"
  | Py.ExternalError call => external_text call
  end.

(** [VoiceDetectionRequest.validate_base64] *)
Definition validate_base64 `{Base64} (external_text : string -> string)
    (v : string) : Py.result string :=
  Py.try_except
    (decoded <- Py.external "base64.b64decode" (b64decode v) ;;
     if (List.length decoded <? 100)%nat
     then Py.Raise (Py.ValueError "Audio data too small" [])
     else Py.Ok v)
    (fun e =>
       Py.Raise (Py.ValueError
                   ("Invalid base64 encoding: " ++ str_exn external_text e) [])).

Record VoiceDetectionRequest : Type := {
  audio_base64 : string;
  language : string
}.

Record VoiceDetectionResponse : Type := {
  prediction : string;
  confidence : Q;
  response_language : string;
  processing_time_ms : Q;
  timestamp : string;
  audio_duration_seconds : Q;
  response_model_version : string
}.

(** Constructing the response model: pydantic checks the [Literal] of
    [prediction] and the [ge]/[le] bounds of the numeric fields and raises
    [ValidationError] when one fails. *)
Definition new_VoiceDetectionResponse (prediction : string) (confidence : Q)
    (language : string) (processing_time_ms : Q) (timestamp : string)
    (audio_duration_seconds : Q) (model_version : string)
  : Py.result VoiceDetectionResponse :=
  if (String.eqb prediction "AI_GENERATED" || String.eqb prediction "HUMAN")
     && Qle_bool 0 confidence && Qle_bool confidence 1
     && Qle_bool 0 processing_time_ms
     && Qle_bool 0 audio_duration_seconds
  then Py.Ok {| prediction := prediction;
                confidence := confidence;
                response_language := language;
                processing_time_ms := processing_time_ms;
                timestamp := timestamp;
                audio_duration_seconds := audio_duration_seconds;
                response_model_version := model_version |}
  else Py.Raise (Py.ExternalError "VoiceDetectionResponse").

(** [classifier.predict(features, language)] on whichever class the factory
    returned; [r] is the draw the heuristic classifier makes. *)
Definition classifier_predict (c : classifier) (features : list Q)
    (language : string) (r : Q) : Py.result (string * Q) :=
  match c with
  | Mock m => Py.Ok (MockVoiceClassifier.predict m features language r)
  | Ensemble e => EnsembleVoiceClassifier.predict e features language
  end.

Definition classifier_model_version (c : classifier) : string :=
  match c with
  | Mock m => MockVoiceClassifier.model_version m
  | Ensemble e => EnsembleVoiceClassifier.model_version e
  end.

Definition http_error (status : Z) (d : detail_text) : HTTPException :=
  {| status_code := status; detail := d; headers := [] |}.

(** [detect_voice] of [app_main.py], after the API key check.
    [start_time] and [end_time] are the two readings of [time.time()],
    [now_text] is [datetime.utcnow().isoformat()]. *)
Definition detect_voice `{Base64} `{Librosa} `{Numeric}
    (settings : Settings) (audio_processor : AudioProcessor.t)
    (classifier : classifier) (request : VoiceDetectionRequest)
    (r start_time end_time : Q) (now_text : string)
  : HTTPException + VoiceDetectionResponse :=
  (* 1. decode base64 audio *)
  match b64decode (audio_base64 request) with
  | None =>
      inl (http_error 400 (TextOf "Invalid base64 encoding: "
                             (Py.ExternalError "base64.b64decode")))
  | Some audio_bytes =>
      (* 2. validate file size *)
      let max_size := (max_file_size_mb settings * 1024 * 1024)%Z in
      if (max_size <? Z.of_nat (List.length audio_bytes))%Z then
        inl (http_error 400
               (Text ("File too large. Maximum size: "
                      ++ str_int (max_file_size_mb settings) ++ "MB")))
      else
        (* 3. preprocess audio *)
        match AudioProcessor.preprocess audio_processor audio_bytes with
        | Py.Raise (Py.ValueError msg args) =>
            inl (http_error 400 (TextOf "" (Py.ValueError msg args)))
        | Py.Raise e =>
            inl (http_error 400 (TextOf "Could not process audio: " e))
        | Py.Ok (audio, sr, duration) =>
            (* 4. extract features (the model's librosa routines are total,
               so the handler of this step is never entered) *)
            let features :=
              Np.arr_data (AudioProcessor.extract_all_features audio sr) in
            (* 5. classify *)
            match classifier_predict classifier features (language request) r with
            | Py.Raise _ =>
                inl (http_error 500 (Text "Error during classification"))
            | Py.Ok (prediction, confidence) =>
                let processing_time_ms := (end_time - start_time) * 1000 in
                match new_VoiceDetectionResponse prediction confidence
                        (language request) (Py.round processing_time_ms 2)
                        now_text (Py.round duration 2)
                        (classifier_model_version classifier) with
                | Py.Ok response => inr response
                | Py.Raise _ =>
                    inl (http_error 500 (Text "An unexpected error occurred"))
                end
            end
        end
  end.

(** [health_check]'s [model_loaded] field. *)
Definition health_model_loaded (classifier : option classifier) : bool :=
  match classifier with
  | Some c => negb (classifier_is_mock c)
  | None => false
  end.

(** *** Stand-ins and inputs for the request path *)

Module AppInstances.

(** Standard base64 with [=] padding; [None] on any other character or on
    a length that is not a multiple of four. *)
Definition sextet (c : ascii) : option N :=
  let n := N_of_ascii c in
  if (65 <=? n)%N && (n <=? 90)%N then Some (n - 65)%N
  else if (97 <=? n)%N && (n <=? 122)%N then Some (n - 71)%N
  else if (48 <=? n)%N && (n <=? 57)%N then Some (n + 4)%N
  else if (n =? 43)%N then Some 62%N
  else if (n =? 47)%N then Some 63%N
  else None.

Definition byte_of (n : N) : list byte :=
  match Byte.of_N (n mod 256) with
  | Some b => [b]
  | None => []
  end.

Fixpoint decode_quads (fuel : nat) (s : string) : option (list byte) :=
  match fuel, s with
  | _, EmptyString => Some []
  | S fuel', String a (String b (String c (String d rest))) =>
      match sextet a, sextet b with
      | Some x, Some y =>
          if Ascii.eqb c "=" && Ascii.eqb d "=" then
            match rest with
            | EmptyString => Some (byte_of (x * 4 + y / 16))
            | _ => None
            end
          else
            match sextet c with
            | Some z =>
                if Ascii.eqb d "=" then
                  match rest with
                  | EmptyString =>
                      Some (byte_of (x * 4 + y / 16)
                            ++ byte_of ((y mod 16) * 16 + z / 4))
                  | _ => None
                  end
                else
                  match sextet d, decode_quads fuel' rest with
                  | Some w, Some tail =>
                      Some (byte_of (x * 4 + y / 16)
                            ++ byte_of ((y mod 16) * 16 + z / 4)
                            ++ byte_of ((z mod 4) * 64 + w)
                            ++ tail)
                  | _, _ => None
                  end
            | None => None
            end
      | _, _ => None
      end
  | _, _ => None
  end.

Definition strict_base64 : Base64 :=
  {| b64decode := fun s => decode_quads (String.length s) s |}.

(** The text of a third-party exception: the name of the call. *)
Definition call_name (call : string) : string := call.

(** Two seconds of 8-bit PCM at 10 Hz, five silent samples and fifteen
    loud ones, base64-encoded. *)
Definition quiet_start_request : VoiceDetectionRequest :=
  {| audio_base64 := "gICAgID///////////////////8=";
     language := "english" |}.

(** Five loud samples: half a second at 10 Hz. *)
Definition half_second_request : VoiceDetectionRequest :=
  {| audio_base64 := "//////8=";
     language := "english" |}.

(** An ensemble whose three sub-models all raise at inference time. *)
Definition all_broken : EnsembleVoiceClassifier.t :=
  {| EnsembleVoiceClassifier.model_dir := "models";
     EnsembleVoiceClassifier.models :=
       [ ("random_forest", Instances.broken_estimator);
         ("gradient_boosting", Instances.broken_estimator);
         ("svm", Instances.broken_estimator) ];
     EnsembleVoiceClassifier.scaler := Some Instances.unit_scaler;
     EnsembleVoiceClassifier.weights :=
       [("random_forest", 0.5); ("gradient_boosting", 0.3); ("svm", 0.2)];
     EnsembleVoiceClassifier.model_version := "1.0.0";
     EnsembleVoiceClassifier.is_mock := false |}.

End AppInstances.

(* ================================================================= *)
(** ** [main.py]: the single-file version of the service *)

(** [librosa.load(..., sr=None)] on a byte stream: the samples at the
    file's own rate. *)
Class LibrosaNative : Type := {
  load_native : list byte -> option (list Q * Z)
}.

Module Legacy.

Section Extractor.
Context `{Librosa} `{Numeric}.

(** [AudioFeatureExtractor.extract_mfcc_features] *)
Definition extract_mfcc_features (audio : list Q) (sr : Z) : list Q :=
  let mfccs := feature_mfcc audio sr 40 in
  let mfcc_mean := Np.mean_axis1 mfccs in
  let mfcc_std := Np.std_axis1 mfccs in
  mfcc_mean ++ mfcc_std.

(** [AudioFeatureExtractor.extract_prosodic_features] *)
Definition extract_prosodic_features (audio : list Q) (sr : Z) : list Q :=
  let pitch_values := AudioProcessor.pitch_values_of audio sr in
  let pitch_mean := match pitch_values with _ :: _ => Np.mean pitch_values | [] => 0 end in
  let pitch_std := match pitch_values with _ :: _ => Np.std pitch_values | [] => 0 end in
  let energy := Np.row0 (feature_rms audio) in
  let energy_mean := Np.mean energy in
  let energy_std := Np.std energy in
  let zcr := Np.row0 (feature_zero_crossing_rate audio) in
  let zcr_mean := Np.mean zcr in
  [pitch_mean; pitch_std; energy_mean; energy_std; zcr_mean].

(** [AudioFeatureExtractor.extract_spectral_features] *)
Definition extract_spectral_features (audio : list Q) (sr : Z) : list Q :=
  let spectral_centroids := Np.row0 (feature_spectral_centroid audio sr) in
  let spectral_rolloff := Np.row0 (feature_spectral_rolloff audio sr) in
  let spectral_bandwidth := Np.row0 (feature_spectral_bandwidth audio sr) in
  [ Np.mean spectral_centroids; Np.std spectral_centroids;
    Np.mean spectral_rolloff; Np.std spectral_rolloff;
    Np.mean spectral_bandwidth; Np.std spectral_bandwidth ].

(** [AudioFeatureExtractor.extract_all_features] *)
Definition extract_all_features (audio : list Q) (sr : Z) : list Q :=
  let mfcc := extract_mfcc_features audio sr in
  let prosody := extract_prosodic_features audio sr in
  let spectral := extract_spectral_features audio sr in
  mfcc ++ prosody ++ spectral.

End Extractor.

(** [np.std(xs) < t] where [np.std] of an empty array is [nan], which
    compares false. *)
Definition std_lt (xs : list Q) (t : Q) : bool :=
  match xs with
  | [] => false
  | _ :: _ => Np.std_lt xs t
  end.

(** [VoiceClassifier.predict]; [r] is the draw of [random.random()] behind
    [random.uniform(0, 0.4)]. *)
Definition ai_score (features : list Q) (r : Q) : Q :=
  let pitch_variance := MockVoiceClassifier.feature_or_0 features 80 in
  let mfcc_variance_low := std_lt (Np.slice features 0 40) 5 in
  let ai_score := 0 in
  let ai_score := if pitch_variance <? 20 then ai_score + 0.3 else ai_score in
  let ai_score := if mfcc_variance_low then ai_score + 0.3 else ai_score in
  ai_score + Py.random_uniform 0 0.4 r.

Definition predict (features : list Q) (language : string) (r : Q) : string * Q :=
  let ai_score := ai_score features r in
  let is_ai := ai_score >? 0.5 in
  let confidence := if is_ai then ai_score else 1 - ai_score in
  let prediction := if is_ai then "AI_GENERATED" else "HUMAN" in
  (prediction, confidence).

(** The response model of [main.py]: pydantic checks the [Literal] of
    [prediction] and the bounds of [confidence] only. *)
Definition new_response (prediction : string) (confidence : Q)
    (language : string) (processing_time_ms : Q) (timestamp : string)
    (audio_duration_seconds : Q) (model_version : string)
  : Py.result VoiceDetectionResponse :=
  if (String.eqb prediction "AI_GENERATED" || String.eqb prediction "HUMAN")
     && Qle_bool 0 confidence && Qle_bool confidence 1
  then Py.Ok {| prediction := prediction;
                confidence := confidence;
                response_language := language;
                processing_time_ms := processing_time_ms;
                timestamp := timestamp;
                audio_duration_seconds := audio_duration_seconds;
                response_model_version := model_version |}
  else Py.Raise (Py.ExternalError "VoiceDetectionResponse").

(** [detect_voice] of [main.py], after the API key check.  Whatever raises
    other than an [HTTPException] becomes the status 500. *)
Definition detect_voice `{Base64} `{LibrosaNative} `{Librosa} `{Numeric}
    (request : VoiceDetectionRequest) (r start_time end_time : Q)
    (now_text : string) : HTTPException + VoiceDetectionResponse :=
  match b64decode (audio_base64 request) with
  | None =>
      inl (http_error 500 (TextOf "Error processing audio: "
                             (Py.ExternalError "base64.b64decode")))
  | Some audio_bytes =>
      match load_native audio_bytes with
      | None =>
          inl (http_error 500 (TextOf "Error processing audio: "
                                 (Py.ExternalError "librosa.load")))
      | Some (audio, sr) =>
          let audio_duration := get_duration audio sr in
          if (audio_duration <? 1) || (audio_duration >? 60) then
            inl (http_error 400
                   (TextNumber "Audio duration must be between 1-60 seconds. Got "
                      audio_duration "s"))
          else
            let features := extract_all_features audio sr in
            let '(prediction, confidence) :=
              predict features (language request) r in
            let processing_time := (end_time - start_time) * 1000 in
            match new_response prediction (Py.round confidence 3)
                    (language request) (Py.round processing_time 2) now_text
                    (Py.round audio_duration 2) "1.0.0" with
            | Py.Ok response => inr response
            | Py.Raise e =>
                inl (http_error 500 (TextOf "Error processing audio: " e))
            end
      end
  end.

End Legacy.

(* ================================================================= *)
(** ** [train_model.py] *)

(** [librosa.load(audio_path, sr=None, duration=30)] *)
Class LibrosaFiles : Type := {
  load_file : string -> option (list Q * Z)
}.

(** [scipy.optimize.minimize(objective, x0, bounds=bounds).x] and
    [sklearn.metrics.roc_auc_score]. *)
Class Optimizer : Type := {
  minimize_x : (list Q -> Q) -> list Q -> list (Q * Q) -> list Q;
  roc_auc_score : list Q -> list Q -> Q
}.

Module Training.

Inductive exn : Type :=
| LoadError
| ZeroDivisionError.

Definition eps6 : Q := 1 # 1000000.

Section Loader.
Context `{Librosa} `{Numeric} `{LibrosaFiles}.

(** The body of [VoiceDatasetLoader.extract_features] after the file is
    loaded.  The last step divides by [len(audio)]: with no interval the
    numerator is the [int] 0 and an empty buffer raises
    [ZeroDivisionError].  (With intervals the numerator is a numpy integer
    and a division by 0 would give a non-finite value, which the rationals
    do not have; librosa returns no interval for an empty buffer.) *)
Definition features_of (audio : list Q) (sr : Z) : exn + list Q :=
  let features := [] in
  (* 1. MFCC *)
  let mfccs := feature_mfcc audio sr 40 in
  let features := features ++ Np.mean_axis1 mfccs in
  let features := features ++ Np.std_axis1 mfccs in
  (* 2. chroma *)
  let chroma := feature_chroma_stft audio sr in
  let features := features ++ Np.mean_axis1 chroma in
  let features := features ++ Np.std_axis1 chroma in
  (* 3. spectral *)
  let spectral_centroids := Np.row0 (feature_spectral_centroid audio sr) in
  let spectral_rolloff := Np.row0 (feature_spectral_rolloff audio sr) in
  let spectral_bandwidth := Np.row0 (feature_spectral_bandwidth audio sr) in
  let features :=
    features ++ [ Np.mean spectral_centroids; Np.std spectral_centroids;
                  Np.mean spectral_rolloff; Np.std spectral_rolloff;
                  Np.mean spectral_bandwidth; Np.std spectral_bandwidth ] in
  (* 4. prosodic *)
  let pitch_values := AudioProcessor.pitch_values_of audio sr in
  let features :=
    features ++ [ match pitch_values with
                  | _ :: _ => Np.mean pitch_values
                  | [] => 0
                  end;
                  match pitch_values with
                  | _ :: _ => Np.std pitch_values
                  | [] => 0
                  end ] in
  (* 5. energy *)
  let energy := Np.row0 (feature_rms audio) in
  let features := features ++ [Np.mean energy; Np.std energy] in
  (* 6. zero crossing rate *)
  let zcr := Np.row0 (feature_zero_crossing_rate audio) in
  let features := features ++ [Np.mean zcr; Np.std zcr] in
  (* 7. harmonic-to-noise ratio *)
  let '(harmonic, percussive) := effects_hpss audio in
  let hnr := Np.mean harmonic / (Np.mean percussive + eps6) in
  let features := features ++ [hnr] in
  (* 8. silence ratio *)
  let intervals := effects_split audio 30 in
  match intervals, audio with
  | [], [] => inl ZeroDivisionError
  | _, _ =>
      let silence_ratio :=
        1 - inject_Z (fold_left Z.add
                        (map (fun '(start, end_) => (end_ - start)%Z) intervals)
                        0%Z)
            / Np.size audio in
      inr (features ++ [silence_ratio])
  end.

Definition extract_features (audio_path : string) : exn + list Q :=
  match load_file audio_path with
  | None => inl LoadError
  | Some (audio, sr) => features_of audio sr
  end.

End Loader.

(** The dict comprehension [{name: w for name, w in zip(names, values)}]. *)
Definition dict_of_zip (names : list string) (values : list Q) : Py.dict Q :=
  fold_left (fun d '(name, w) => Py.set d name w) (combine names values) Py.empty.

(** [x / x.sum()], element by element *)
Definition normalize (x : list Q) : list Q := map (fun w => w / Py.sum x) x.

(** [sum(w * predictions[name] for w, name in zip(weights, names))] on
    prediction vectors of one length (one entry per validation sample). *)
Definition blend (weights : list Q) (vectors : list (list Q)) : list Q :=
  fold_left
    (fun acc '(w, v) =>
       match acc with
       | [] => map (Qmult w) v
       | _ => map (fun '(a, x) => a + w * x) (combine acc v)
       end)
    (combine weights vectors) [].

(** The local function [objective] of [_optimize_weights]. *)
Definition objective `{Optimizer}
    (predictions_dict : Py.dict (list Q)) (y_true : list Q) (weights : list Q) : Q :=
  let weights := normalize weights in
  let ensemble := blend weights (map snd (Py.items predictions_dict)) in
  - roc_auc_score y_true ensemble.

(** [result.x] in [_optimize_weights] *)
Definition result_x `{Optimizer}
    (predictions_dict : Py.dict (list Q)) (y_true : list Q) : list Q :=
  let n_models := Py.len predictions_dict in
  let initial_weights := repeat (1 / inject_Z (Z.of_nat n_models)) n_models in
  let bounds := repeat (0, 1) n_models in
  minimize_x (objective predictions_dict y_true) initial_weights bounds.

(** [EnsembleVoiceClassifier._optimize_weights] *)
Definition _optimize_weights `{Optimizer}
    (predictions_dict : Py.dict (list Q)) (y_true : list Q) : Py.dict Q :=
  let optimized := normalize (result_x predictions_dict y_true) in
  dict_of_zip (Py.keys predictions_dict) optimized.

End Training.

(** What the optimizer is documented to return: a point of the dimension
    of the start point, inside the bounds (each a pair with the lower bound
    first). *)
Class OptimizerLaws `{Optimizer} : Prop := {
  minimize_length : forall objective x0 bounds,
    List.length (minimize_x objective x0 bounds) = List.length x0;
  minimize_in_bounds : forall objective x0 bounds,
    List.length bounds = List.length x0 ->
    Forall (fun b => fst b <= snd b) bounds ->
    Forall2 (fun x b => fst b <= x /\ x <= snd b)
            (minimize_x objective x0 bounds) bounds
}.

Module TrainingInstances.

(** A byte stream per path: the file is read as 8-bit PCM at 10 Hz. *)
Definition pcm_files (files : Py.dict (list byte)) : LibrosaFiles :=
  {| load_file := fun path =>
       match Py.find files path with
       | Some audio_bytes => Some (map Instances.pcm_sample audio_bytes, 10%Z)
       | None => None
       end |}.

(** The native-rate loader of [main.py] on the same format. *)
Definition pcm_native : LibrosaNative :=
  {| load_native := fun audio_bytes =>
       match audio_bytes with
       | [] => None
       | _ => Some (map Instances.pcm_sample audio_bytes, 10%Z)
       end |}.

(** The start point moved into the bounds, coordinate by coordinate. *)
Fixpoint clip (x0 : list Q) (bounds : list (Q * Q)) : list Q :=
  match x0, bounds with
  | x :: xs, (lo, hi) :: bs => Qmax lo (Qmin x hi) :: clip xs bs
  | xs, _ => xs
  end.

(** An optimizer that stops at once, on a flat objective. *)
Definition idle_optimizer : Optimizer :=
  {| minimize_x := fun _ x0 bounds => clip x0 bounds;
     roc_auc_score := fun _ _ => 1 # 2 |}.

Definition validation_predictions : Py.dict (list Q) :=
  [ ("random_forest", [0.9; 0.2]);
    ("gradient_boosting", [0.8; 0.4]);
    ("svm", [0.7; 0.1]) ].

End TrainingInstances.

(* ================================================================= *)
(** ** Lemmas on the Python and numpy layer *)

Section PyFacts.

Lemma ltb_lt (x y : Q) : (x <? y) = true <-> x < y.
Proof.
  unfold Py.ltb. rewrite negb_true_iff.
  split; intro Hxy.
  - apply Qnot_le_lt. intro Hle.
    apply Qle_bool_iff in Hle. congruence.
  - destruct (Qle_bool y x) eqn:E; [|reflexivity].
    apply Qle_bool_iff in E. apply Qle_not_lt in E. contradiction.
Qed.

Lemma ltb_ge (x y : Q) : (x <? y) = false <-> y <= x.
Proof.
  unfold Py.ltb. rewrite negb_false_iff. apply Qle_bool_iff.
Qed.

Lemma gtb_lt (x y : Q) : (x >? y) = true <-> y < x.
Proof. unfold Py.gtb. apply ltb_lt. Qed.

Lemma gtb_le (x y : Q) : (x >? y) = false <-> x <= y.
Proof. unfold Py.gtb. apply ltb_ge. Qed.

Lemma fold_plus_shift (xs : list Q) (a : Q) :
  fold_left Qplus xs a == a + fold_left Qplus xs 0.
Proof.
  revert a. induction xs as [|x xs IH]; intro a; simpl.
  - ring.
  - rewrite (IH (a + x)), (IH (0 + x)). ring.
Qed.

Lemma sum_cons (x : Q) (xs : list Q) : Py.sum (x :: xs) == x + Py.sum xs.
Proof.
  unfold Py.sum. simpl. rewrite fold_plus_shift. ring.
Qed.

(** Rounding to the nearest integer stays on the same side of an integer. *)
Lemma round_half_even_ge (n : Z) (x : Q) :
  inject_Z n <= x -> (n <= Py.round_half_even x)%Z.
Proof.
  intro Hn.
  assert (n <= Qfloor x)%Z as Hfloor.
  { rewrite <- (Qfloor_Z n). apply Qfloor_resp_le. exact Hn. }
  unfold Py.round_half_even.
  repeat match goal with |- context [if ?c then _ else _] => destruct c end; lia.
Qed.

Lemma round_half_even_le (n : Z) (x : Q) :
  x <= inject_Z n -> (Py.round_half_even x <= n)%Z.
Proof.
  intro Hn.
  destruct (Qlt_le_dec x (inject_Z n)) as [Hlt | Hge].
  - assert (Qfloor x < n)%Z as Hfloor.
    { rewrite Zlt_Qlt. eapply Qle_lt_trans; [apply Qfloor_le | exact Hlt]. }
    unfold Py.round_half_even.
    repeat match goal with |- context [if ?c then _ else _] => destruct c end; lia.
  - assert (x == inject_Z n) as Heq by (apply Qle_antisym; assumption).
    unfold Py.round_half_even.
    rewrite (Qfloor_comp _ _ Heq), Qfloor_Z.
    assert ((x - inject_Z n <? 1 # 2) = true) as ->; [|reflexivity].
    apply ltb_lt. rewrite Heq. lra.
Qed.

Lemma round3_scaled (x : Q) :
  Py.round x 3 * 1000 == inject_Z (Py.round_half_even (x * 1000)).
Proof.
  unfold Py.round.
  change (inject_Z (10 ^ Z.of_nat 3)) with 1000.
  field.
Qed.

(** Rounding to three decimals does not cross 0.5 from above. *)
Lemma round3_mass (x : Q) :
  0.5 <= x -> 0.5 <= Py.round x 3.
Proof.
  intro Hx.
  assert (inject_Z 500 <= x * 1000) as Hlo
      by (change (inject_Z 500) with 500; lra).
  apply round_half_even_ge in Hlo. rewrite Zle_Qle in Hlo.
  rewrite <- round3_scaled in Hlo. change (inject_Z 500) with 500 in Hlo. lra.
Qed.

Lemma round3_le (hi : Z) (x : Q) :
  x * 1000 <= inject_Z hi -> Py.round x 3 * 1000 <= inject_Z hi.
Proof.
  intro Hhi. apply round_half_even_le in Hhi. rewrite Zle_Qle in Hhi.
  rewrite round3_scaled. assumption.
Qed.

End PyFacts.

(* ================================================================= *)
(** ** The heuristic classifier *)

Section Heuristic.

Import MockVoiceClassifier.

Lemma feature_or_0_in_range (features : list Q) (i : nat) :
  (i < List.length features)%nat -> feature_or_0 features i = nth i features 0.
Proof.
  intro Hi. unfold feature_or_0.
  apply Nat.ltb_lt in Hi. rewrite Hi. reflexivity.
Qed.

Lemma feature_or_0_out_of_range (features : list Q) (i : nat) :
  (List.length features <= i)%nat -> feature_or_0 features i = 0.
Proof.
  intro Hi. unfold feature_or_0.
  apply Nat.ltb_ge in Hi. rewrite Hi. reflexivity.
Qed.

(** Reading a missing offset as 0 and reading it by [nth] agree. *)
Lemma feature_or_0_nth (features : list Q) (i : nat) :
  feature_or_0 features i = nth i features 0.
Proof.
  destruct (Nat.lt_ge_cases i (List.length features)) as [Hi | Hi].
  - apply feature_or_0_in_range, Hi.
  - rewrite feature_or_0_out_of_range by exact Hi.
    symmetry. apply nth_overflow, Hi.
Qed.

Lemma low_excludes_high (x lo hi : Q) :
  lo <= hi -> (x <? lo) = true -> (x >? hi) = false.
Proof.
  intros Hlohi Hlo. apply ltb_lt in Hlo. apply gtb_le. lra.
Qed.

(** The accumulated score on any vector: the scalar rows read the vector
    with 0 for a missing offset, the MFCC row needs 80 entries. *)
Lemma ai_score_normalized_rows (features : list Q) :
  ai_score_normalized features
  == Spec.clamp 0 1
       (0.5 + (Spec.scalar_adjustments features
               + if (80 <=? List.length features)%nat
                 then Spec.adjustment (Np.std_lt (Np.slice features 40 80) 2) 0.20
                 else 0)).
Proof.
  unfold ai_score_normalized, Spec.clamp, Spec.scalar_adjustments.
  rewrite !feature_or_0_nth.
  apply Q.max_compat; [reflexivity|].
  apply Q.min_compat; [reflexivity|].
  apply Qplus_comp; [reflexivity|].
  cbv zeta.
  set (p := nth 91 features 0). set (j := nth 96 features 0).
  set (sh := nth 97 features 0). set (h := nth 98 features 0).
  set (o := nth 101 features 0).
  set (m := Np.std_lt (Np.slice features 40 80) 2).
  assert (Hp := low_excludes_high p 30 100 ltac:(lra)).
  assert (Hj := low_excludes_high j 0.02 0.05 ltac:(lra)).
  unfold Spec.adjustment.
  destruct (p <? 30); [rewrite Hp by reflexivity | destruct (p >? 100)];
    (destruct (j <? 0.02); [rewrite Hj by reflexivity | destruct (j >? 0.05)]);
    destruct (sh <? 0.03), (h >? 15), (o <? 0.5), m,
             (80 <=? List.length features)%nat; ring.
Qed.

Lemma adjustments_split (features : list Q) :
  Spec.adjustments features
  == Spec.scalar_adjustments features
     + Spec.adjustment (Np.std_lt (Np.slice features 40 80) 2) 0.20.
Proof. unfold Spec.adjustments, Spec.scalar_adjustments. ring. Qed.

Lemma uniform_noise_bounds (r : Q) :
  0 <= r <= 1 ->
  -0.1 <= Py.random_uniform (-0.1) 0.1 r /\ Py.random_uniform (-0.1) 0.1 r <= 0.1.
Proof. unfold Py.random_uniform. intros [Hr0 Hr1]. split; lra. Qed.

Lemma clamp_bounds (lo hi x : Q) :
  lo <= hi -> lo <= Spec.clamp lo hi x /\ Spec.clamp lo hi x <= hi.
Proof.
  intro Hlohi. unfold Spec.clamp. split.
  - apply Q.le_max_l.
  - apply Q.max_lub; [exact Hlohi | apply Q.le_min_l].
Qed.

Lemma clamp_compat (lo hi x y : Q) :
  x == y -> Spec.clamp lo hi x == Spec.clamp lo hi y.
Proof.
  intro Hxy. unfold Spec.clamp.
  apply Q.max_compat; [reflexivity|].
  apply Q.min_compat; [reflexivity | exact Hxy].
Qed.

Lemma ai_score_final_bounds (features : list Q) (r : Q) :
  0.05 <= ai_score_final features r /\ ai_score_final features r <= 0.95.
Proof.
  unfold ai_score_final.
  apply (clamp_bounds 0.05 0.95). lra.
Qed.

Lemma mass_of_bounds (lo s : Q) :
  lo <= 0.5 -> lo <= s -> s <= 1 - lo ->
  0.5 <= Spec.mass_of s /\ Spec.mass_of s <= 1 - lo.
Proof.
  intros Hlo Hs0 Hs1. unfold Spec.mass_of.
  destruct (s >? 0.5) eqn:E.
  - apply gtb_lt in E. split; lra.
  - apply gtb_le in E. split; lra.
Qed.

Lemma mass_of_ge_half (s : Q) : 0.5 <= Spec.mass_of s.
Proof.
  unfold Spec.mass_of.
  destruct (s >? 0.5) eqn:E.
  - apply gtb_lt in E. lra.
  - apply gtb_le in E. lra.
Qed.

Lemma label_of_cases (s : Q) :
  Spec.label_of s = "AI_GENERATED" \/ Spec.label_of s = "HUMAN".
Proof. unfold Spec.label_of. destruct (s >? 0.5); [left | right]; reflexivity. Qed.

Lemma label_of_ai (s : Q) : Spec.label_of s = "AI_GENERATED" <-> 0.5 < s.
Proof.
  unfold Spec.label_of. rewrite <- gtb_lt.
  destruct (s >? 0.5); split; intro E; try reflexivity; discriminate E.
Qed.

Lemma predict_unfold (self : t) (features : list Q) (language : string) (r : Q) :
  predict self features language r
  = (Spec.label_of (ai_score_final features r),
     Py.round (Spec.mass_of (ai_score_final features r)) 3).
Proof.
  unfold predict, Spec.label_of, Spec.mass_of. reflexivity.
Qed.

End Heuristic.

(** C2 (amended).  On a vector of the expected length 127 the accumulated
    score is 0.5 plus exactly the rows of the adjustment table, clamped to
    [0, 1].  The label and the confidence are then taken from a second score:
    the accumulated score plus a uniform draw from [-0.1, 0.1], clamped to
    [0.05, 0.95].  The label is AI_GENERATED iff that final score exceeds 0.5,
    and the confidence is the final score (AI_GENERATED) or 1 minus it
    (HUMAN), rounded to three decimals. *)
Theorem heuristic_score_table
    (self : MockVoiceClassifier.t) (features : list Q) (language : string) (r : Q) :
  List.length features = 127%nat ->
  MockVoiceClassifier.ai_score_normalized features
  == Spec.clamp 0 1 (0.5 + Spec.adjustments features)
  /\ MockVoiceClassifier.ai_score_final features r
     == Spec.clamp 0.05 0.95
          (MockVoiceClassifier.ai_score_normalized features
           + Py.random_uniform (-0.1) 0.1 r)
  /\ (0 <= r <= 1 ->
      -0.1 <= Py.random_uniform (-0.1) 0.1 r
      /\ Py.random_uniform (-0.1) 0.1 r <= 0.1)
  /\ (fst (MockVoiceClassifier.predict self features language r) = "AI_GENERATED"
      <-> 0.5 < MockVoiceClassifier.ai_score_final features r)
  /\ (fst (MockVoiceClassifier.predict self features language r) = "AI_GENERATED"
      \/ fst (MockVoiceClassifier.predict self features language r) = "HUMAN")
  /\ snd (MockVoiceClassifier.predict self features language r)
     = Py.round (Spec.mass_of (MockVoiceClassifier.ai_score_final features r)) 3.
Proof.
  intro Hlen.
  split; [|split; [|split; [|split; [|split]]]].
  - rewrite ai_score_normalized_rows. apply clamp_compat.
    rewrite adjustments_split, Hlen. reflexivity.
  - reflexivity.
  - apply uniform_noise_bounds.
  - rewrite predict_unfold. apply label_of_ai.
  - rewrite predict_unfold. apply label_of_cases.
  - rewrite predict_unfold. reflexivity.
Qed.

Lemma heuristic_score_table_witness :
  List.length Examples.zeros = 127%nat
  /\ MockVoiceClassifier.ai_score_normalized Examples.zeros
     == Spec.clamp 0 1 (0.5 + Spec.adjustments Examples.zeros).
Proof.
  split.
  - reflexivity.
  - apply (heuristic_score_table MockVoiceClassifier.__init__ Examples.zeros
             "english" (1 # 2)).
    reflexivity.
Defined.

(** C2, as stated, fails.  On the all-zero vector the accumulated score is 1
    and, with zero noise (draw 1/2), the returned confidence is 0.95, not 1.
    On a vector of accumulated score 0.6 and the draw 0 (noise -0.1) the
    label is HUMAN with confidence 0.5, although the accumulated score
    exceeds 0.5. *)
Lemma heuristic_score_table_counterexample :
  (List.length Examples.zeros = 127%nat
   /\ MockVoiceClassifier.ai_score_normalized Examples.zeros == 1
   /\ fst (MockVoiceClassifier.predict MockVoiceClassifier.__init__
             Examples.zeros "english" (1 # 2)) = "AI_GENERATED"
   /\ snd (MockVoiceClassifier.predict MockVoiceClassifier.__init__
             Examples.zeros "english" (1 # 2)) == 0.95)
  /\ (List.length Examples.only_onset = 127%nat
      /\ MockVoiceClassifier.ai_score_normalized Examples.only_onset == 0.6
      /\ 0.5 < MockVoiceClassifier.ai_score_normalized Examples.only_onset
      /\ fst (MockVoiceClassifier.predict MockVoiceClassifier.__init__
                Examples.only_onset "english" 0) = "HUMAN"
      /\ snd (MockVoiceClassifier.predict MockVoiceClassifier.__init__
                Examples.only_onset "english" 0) == 0.5).
Proof.
  repeat split; vm_compute; try reflexivity; intro; discriminate.
Qed.

(** C9 (amended).  On a vector of any length, the empty one included,
    [predict] returns a label and a confidence in [0.5, 0.95]: no index is
    read out of range.  An offset beyond the vector's length is read as the
    value 0 and its rows are applied to that 0 (so the "low" rows on offsets
    91, 96, 97 and 101 add their weight); only the row on std(40:80) is left
    out, when the vector has fewer than 80 entries. *)
Theorem heuristic_total
    (self : MockVoiceClassifier.t) (features : list Q) (language : string) (r : Q) :
  (fst (MockVoiceClassifier.predict self features language r) = "AI_GENERATED"
   \/ fst (MockVoiceClassifier.predict self features language r) = "HUMAN")
  /\ 0.5 <= snd (MockVoiceClassifier.predict self features language r)
  /\ snd (MockVoiceClassifier.predict self features language r) <= 0.95
  /\ (forall i,
        MockVoiceClassifier.feature_or_0 features (List.length features + i) = 0)
  /\ MockVoiceClassifier.ai_score_normalized features
     == Spec.clamp 0 1
          (0.5 + (Spec.scalar_adjustments features
                  + if (80 <=? List.length features)%nat
                    then Spec.adjustment
                           (Np.std_lt (Np.slice features 40 80) 2) 0.20
                    else 0)).
Proof.
  rewrite predict_unfold. cbn [fst snd].
  pose proof (ai_score_final_bounds features r) as [Hlo Hhi].
  destruct (mass_of_bounds 0.05 (MockVoiceClassifier.ai_score_final features r))
    as [Hm0 Hm1]; try assumption; try lra.
  split; [apply label_of_cases|].
  split; [apply round3_mass, Hm0|].
  split.
  { pose proof (round3_le 950
                  (Spec.mass_of (MockVoiceClassifier.ai_score_final features r)))
      as Hr.
    change (inject_Z 950) with 950 in Hr.
    assert (Spec.mass_of (MockVoiceClassifier.ai_score_final features r) * 1000
            <= 950) as Hscaled by lra.
    specialize (Hr Hscaled). lra. }
  split.
  - intro i. apply feature_or_0_out_of_range. lia.
  - apply ai_score_normalized_rows.
Qed.

(** C9, as stated, fails: on the empty vector every offset is out of range,
    yet the rows on offsets 91, 96, 97 and 101 fire on the substituted 0 and
    the accumulated score is 1, where zero contributions would leave 0.5; with
    zero noise the answer is AI_GENERATED with confidence 0.95. *)
Lemma heuristic_total_counterexample :
  MockVoiceClassifier.ai_score_normalized [] == 1
  /\ Spec.zero_contribution_score [] == 0.5
  /\ ~ MockVoiceClassifier.ai_score_normalized [] == Spec.zero_contribution_score []
  /\ fst (MockVoiceClassifier.predict MockVoiceClassifier.__init__ []
            "english" (1 # 2)) = "AI_GENERATED"
  /\ snd (MockVoiceClassifier.predict MockVoiceClassifier.__init__ []
            "english" (1 # 2)) == 0.95.
Proof.
  repeat split; vm_compute; try reflexivity; intro; discriminate.
Qed.

(* ================================================================= *)
(** ** The ensemble classifier *)

Section Ensemble.

Import EnsembleVoiceClassifier.

Lemma set_fresh {V} (d : Py.dict V) (k : string) (v : V) :
  ~ In k (Py.keys d) -> Py.set d k v = d ++ [(k, v)].
Proof.
  induction d as [|[k' v'] d IH]; simpl; intro Hfresh.
  - reflexivity.
  - destruct (String.eqb_spec k' k) as [-> | Hne].
    + exfalso. apply Hfresh. left. reflexivity.
    + rewrite IH; [reflexivity|]. intro Hin. apply Hfresh. right. exact Hin.
Qed.

Lemma keys_app {V} (d1 d2 : Py.dict V) :
  Py.keys (d1 ++ d2) = Py.keys d1 ++ Py.keys d2.
Proof. unfold Py.keys. apply map_app. Qed.

Lemma keys_set {V} (d : Py.dict V) (k : string) (v : V) (k0 : string) :
  In k0 (Py.keys (Py.set d k v)) <-> k0 = k \/ In k0 (Py.keys d).
Proof.
  induction d as [|[k' v'] d IH]; simpl.
  - intuition congruence.
  - destruct (String.eqb_spec k' k) as [-> | Hne]; simpl.
    + intuition congruence.
    + rewrite IH. intuition congruence.
Qed.

Lemma wf_set {V} (d : Py.dict V) (k : string) (v : V) :
  Py.wf d -> Py.wf (Py.set d k v).
Proof.
  unfold Py.wf. induction d as [|[k' v'] d IH]; simpl; intro Hwf.
  - constructor; [intros [] | constructor].
  - inversion Hwf as [|? ? Hnotin Hrest]; subst.
    destruct (String.eqb_spec k' k) as [-> | Hne]; simpl.
    + constructor; assumption.
    + constructor; [|apply IH, Hrest].
      intro Hin. apply (keys_set d k v k') in Hin.
      destruct Hin as [-> | Hin]; [apply Hne; reflexivity | contradiction].
Qed.

(** One turn of the loop, in terms of [Spec.proba_of]. *)
Lemma loop_body (model : PyObject) (X : Np.matrix) :
  (probs <- Py.external "predict_proba" (predict_proba model X) ;;
   index2 probs 0 1)
  = match Spec.proba_of model X with
    | Some p => Py.Ok p
    | None =>
        match predict_proba model X with
        | Some _ => Py.Raise Py.IndexError
        | None => Py.Raise (Py.ExternalError "predict_proba")
        end
    end.
Proof.
  unfold Spec.proba_of, Py.external, Py.bind.
  destruct (predict_proba model X) as [probs|]; [|reflexivity].
  unfold index2.
  destruct (nth_error probs 0) as [row|]; [|reflexivity].
  destruct (nth_error row 1); reflexivity.
Qed.

(** With distinct names, the loop appends the answers in order. *)
Lemma loop_appends (ms : Py.dict PyObject) (X : Np.matrix) (acc : Py.dict Q) :
  Py.wf ms ->
  (forall k, In k (Py.keys acc) -> ~ In k (Py.keys ms)) ->
  fold_left (loop_step X) ms acc = acc ++ Spec.survivors ms X.
Proof.
  revert acc. induction ms as [|[name model] ms IH]; intros acc Hwf Hdisjoint.
  - simpl. rewrite app_nil_r. reflexivity.
  - inversion Hwf as [|? ? Hnotin Hrest]; subst.
    cbn [fold_left Spec.survivors flat_map].
    unfold loop_step at 2. rewrite loop_body.
    destruct (Spec.proba_of model X) as [p|].
    + rewrite set_fresh.
      * rewrite IH; [rewrite <- app_assoc; reflexivity | exact Hrest |].
        intros k Hk. rewrite keys_app, in_app_iff in Hk.
        destruct Hk as [Hk | [<- | []]]; [|exact Hnotin].
        intro Hin. apply (Hdisjoint k Hk). right. exact Hin.
      * intro Hin. apply (Hdisjoint name Hin). left. reflexivity.
    + assert (fold_left (loop_step X) ms acc = acc ++ Spec.survivors ms X) as Hind.
      { apply IH; [exact Hrest|].
        intros k Hk Hin. apply (Hdisjoint k Hk). right. exact Hin. }
      destruct (predict_proba model X); exact Hind.
Qed.

Lemma predictions_of_survivors (self : t) (X : Np.matrix) :
  Py.wf (models self) ->
  predictions_of self X = Spec.survivors (models self) X.
Proof.
  intro Hwf. unfold predictions_of, Py.items.
  rewrite loop_appends; [reflexivity | exact Hwf | intros k []].
Qed.

Lemma truthy_nonempty {V} (d : Py.dict V) : Py.truthy d = true <-> d <> [].
Proof. destruct d; simpl; split; congruence. Qed.

(** [ensemble_score] once the scaler ran and some sub-model answered. *)
Lemma ensemble_score_survivors (self : t) (features : list Q) (X : Np.matrix) :
  Py.wf (models self) ->
  Spec.scaled self features = Some X ->
  Spec.survivors (models self) X <> [] ->
  ensemble_score self features
  = Py.Ok (Spec.fused (weights self) (Spec.survivors (models self) X)).
Proof.
  intros Hwf Hscaled Hsome.
  unfold ensemble_score.
  assert (match scaler self with
          | Some s => Py.external "scaler.transform" (transform s [features])
          | None => Py.Ok [features]
          end = Py.Ok X) as ->.
  { unfold Spec.scaled in Hscaled. revert Hscaled.
    destruct (scaler self); intro Hscaled.
    - rewrite Hscaled. reflexivity.
    - injection Hscaled as <-. reflexivity. }
  cbn [Py.bind]. rewrite (predictions_of_survivors self X Hwf).
  apply truthy_nonempty in Hsome. rewrite Hsome. reflexivity.
Qed.

Lemma predict_of_score (self : t) (features : list Q) (language : string) (s : Q) :
  ensemble_score self features = Py.Ok s ->
  predict self features language
  = Py.Ok (Spec.label_of s, Py.round (Spec.mass_of s) 3).
Proof. intro Hs. unfold predict. rewrite Hs. reflexivity. Qed.

Lemma predict_inv (self : t) (features : list Q) (language : string)
    (label : string) (confidence : Q) :
  predict self features language = Py.Ok (label, confidence) ->
  exists s, ensemble_score self features = Py.Ok s
            /\ label = Spec.label_of s
            /\ confidence = Py.round (Spec.mass_of s) 3.
Proof.
  unfold predict. destruct (ensemble_score self features) as [s|e]; simpl.
  - intro Heq. exists s. inversion Heq. auto.
  - discriminate.
Qed.

Lemma fused_cons (W : Py.dict Q) (name : string) (p : Q)
    (answers : list (string * Q)) :
  Spec.fused W ((name, p) :: answers)
  == Py.get W name 0 * p + Spec.fused W answers.
Proof. unfold Spec.fused. cbn [map]. apply sum_cons. Qed.

Lemma fused_nil (W : Py.dict Q) : Spec.fused W [] == 0.
Proof. reflexivity. Qed.

Lemma get_absent (W : Py.dict Q) (name : string) :
  Py.contains W name = false -> Py.get W name 0 = 0.
Proof.
  unfold Py.contains, Py.get. destruct (Py.find W name); [discriminate|reflexivity].
Qed.

(** Answers without a weight add nothing to the fused score. *)
Lemma fused_weighted_only (W : Py.dict Q) (answers : list (string * Q)) :
  Spec.fused W answers == Spec.fused W (Spec.weighted_only W answers).
Proof.
  induction answers as [|[name p] answers IH]; [reflexivity|].
  unfold Spec.weighted_only. cbn [filter fst].
  fold (Spec.weighted_only W answers).
  destruct (Py.contains W name) eqn:Hkey.
  - rewrite !fused_cons, IH. reflexivity.
  - rewrite fused_cons, (get_absent W name Hkey), IH. ring.
Qed.

Lemma total_weight_cons (W : Py.dict Q) (name : string) (names : list string) :
  Spec.total_weight W (name :: names)
  == Py.get W name 0 + Spec.total_weight W names.
Proof. unfold Spec.total_weight. cbn [map]. apply sum_cons. Qed.

(** With non-negative weights and probabilities in [0, 1] the fused score
    lies between 0 and the total weight of the loaded sub-models. *)
Lemma fused_bounds (W : Py.dict Q) (ms : Py.dict PyObject) (X : Np.matrix) :
  (forall name, 0 <= Py.get W name 0) ->
  (forall name model p,
      In (name, model) ms -> Spec.proba_of model X = Some p -> 0 <= p <= 1) ->
  0 <= Spec.fused W (Spec.survivors ms X)
  /\ Spec.fused W (Spec.survivors ms X) <= Spec.total_weight W (Py.keys ms).
Proof.
  intros HW. induction ms as [|[name model] ms IH]; intro Hp.
  - simpl. rewrite fused_nil. unfold Spec.total_weight, Py.sum. simpl. lra.
  - destruct IH as [IH0 IH1].
    { intros n m p Hin. apply (Hp n). right. exact Hin. }
    cbn [Spec.survivors flat_map Py.keys map fst].
    fold (Spec.survivors ms X). fold (Py.keys ms).
    rewrite total_weight_cons.
    pose proof (HW name) as Hw.
    destruct (Spec.proba_of model X) as [p|] eqn:Hproba.
    + destruct (Hp name model p (or_introl eq_refl) Hproba) as [Hp0 Hp1].
      cbn [app]. rewrite fused_cons.
      assert (0 <= Py.get W name 0 * p) by (apply Qmult_le_0_compat; assumption).
      assert (Py.get W name 0 * p <= Py.get W name 0) by nra.
      split; lra.
    + cbn [app]. split; lra.
Qed.

End Ensemble.

(** C1 (amended).  When the scaler runs and at least one sub-model answers
    (whatever the others do), [predict] does not fail, and the fused score is
    the sum over the surviving sub-models of the originally loaded weight
    times the positive-class probability.  The weights are not renormalized
    over the survivors: with weights 0.5 / 0.3 / 0.2 and the second sub-model
    failing the score is 0.5 pA + 0.2 pC. *)
Theorem ensemble_partial_failure
    (self : EnsembleVoiceClassifier.t) (features : list Q) (language : string)
    (X : Np.matrix) :
  Py.wf (EnsembleVoiceClassifier.models self) ->
  Spec.scaled self features = Some X ->
  Spec.survivors (EnsembleVoiceClassifier.models self) X <> [] ->
  EnsembleVoiceClassifier.ensemble_score self features
  = Py.Ok (Spec.fused (EnsembleVoiceClassifier.weights self)
             (Spec.survivors (EnsembleVoiceClassifier.models self) X))
  /\ EnsembleVoiceClassifier.predict self features language
     = Py.Ok
         (Spec.label_of
            (Spec.fused (EnsembleVoiceClassifier.weights self)
               (Spec.survivors (EnsembleVoiceClassifier.models self) X)),
          Py.round
            (Spec.mass_of
               (Spec.fused (EnsembleVoiceClassifier.weights self)
                  (Spec.survivors (EnsembleVoiceClassifier.models self) X))) 3).
Proof.
  intros Hwf Hscaled Hsome.
  pose proof (ensemble_score_survivors self features X Hwf Hscaled Hsome) as Hs.
  split; [exact Hs|].
  apply predict_of_score, Hs.
Qed.

Lemma degraded_wf : Py.wf (EnsembleVoiceClassifier.models Examples.degraded).
Proof.
  unfold Py.wf. cbn.
  repeat constructor; cbn; intuition discriminate.
Defined.

Lemma ensemble_partial_failure_witness :
  Py.wf (EnsembleVoiceClassifier.models Examples.degraded)
  /\ Spec.scaled Examples.degraded Examples.zeros = Some [Examples.zeros]
  /\ Spec.survivors (EnsembleVoiceClassifier.models Examples.degraded)
       [Examples.zeros] <> []
  /\ EnsembleVoiceClassifier.ensemble_score Examples.degraded Examples.zeros
     = Py.Ok (Spec.fused (EnsembleVoiceClassifier.weights Examples.degraded)
                (Spec.survivors (EnsembleVoiceClassifier.models Examples.degraded)
                   [Examples.zeros])).
Proof.
  split; [exact degraded_wf|].
  split; [reflexivity|].
  split; [cbn; discriminate|].
  apply (ensemble_partial_failure Examples.degraded Examples.zeros "english"
           [Examples.zeros]).
  - exact degraded_wf.
  - reflexivity.
  - cbn. discriminate.
Defined.

(** C1, as stated, fails.  The directory with weights 0.5 / 0.3 / 0.2 (sum 1)
    loads as an ensemble; its second sub-model raises and the other two answer
    0.6.  The fused score is 0.5 * 0.6 + 0.2 * 0.6 = 0.42, not the
    renormalized 0.42 / 0.7 = 0.6, and the answer is HUMAN with confidence
    0.58. *)
Lemma ensemble_partial_failure_counterexample :
  @get_classifier (Instances.directory Examples.degraded_files) (Some "models")
  = Ensemble Examples.degraded
  /\ Spec.total_weight (EnsembleVoiceClassifier.weights Examples.degraded)
       (Py.keys (EnsembleVoiceClassifier.models Examples.degraded)) == 1
  /\ Spec.proba_of Instances.broken_estimator [Examples.zeros] = None
  /\ Spec.renormalized (EnsembleVoiceClassifier.weights Examples.degraded)
       (Spec.survivors (EnsembleVoiceClassifier.models Examples.degraded)
          [Examples.zeros]) == 0.6
  /\ (exists s,
        EnsembleVoiceClassifier.ensemble_score Examples.degraded Examples.zeros
        = Py.Ok s
        /\ s == 0.42
        /\ ~ s == Spec.renormalized
                    (EnsembleVoiceClassifier.weights Examples.degraded)
                    (Spec.survivors
                       (EnsembleVoiceClassifier.models Examples.degraded)
                       [Examples.zeros]))
  /\ (exists confidence,
        EnsembleVoiceClassifier.predict Examples.degraded Examples.zeros "english"
        = Py.Ok ("HUMAN", confidence)
        /\ confidence == 0.58).
Proof.
  split; [reflexivity|].
  split; [vm_compute; reflexivity|].
  split; [reflexivity|].
  split; [vm_compute; reflexivity|].
  split.
  - eexists. split; [vm_compute; reflexivity|].
    split; vm_compute; [reflexivity | intro; discriminate].
  - eexists. split; vm_compute; reflexivity.
Qed.

(** C10.  A sub-model that answers but has no entry in the weight map enters
    the fused score with weight 0: the score is the sum over the answering
    sub-models of [weights.get(name, 0)] times the probability, which is the
    same sum restricted to the sub-models that have a weight; [predict]
    returns a result and no weight is rescaled. *)
Theorem unweighted_submodel_ignored
    (self : EnsembleVoiceClassifier.t) (features : list Q) (language : string)
    (X : Np.matrix) :
  Py.wf (EnsembleVoiceClassifier.models self) ->
  Spec.scaled self features = Some X ->
  Spec.survivors (EnsembleVoiceClassifier.models self) X <> [] ->
  exists s,
    EnsembleVoiceClassifier.ensemble_score self features = Py.Ok s
    /\ s = EnsembleVoiceClassifier.weighted_sum
             (EnsembleVoiceClassifier.weights self)
             (EnsembleVoiceClassifier.predictions_of self X)
    /\ s = Py.sum (map (fun answer =>
                          Py.get (EnsembleVoiceClassifier.weights self)
                                 (fst answer) 0 * snd answer)
                       (Spec.survivors (EnsembleVoiceClassifier.models self) X))
    /\ s == Spec.fused (EnsembleVoiceClassifier.weights self)
              (Spec.weighted_only (EnsembleVoiceClassifier.weights self)
                 (Spec.survivors (EnsembleVoiceClassifier.models self) X))
    /\ (forall name p,
          In (name, p) (Spec.survivors (EnsembleVoiceClassifier.models self) X) ->
          Py.contains (EnsembleVoiceClassifier.weights self) name = false ->
          Py.get (EnsembleVoiceClassifier.weights self) name 0 * p == 0)
    /\ exists label confidence,
         EnsembleVoiceClassifier.predict self features language
         = Py.Ok (label, confidence).
Proof.
  intros Hwf Hscaled Hsome.
  pose proof (ensemble_score_survivors self features X Hwf Hscaled Hsome) as Hs.
  eexists. split; [exact Hs|].
  split.
  { rewrite (predictions_of_survivors self X Hwf). reflexivity. }
  split.
  { unfold Spec.fused. f_equal. apply map_ext. intros [name p]. reflexivity. }
  split; [apply fused_weighted_only|].
  split.
  - intros name p _ Hkey. rewrite (get_absent _ _ Hkey). ring.
  - do 2 eexists. apply predict_of_score, Hs.
Qed.

Lemma partly_weighted_wf :
  Py.wf (EnsembleVoiceClassifier.models Examples.partly_weighted).
Proof.
  unfold Py.wf. cbn.
  repeat constructor; cbn; intuition discriminate.
Defined.

Lemma unweighted_submodel_ignored_witness :
  Py.contains (EnsembleVoiceClassifier.weights Examples.partly_weighted)
    "gradient_boosting" = false
  /\ In ("gradient_boosting", 0.9)
        (Spec.survivors (EnsembleVoiceClassifier.models Examples.partly_weighted)
           [Examples.zeros])
  /\ exists s,
       EnsembleVoiceClassifier.ensemble_score Examples.partly_weighted
         Examples.zeros = Py.Ok s
       /\ s == 0.8 * 0.6 + 0.4 * 0.4.
Proof.
  split; [reflexivity|].
  split; [cbn; right; left; reflexivity|].
  destruct (unweighted_submodel_ignored Examples.partly_weighted Examples.zeros
              "english" [Examples.zeros])
    as (s & Hs & _ & _ & Hweighted & _).
  - exact partly_weighted_wf.
  - reflexivity.
  - cbn. discriminate.
  - exists s. split; [exact Hs|].
    rewrite Hweighted. vm_compute. reflexivity.
Defined.


Lemma minimal_wf : Py.wf (EnsembleVoiceClassifier.models Examples.minimal).
Proof.
  unfold Py.wf. cbn. repeat constructor. cbn. tauto.
Defined.

Lemma minimal_weights_in_range : Spec.weights_in_range Examples.minimal.
Proof.
  split.
  - intro name.
    cbv beta iota delta
      [Py.get Py.find Examples.minimal EnsembleVoiceClassifier.weights].
    destruct (String.eqb "random_forest" name); vm_compute;
      intro Hc; discriminate Hc.
  - vm_compute. intro Hc. discriminate Hc.
Defined.

Lemma minimal_probabilities_in_range : Spec.probabilities_in_range Examples.minimal.
Proof.
  intros name model X p [Hin | []] Hp.
  injection Hin as _ <-.
  unfold Spec.proba_of in Hp. cbn in Hp.
  destruct X as [|row X]; cbn in Hp; [discriminate|].
  injection Hp as <-. split; vm_compute; intro Hc; discriminate Hc.
Defined.



(* ================================================================= *)
(** ** The factory *)

Section Factory.

Context `{FileSystem}.
Import EnsembleVoiceClassifier.

(** Decide the next file-system call on a path of the directory at hand. *)
Ltac next_call :=
  match goal with
  | |- context [path_exists (path_join ?d ?f)] =>
      is_var d; destruct (path_exists (path_join d f)) eqn:?
  | |- context [joblib_load (path_join ?d ?f)] =>
      is_var d; destruct (joblib_load (path_join d f)) eqn:?
  | |- context [json_load (path_join ?d ?f)] =>
      is_var d; destruct (json_load (path_join d f)) eqn:?
  end;
  cbn -[path_join].

Ltac run_loader :=
  unfold __init__, _load_models, Py.try_except, model_names, for_each;
  cbn -[path_join];
  repeat next_call.

(** What a successful construction says about the directory and the
    object. *)
Lemma init_ok (dir : string) (c : t) :
  __init__ dir = Py.Ok c ->
  is_mock c = false /\ Py.wf (models c) /\ Spec.present_files_load dir.
Proof.
  run_loader; intro Hc; try discriminate Hc;
    injection Hc as <-;
    (split; [reflexivity|]);
    (split; [unfold Py.wf; cbn; repeat constructor; cbn; intuition discriminate|]);
    unfold Spec.present_files_load, Spec.loads_if_present;
    repeat split; intros; congruence.
Qed.

(** The construction succeeds when the first sub-model is there and what is
    there loads. *)
Lemma init_succeeds (dir : string) :
  path_exists (path_join dir "random_forest.pkl") = true ->
  Spec.present_files_load dir ->
  exists c, __init__ dir = Py.Ok c.
Proof.
  intros Hrf (Lrf & Lgb & Lsvm & Lsc & Lw).
  unfold Spec.loads_if_present in *.
  run_loader;
    first [ eexists; reflexivity
          | exfalso; intuition congruence ].
Qed.

Lemma get_classifier_cases (model_dir : option string) :
  get_classifier model_dir = Mock MockVoiceClassifier.__init__
  \/ exists dir c,
       model_dir = Some dir /\ dir <> ""
       /\ path_exists (path_join dir "random_forest.pkl") = true
       /\ path_exists (path_join dir "scaler.pkl") = true
       /\ __init__ dir = Py.Ok c
       /\ get_classifier model_dir = Ensemble c.
Proof.
  unfold get_classifier.
  destruct model_dir as [dir|]; [|left; reflexivity].
  destruct dir as [|a dir'] eqn:Hdir; [left; reflexivity|].
  rewrite <- Hdir. replace (str_truthy dir) with true by (rewrite Hdir; reflexivity).
  unfold required_files. cbn -[path_join].
  destruct (path_exists (path_join dir "random_forest.pkl")) eqn:Hrf;
    [|left; reflexivity].
  destruct (path_exists (path_join dir "scaler.pkl")) eqn:Hsc;
    [|left; reflexivity].
  cbn -[path_join].
  destruct (__init__ dir) as [c|e] eqn:Hinit; [|left; reflexivity].
  right. exists dir, c. repeat split; try reflexivity; try assumption.
  rewrite Hdir. discriminate.
Qed.

Lemma get_classifier_ensemble (model_dir : option string) :
  (exists c, get_classifier model_dir = Ensemble c)
  <-> Spec.ensemble_available model_dir.
Proof.
  split.
  - intros [c Hc].
    destruct (get_classifier_cases model_dir)
      as [Hmock | (dir & c' & -> & Hne & Hrf & Hsc & Hinit & _)].
    + rewrite Hmock in Hc. discriminate Hc.
    + exists dir.
      split; [reflexivity|]. split; [exact Hne|].
      split; [exact Hrf|]. split; [exact Hsc|].
      apply (init_ok dir c' Hinit).
  - intros (dir & -> & Hne & Hrf & Hsc & Hload).
    destruct (init_succeeds dir Hrf Hload) as [c Hinit].
    exists c. unfold get_classifier.
    destruct dir as [|a dir'] eqn:Hdir; [contradiction Hne; reflexivity|].
    rewrite <- Hdir in *. replace (str_truthy dir) with true by (rewrite Hdir; reflexivity).
    unfold required_files. cbn -[path_join].
    rewrite Hrf, Hsc. cbn -[path_join]. rewrite Hinit. reflexivity.
Qed.

End Factory.

(** C4 (amended).  [get_classifier] returns the ensemble exactly when a
    non-empty model directory is given, [random_forest.pkl] and [scaler.pkl]
    exist in it, and every artifact present in it (the three sub-models, the
    scaler, [weights.json]) loads without error; the two other sub-models
    may be absent.  In every other case, a missing scaler included, it
    returns the heuristic classifier without failing, and the attribute
    [is_mock] of the returned object tells which one it is. *)
Theorem get_classifier_selection `{FileSystem} (model_dir : option string) :
  ((exists c, get_classifier model_dir = Ensemble c)
   <-> Spec.ensemble_available model_dir)
  /\ (~ Spec.ensemble_available model_dir ->
      get_classifier model_dir = Mock MockVoiceClassifier.__init__)
  /\ (classifier_is_mock (get_classifier model_dir) = false
      <-> exists c, get_classifier model_dir = Ensemble c)
  /\ (classifier_is_mock (get_classifier model_dir) = true
      <-> get_classifier model_dir = Mock MockVoiceClassifier.__init__)
  /\ (forall dir,
        model_dir = Some dir ->
        path_exists (path_join dir "scaler.pkl") = false ->
        get_classifier model_dir = Mock MockVoiceClassifier.__init__).
Proof.
  pose proof (get_classifier_ensemble model_dir) as Hiff.
  destruct (get_classifier_cases model_dir)
    as [Hmock | (dir & c & Hdir & Hne & Hrf & Hsc & Hinit & Hens)].
  - (* the heuristic classifier was returned *)
    split; [exact Hiff|].
    split; [intros _; exact Hmock|].
    rewrite Hmock. cbn.
    split; [split; [discriminate | intros [c Hc]; discriminate Hc]|].
    split; [split; reflexivity|].
    intros; reflexivity.
  - (* the ensemble was returned *)
    destruct (init_ok dir c Hinit) as (Hflag & _ & _).
    split; [exact Hiff|].
    split.
    { intro Hnot. exfalso. apply Hnot, Hiff. exists c. exact Hens. }
    rewrite Hens. cbn. rewrite Hflag.
    split; [split; [intros _; exists c; reflexivity | reflexivity]|].
    split; [split; discriminate|].
    intros dir' Hdir' Hmissing. exfalso.
    rewrite Hdir in Hdir'. injection Hdir' as <-.
    rewrite Hsc in Hmissing. discriminate Hmissing.
Qed.

Lemma get_classifier_selection_witness :
  @path_exists (Instances.directory Examples.no_scaler_files)
    (path_join "models" "scaler.pkl") = false
  /\ @get_classifier (Instances.directory Examples.no_scaler_files)
       (Some "models") = Mock MockVoiceClassifier.__init__.
Proof.
  split; [reflexivity|].
  apply (@get_classifier_selection (Instances.directory Examples.no_scaler_files)
           (Some "models")) with (dir := "models"); reflexivity.
Defined.

(** C4, as stated, fails: a directory holding only [random_forest.pkl] and
    [scaler.pkl] yields the ensemble (with one sub-model and weight 1),
    although two of the three sub-models are missing. *)
Lemma get_classifier_selection_counterexample :
  @get_classifier (Instances.directory Examples.minimal_files) (Some "models")
  = Ensemble Examples.minimal
  /\ classifier_is_mock
       (@get_classifier (Instances.directory Examples.minimal_files)
          (Some "models")) = false
  /\ @path_exists (Instances.directory Examples.minimal_files)
       (path_join "models" "gradient_boosting.pkl") = false
  /\ @path_exists (Instances.directory Examples.minimal_files)
       (path_join "models" "svm.pkl") = false
  /\ ~ @Spec.all_artifacts_load (Instances.directory Examples.minimal_files)
         (Some "models").
Proof.
  split; [reflexivity|].
  split; [reflexivity|].
  split; [reflexivity|].
  split; [reflexivity|].
  intros (dir & Hdir & Hall).
  injection Hdir as <-.
  destruct (Hall "svm") as [Hexists _].
  - cbn. tauto.
  - discriminate Hexists.
Qed.

(* ================================================================= *)
(** ** The preprocessor *)

Section Preprocessor.

Context `{Librosa}.
Import AudioProcessor.

(** [preprocess] by cases on the decoder's answer and the duration of the
    decoded buffer. *)
Lemma preprocess_cases (self : t) (audio_bytes : list byte) :
  match load audio_bytes (target_sr self) with
  | None =>
      preprocess self audio_bytes = Py.Raise (Py.ExternalError "librosa.load")
  | Some (audio, sr) =>
      let duration := get_duration audio sr in
      if duration <? min_duration self then
        preprocess self audio_bytes
        = Py.Raise (Py.ValueError "Audio too short" [duration; min_duration self])
      else if duration >? max_duration self then
        preprocess self audio_bytes
        = Py.Raise (Py.ValueError "Audio too long" [duration; max_duration self])
      else
        preprocess self audio_bytes
        = Py.Ok (fst (effects_trim (util_normalize audio) 30), sr, duration)
  end.
Proof.
  unfold preprocess.
  destruct (load audio_bytes (target_sr self)) as [[audio sr]|]; cbn;
    [|reflexivity].
  destruct (get_duration audio sr <? min_duration self); [reflexivity|].
  destruct (get_duration audio sr >? max_duration self); [reflexivity|].
  destruct (effects_trim (util_normalize audio) 30) as [trimmed index].
  reflexivity.
Qed.

Lemma preprocess_too_short (self : t) (audio_bytes : list byte)
    (audio : list Q) (sr : Z) :
  load audio_bytes (target_sr self) = Some (audio, sr) ->
  get_duration audio sr < min_duration self ->
  preprocess self audio_bytes
  = Py.Raise (Py.ValueError "Audio too short"
                [get_duration audio sr; min_duration self]).
Proof.
  intros Hload Hshort.
  pose proof (preprocess_cases self audio_bytes) as Hcases.
  rewrite Hload in Hcases. cbv zeta in Hcases.
  apply ltb_lt in Hshort. rewrite Hshort in Hcases. exact Hcases.
Qed.

Lemma preprocess_too_long (self : t) (audio_bytes : list byte)
    (audio : list Q) (sr : Z) :
  load audio_bytes (target_sr self) = Some (audio, sr) ->
  min_duration self <= get_duration audio sr ->
  max_duration self < get_duration audio sr ->
  preprocess self audio_bytes
  = Py.Raise (Py.ValueError "Audio too long"
                [get_duration audio sr; max_duration self]).
Proof.
  intros Hload Hmin Hlong.
  pose proof (preprocess_cases self audio_bytes) as Hcases.
  rewrite Hload in Hcases. cbv zeta in Hcases.
  apply ltb_ge in Hmin. rewrite Hmin in Hcases.
  apply gtb_lt in Hlong. rewrite Hlong in Hcases. exact Hcases.
Qed.

Lemma preprocess_value_error_inv (self : t) (audio_bytes : list byte)
    (msg : string) (args : list Q) :
  preprocess self audio_bytes = Py.Raise (Py.ValueError msg args) ->
  exists audio sr,
    load audio_bytes (target_sr self) = Some (audio, sr)
    /\ (get_duration audio sr < min_duration self
        \/ max_duration self < get_duration audio sr).
Proof.
  intro Herr.
  pose proof (preprocess_cases self audio_bytes) as Hcases.
  destruct (load audio_bytes (target_sr self)) as [[audio sr]|];
    [|rewrite Hcases in Herr; discriminate Herr].
  cbv zeta in Hcases. exists audio, sr. split; [reflexivity|].
  destruct (get_duration audio sr <? min_duration self) eqn:Hmin.
  - left. apply ltb_lt, Hmin.
  - destruct (get_duration audio sr >? max_duration self) eqn:Hmax.
    + right. apply gtb_lt, Hmax.
    + rewrite Hcases in Herr. discriminate Herr.
Qed.

End Preprocessor.

(** C5.  [preprocess] raises its duration error (the [ValueError] "Audio too
    short" / "Audio too long") exactly when the byte stream decodes and the
    duration of the decoded buffer, [len(audio) / sr] before normalization
    and trimming, is below the minimum or above the maximum.  The error
    does not depend on the normalization and trimming routines (they are not
    reached), and with the default bounds 1.0 s and 60.0 s a decoded duration
    of 0.5 s or of 90 s raises it. *)
Theorem preprocess_duration_error {L : Librosa}
    (self : AudioProcessor.t) (audio_bytes : list byte) :
  ((exists msg args,
       AudioProcessor.preprocess self audio_bytes
       = Py.Raise (Py.ValueError msg args))
   <-> exists audio sr,
         load audio_bytes (AudioProcessor.target_sr self) = Some (audio, sr)
         /\ (get_duration audio sr < AudioProcessor.min_duration self
             \/ AudioProcessor.max_duration self < get_duration audio sr))
  /\ (forall audio sr,
        load audio_bytes (AudioProcessor.target_sr self) = Some (audio, sr) ->
        get_duration audio sr < AudioProcessor.min_duration self ->
        AudioProcessor.preprocess self audio_bytes
        = Py.Raise (Py.ValueError "Audio too short"
                      [get_duration audio sr; AudioProcessor.min_duration self]))
  /\ (forall audio sr,
        load audio_bytes (AudioProcessor.target_sr self) = Some (audio, sr) ->
        AudioProcessor.min_duration self <= get_duration audio sr ->
        AudioProcessor.max_duration self < get_duration audio sr ->
        AudioProcessor.preprocess self audio_bytes
        = Py.Raise (Py.ValueError "Audio too long"
                      [get_duration audio sr; AudioProcessor.max_duration self]))
  /\ (forall other : Librosa,
        @load other = @load L ->
        (exists msg args,
            @AudioProcessor.preprocess L self audio_bytes
            = Py.Raise (Py.ValueError msg args)) ->
        @AudioProcessor.preprocess other self audio_bytes
        = @AudioProcessor.preprocess L self audio_bytes)
  /\ (forall target audio sr,
        load audio_bytes target = Some (audio, sr) ->
        (get_duration audio sr == 0.5 ->
         exists args,
           AudioProcessor.preprocess (AudioProcessor.__init__ target) audio_bytes
           = Py.Raise (Py.ValueError "Audio too short" args))
        /\ (get_duration audio sr == 90 ->
            exists args,
              AudioProcessor.preprocess (AudioProcessor.__init__ target) audio_bytes
              = Py.Raise (Py.ValueError "Audio too long" args))).
Proof.
  split; [|split; [|split; [|split]]].
  - split.
    + intros (msg & args & Herr).
      apply (preprocess_value_error_inv self audio_bytes msg args Herr).
    + intros (audio & sr & Hload & Hout).
      destruct (Qlt_le_dec (get_duration audio sr) (AudioProcessor.min_duration self))
        as [Hshort | Hmin].
      * do 2 eexists. apply (preprocess_too_short self _ audio sr Hload Hshort).
      * destruct Hout as [Hshort | Hlong]; [lra|].
        do 2 eexists. apply (preprocess_too_long self _ audio sr Hload Hmin Hlong).
  - intros audio sr. apply preprocess_too_short.
  - intros audio sr. apply preprocess_too_long.
  - intros other Hsame (msg & args & Herr).
    destruct (@preprocess_value_error_inv L self audio_bytes msg args Herr)
      as (audio & sr & Hload & Hout).
    assert (@load other audio_bytes (AudioProcessor.target_sr self)
            = Some (audio, sr)) as Hload' by (rewrite Hsame; exact Hload).
    destruct (Qlt_le_dec (get_duration audio sr) (AudioProcessor.min_duration self))
      as [Hshort | Hmin].
    + rewrite (@preprocess_too_short L self _ audio sr Hload Hshort).
      apply (@preprocess_too_short other self _ audio sr Hload' Hshort).
    + destruct Hout as [Hshort | Hlong]; [lra|].
      rewrite (@preprocess_too_long L self _ audio sr Hload Hmin Hlong).
      apply (@preprocess_too_long other self _ audio sr Hload' Hmin Hlong).
  - intros target audio sr Hload. split; intro Hdur; eexists.
    + apply (preprocess_too_short (AudioProcessor.__init__ target) _ audio sr Hload).
      cbn. rewrite Hdur. reflexivity.
    + apply (preprocess_too_long (AudioProcessor.__init__ target) _ audio sr Hload);
        cbn; rewrite Hdur; [discriminate | reflexivity].
Qed.

Lemma preprocess_duration_error_witness :
  get_duration (map Instances.pcm_sample Examples.half_second) 10 == 0.5
  /\ get_duration (map Instances.pcm_sample Examples.ninety_seconds) 10 == 90
  /\ (exists args,
        @AudioProcessor.preprocess Instances.sample_librosa
          (AudioProcessor.__init__ 10) Examples.half_second
        = Py.Raise (Py.ValueError "Audio too short" args))
  /\ (exists args,
        @AudioProcessor.preprocess Instances.sample_librosa
          (AudioProcessor.__init__ 10) Examples.ninety_seconds
        = Py.Raise (Py.ValueError "Audio too long" args)).
Proof.
  split; [vm_compute; reflexivity|].
  split; [vm_compute; reflexivity|].
  split.
  - apply (@preprocess_duration_error Instances.sample_librosa
             (AudioProcessor.__init__ 10) Examples.half_second)
      with (target := 10%Z) (audio := map Instances.pcm_sample Examples.half_second)
           (sr := 10%Z).
    + reflexivity.
    + vm_compute. reflexivity.
  - apply (@preprocess_duration_error Instances.sample_librosa
             (AudioProcessor.__init__ 10) Examples.ninety_seconds)
      with (target := 10%Z)
           (audio := map Instances.pcm_sample Examples.ninety_seconds)
           (sr := 10%Z).
    + reflexivity.
    + vm_compute. reflexivity.
Defined.




(* ================================================================= *)
(** ** The feature extractors *)

Section Extractors.

Context `{Librosa} `{Numeric}.
Import AudioProcessor.

Lemma mean_axis1_length (m : Np.matrix) :
  List.length (Np.mean_axis1 m) = List.length m.
Proof. unfold Np.mean_axis1. apply length_map. Qed.

Lemma std_axis1_length (m : Np.matrix) :
  List.length (Np.std_axis1 m) = List.length m.
Proof. unfold Np.std_axis1. apply length_map. Qed.

Lemma spectral_length (audio : list Q) (sr : Z) :
  List.length (_extract_spectral_features audio sr) = 10%nat.
Proof. reflexivity. Qed.

Lemma prosodic_length (audio : list Q) (sr : Z) :
  List.length (_extract_prosodic_features audio sr) = 6%nat.
Proof.
  unfold _extract_prosodic_features.
  destruct (pitch_values_of audio sr); reflexivity.
Qed.

Lemma voice_quality_length (audio : list Q) (sr : Z) :
  List.length (_extract_voice_quality_features audio sr) = 3%nat.
Proof.
  unfold _extract_voice_quality_features.
  destruct (effects_hpss audio). reflexivity.
Qed.

Lemma temporal_length (audio : list Q) (sr : Z) :
  List.length (_extract_temporal_features audio sr) = 4%nat.
Proof.
  unfold _extract_temporal_features.
  destruct (0 <? List.length (effects_split audio 30))%nat; reflexivity.
Qed.

(** The list comprehension over indices reads the gaps between neighbours. *)
Lemma pauses_of_cons (a b : Z * Z) (rest : list (Z * Z)) :
  pauses_of (a :: b :: rest) = (fst b - snd a)%Z :: pauses_of (b :: rest).
Proof.
  unfold pauses_of.
  replace (List.length (a :: b :: rest) - 1)%nat with (S (List.length rest))
    by (cbn [List.length]; lia).
  replace (List.length (b :: rest) - 1)%nat with (List.length rest)
    by (cbn [List.length]; lia).
  cbn [seq map]. f_equal.
  rewrite <- seq_shift, map_map.
  apply map_ext. intro i. reflexivity.
Qed.

Lemma pauses_of_gaps (intervals : list (Z * Z)) :
  pauses_of intervals = Spec.gaps intervals.
Proof.
  destruct intervals as [|a intervals]; [reflexivity|].
  revert a. induction intervals as [|b rest IH]; intros [sa ea].
  - reflexivity.
  - rewrite pauses_of_cons, IH. destruct b as [sb eb]. reflexivity.
Qed.

Lemma fold_add_shift (zs : list Z) (a : Z) :
  fold_left Z.add zs a = (a + fold_right Z.add 0 zs)%Z.
Proof.
  revert a. induction zs as [|z zs IH]; intro a; simpl.
  - lia.
  - rewrite IH. lia.
Qed.

Lemma speech_duration_samples (intervals : list (Z * Z)) :
  fold_left Z.add (map (fun '(start, end_) => (end_ - start)%Z) intervals) 0%Z
  = Spec.speech_samples intervals.
Proof.
  rewrite fold_add_shift. unfold Spec.speech_samples.
  rewrite Z.add_0_l. f_equal. apply map_ext. intros [start end_]. reflexivity.
Qed.

End Extractors.

Lemma sample_librosa_shapes : @LibrosaShapes Instances.sample_librosa.
Proof.
  split; intros;
    cbv [feature_mfcc feature_chroma_stft Instances.sample_librosa];
    rewrite length_map, length_seq; reflexivity.
Qed.

(** C3.  With librosa's documented shapes (40 MFCC rows for [n_mfcc=40], 12
    chroma rows), [extract_all_features] returns, for every buffer, a
    [float32] array of exactly 127 values: 40 MFCC means, 40 MFCC standard
    deviations, 10 spectral, 6 prosodic, 3 voice-quality, 4 temporal and 24
    chroma values, in this order. *)
Theorem extract_all_features_layout
    {L : Librosa} {N : Numeric} (shapes : @LibrosaShapes L)
    (audio : list Q) (sr : Z) :
  Np.arr_dtype (AudioProcessor.extract_all_features audio sr) = Np.float32
  /\ List.length (Np.arr_data (AudioProcessor.extract_all_features audio sr))
     = 127%nat
  /\ Np.arr_data (AudioProcessor.extract_all_features audio sr)
     = Np.mean_axis1 (feature_mfcc audio sr 40)
       ++ Np.std_axis1 (feature_mfcc audio sr 40)
       ++ AudioProcessor._extract_spectral_features audio sr
       ++ AudioProcessor._extract_prosodic_features audio sr
       ++ AudioProcessor._extract_voice_quality_features audio sr
       ++ AudioProcessor._extract_temporal_features audio sr
       ++ AudioProcessor._extract_chroma_features audio sr
  /\ List.length (Np.mean_axis1 (feature_mfcc audio sr 40)) = 40%nat
  /\ List.length (Np.std_axis1 (feature_mfcc audio sr 40)) = 40%nat
  /\ List.length (AudioProcessor._extract_spectral_features audio sr) = 10%nat
  /\ List.length (AudioProcessor._extract_prosodic_features audio sr) = 6%nat
  /\ List.length (AudioProcessor._extract_voice_quality_features audio sr) = 3%nat
  /\ List.length (AudioProcessor._extract_temporal_features audio sr) = 4%nat
  /\ List.length (AudioProcessor._extract_chroma_features audio sr) = 24%nat.
Proof.
  assert (List.length (Np.mean_axis1 (feature_mfcc audio sr 40)) = 40%nat) as Hmean
      by (rewrite mean_axis1_length; apply mfcc_rows).
  assert (List.length (Np.std_axis1 (feature_mfcc audio sr 40)) = 40%nat) as Hstd
      by (rewrite std_axis1_length; apply mfcc_rows).
  assert (List.length (AudioProcessor._extract_chroma_features audio sr) = 24%nat)
    as Hchroma.
  { unfold AudioProcessor._extract_chroma_features.
    rewrite length_app, mean_axis1_length, std_axis1_length, chroma_rows.
    reflexivity. }
  assert (Np.arr_data (AudioProcessor.extract_all_features audio sr)
          = Np.mean_axis1 (feature_mfcc audio sr 40)
            ++ Np.std_axis1 (feature_mfcc audio sr 40)
            ++ AudioProcessor._extract_spectral_features audio sr
            ++ AudioProcessor._extract_prosodic_features audio sr
            ++ AudioProcessor._extract_voice_quality_features audio sr
            ++ AudioProcessor._extract_temporal_features audio sr
            ++ AudioProcessor._extract_chroma_features audio sr) as Hdata.
  { unfold AudioProcessor.extract_all_features,
      AudioProcessor._extract_mfcc_features.
    cbn [Np.arr_data app]. rewrite <- !app_assoc. reflexivity. }
  split; [reflexivity|].
  split.
  { rewrite Hdata, !length_app, Hmean, Hstd, Hchroma.
    rewrite spectral_length, prosodic_length, voice_quality_length,
      temporal_length.
    reflexivity. }
  split; [exact Hdata|].
  split; [exact Hmean|].
  split; [exact Hstd|].
  split; [apply spectral_length|].
  split; [apply prosodic_length|].
  split; [apply voice_quality_length|].
  split; [apply temporal_length | exact Hchroma].
Qed.

Lemma extract_all_features_layout_witness :
  List.length
    (Np.arr_data
       (@AudioProcessor.extract_all_features Instances.sample_librosa
          Instances.coarse_numeric [1; 0; 0; 1; 1] 10)) = 127%nat.
Proof.
  apply (@extract_all_features_layout Instances.sample_librosa
           Instances.coarse_numeric sample_librosa_shapes [1; 0; 0; 1; 1] 10).
Defined.



(* ================================================================= *)
(** ** The rate limiter and the API key check *)

Section RateLimiting.

Import RateLimiter.

Lemma find_set_same {V} (d : Py.dict V) (k : string) (v : V) :
  Py.find (Py.set d k v) k = Some v.
Proof.
  induction d as [|[k' v'] d IH]; simpl.
  - rewrite String.eqb_refl. reflexivity.
  - destruct (String.eqb k' k) eqn:E; simpl; rewrite E; [reflexivity | exact IH].
Qed.

Lemma find_set_other {V} (d : Py.dict V) (k k0 : string) (v : V) :
  k0 <> k -> Py.find (Py.set d k v) k0 = Py.find d k0.
Proof.
  intro Hne. induction d as [|[k' v'] d IH]; simpl.
  - destruct (String.eqb_spec k k0) as [-> | _]; [contradiction Hne|]; reflexivity.
  - destruct (String.eqb_spec k' k) as [-> | Hk]; simpl.
    + destruct (String.eqb_spec k k0) as [-> | _]; [contradiction Hne|]; reflexivity.
    + rewrite IH. reflexivity.
Qed.

Lemma stamps_set_same (self : t) (k : string) (v : list Q) :
  stamps (with_requests self (Py.set (requests self) k v)) k = v.
Proof. unfold stamps, Py.get. cbn. rewrite find_set_same. reflexivity. Qed.

Lemma stamps_set_other (self : t) (k k0 : string) (v : list Q) :
  k0 <> k ->
  stamps (with_requests self (Py.set (requests self) k v)) k0 = stamps self k0.
Proof.
  intro Hne. unfold stamps, Py.get. cbn.
  rewrite (find_set_other _ _ _ _ Hne). reflexivity.
Qed.

Lemma hour_list_length (self : t) (api_key : string) (t1 t2 : Q) :
  (List.length (hour_list self api_key t1 t2)
   <= List.length (minute_list self api_key t1))%nat.
Proof. apply filter_length_le. Qed.

(** The three outcomes of [check_rate_limit], with the state each leaves. *)
Lemma check_rate_limit_cases (self : t) (api_key : string) (t0 t1 t2 : Q) :
  let m := minute_list self api_key t1 in
  let h := hour_list self api_key t1 t2 in
  let out := check_rate_limit self api_key t0 t1 t2 in
  per_minute (fst out) = per_minute self
  /\ per_hour (fst out) = per_hour self
  /\ (forall other, other <> api_key ->
        stamps (fst out) other = stamps self other)
  /\ ((per_minute self <= Z.of_nat (List.length m))%Z
      /\ stamps (fst out) api_key = m
      /\ snd out = (false,
                    Some ("Rate limit exceeded: " ++ str_int (per_minute self)
                          ++ " requests per minute")%string)
      \/ (Z.of_nat (List.length m) < per_minute self)%Z
         /\ (per_hour self <= Z.of_nat (List.length h))%Z
         /\ stamps (fst out) api_key = h
         /\ snd out = (false,
                       Some ("Rate limit exceeded: " ++ str_int (per_hour self)
                             ++ " requests per hour")%string)
      \/ (Z.of_nat (List.length m) < per_minute self)%Z
         /\ (Z.of_nat (List.length h) < per_hour self)%Z
         /\ stamps (fst out) api_key = h ++ [t0]
         /\ snd out = (true, None)).
Proof.
  cbv zeta. unfold check_rate_limit, _cleanup_old_requests.
  fold (minute_list self api_key t1).
  cbn [per_minute per_hour with_requests].
  destruct (per_minute self <=? Z.of_nat (List.length (minute_list self api_key t1)))%Z
    eqn:Hminute.
  - apply Z.leb_le in Hminute. cbn [fst snd].
    split; [reflexivity|]. split; [reflexivity|].
    split; [intros other Hne; apply stamps_set_other, Hne|].
    left. split; [exact Hminute|]. split; [apply stamps_set_same | reflexivity].
  - apply Z.leb_gt in Hminute.
    rewrite stamps_set_same. fold (hour_list self api_key t1 t2).
    cbn [requests with_requests per_minute per_hour].
    destruct (per_hour self <=? Z.of_nat (List.length (hour_list self api_key t1 t2)))%Z
      eqn:Hhour.
    + apply Z.leb_le in Hhour. cbn [fst snd].
      split; [reflexivity|]. split; [reflexivity|].
      split.
      { intros other Hne. unfold stamps, Py.get. cbn.
        rewrite !(find_set_other _ _ _ _ Hne). reflexivity. }
      right. left. split; [exact Hminute|]. split; [exact Hhour|].
      split; [|reflexivity].
      unfold stamps, Py.get. cbn. rewrite find_set_same. reflexivity.
    + apply Z.leb_gt in Hhour. cbn [fst snd].
      split; [reflexivity|]. split; [reflexivity|].
      split.
      { intros other Hne. unfold stamps, Py.get. cbn.
        rewrite !(find_set_other _ _ _ _ Hne). reflexivity. }
      right. right. split; [exact Hminute|]. split; [exact Hhour|].
      split; [|reflexivity].
      unfold stamps, Py.get. cbn. rewrite !find_set_same. reflexivity.
Qed.

End RateLimiting.

(** X1.  [check_rate_limit] with [per_minute <= per_hour]: the request is
    admitted exactly when fewer than [per_minute] stored stamps are newer
    than 60 seconds, and a rejection is always the per-minute one.  The
    first clean-up has already dropped every older stamp, so the hourly
    limit never rejects. *)
Theorem rate_limit_minute_decides
    (self : RateLimiter.t) (api_key : string) (t0 t1 t2 : Q) :
  (RateLimiter.per_minute self <= RateLimiter.per_hour self)%Z ->
  (fst (snd (RateLimiter.check_rate_limit self api_key t0 t1 t2)) = true
   <-> (Z.of_nat (List.length (RateLimiter.minute_list self api_key t1))
        < RateLimiter.per_minute self)%Z)
  /\ (fst (snd (RateLimiter.check_rate_limit self api_key t0 t1 t2)) = false ->
      snd (snd (RateLimiter.check_rate_limit self api_key t0 t1 t2))
      = Some ("Rate limit exceeded: "
              ++ str_int (RateLimiter.per_minute self)
              ++ " requests per minute")%string).
Proof.
  intro Hlimits.
  pose proof (hour_list_length self api_key t1 t2) as Hshorter.
  destruct (check_rate_limit_cases self api_key t0 t1 t2)
    as (_ & _ & _ & [(Hm & _ & Hout) | [(Hm & Hh & _ & Hout) | (Hm & Hh & _ & Hout)]]);
    rewrite Hout; cbn [fst snd].
  - split; [|reflexivity]. split; [discriminate | lia].
  - exfalso. lia.
  - split; [|discriminate]. split; [intros _; exact Hm | reflexivity].
Qed.

Lemma rate_limit_minute_decides_witness :
  fst (snd (RateLimiter.check_rate_limit
              (RateLimiter.__init__ default_settings) "demo_key_12345" 100 100 100))
  = true.
Proof.
  apply (rate_limit_minute_decides (RateLimiter.__init__ default_settings)
           "demo_key_12345" 100 100 100).
  - cbn. lia.
  - cbn. lia.
Defined.

(** X2.  What [check_rate_limit] does to the store: the limits and the
    stamps of every other key are untouched; for the key itself the stamps
    older than 60 seconds are dropped in every case, the current time is
    appended when the request is admitted, and nothing is appended when it
    is rejected. *)
Theorem rate_limit_store_effect
    (self : RateLimiter.t) (api_key : string) (t0 t1 t2 : Q) :
  RateLimiter.per_minute (fst (RateLimiter.check_rate_limit self api_key t0 t1 t2))
  = RateLimiter.per_minute self
  /\ RateLimiter.per_hour (fst (RateLimiter.check_rate_limit self api_key t0 t1 t2))
     = RateLimiter.per_hour self
  /\ (forall other, other <> api_key ->
        RateLimiter.stamps
          (fst (RateLimiter.check_rate_limit self api_key t0 t1 t2)) other
        = RateLimiter.stamps self other)
  /\ (fst (snd (RateLimiter.check_rate_limit self api_key t0 t1 t2)) = true ->
      RateLimiter.stamps
        (fst (RateLimiter.check_rate_limit self api_key t0 t1 t2)) api_key
      = RateLimiter.hour_list self api_key t1 t2 ++ [t0])
  /\ (fst (snd (RateLimiter.check_rate_limit self api_key t0 t1 t2)) = false ->
      RateLimiter.stamps
        (fst (RateLimiter.check_rate_limit self api_key t0 t1 t2)) api_key
      = RateLimiter.minute_list self api_key t1
      \/ RateLimiter.stamps
           (fst (RateLimiter.check_rate_limit self api_key t0 t1 t2)) api_key
         = RateLimiter.hour_list self api_key t1 t2)
  /\ Forall (fun ts => t1 - 60 < ts \/ ts = t0)
       (RateLimiter.stamps
          (fst (RateLimiter.check_rate_limit self api_key t0 t1 t2)) api_key).
Proof.
  assert (Forall (fun ts => t1 - 60 < ts) (RateLimiter.minute_list self api_key t1))
    as Hfresh.
  { apply Forall_forall. intros ts Hin.
    apply filter_In in Hin. destruct Hin as [_ Hts]. apply gtb_lt, Hts. }
  assert (Forall (fun ts => t1 - 60 < ts) (RateLimiter.hour_list self api_key t1 t2))
    as Hfresh'.
  { apply Forall_forall. intros ts Hin.
    apply filter_In in Hin. destruct Hin as [Hin _].
    rewrite Forall_forall in Hfresh. apply Hfresh, Hin. }
  destruct (check_rate_limit_cases self api_key t0 t1 t2)
    as (Hpm & Hph & Hframe
        & [(_ & Hst & Hout) | [(_ & _ & Hst & Hout) | (_ & _ & Hst & Hout)]]);
    (split; [exact Hpm|]); (split; [exact Hph|]); (split; [exact Hframe|]);
    rewrite Hout, Hst; cbn [fst snd].
  - split; [discriminate|]. split; [intros _; left; reflexivity|].
    eapply Forall_impl; [|exact Hfresh]. intros ts Hts. left. exact Hts.
  - split; [discriminate|]. split; [intros _; right; reflexivity|].
    eapply Forall_impl; [|exact Hfresh']. intros ts Hts. left. exact Hts.
  - split; [reflexivity|]. split; [discriminate|].
    apply Forall_app. split.
    + eapply Forall_impl; [|exact Hfresh']. intros ts Hts. left. exact Hts.
    + constructor; [right; reflexivity | constructor].
Qed.

Lemma stamps_init (settings : Settings) (key : string) :
  RateLimiter.stamps (RateLimiter.__init__ settings) key = [].
Proof. reflexivity. Qed.

(** One [check_rate_limit] keeps the number of stored stamps of every key
    below a bound that the limits allow. *)
Lemma check_rate_limit_keeps_bound
    (self : RateLimiter.t) (api_key : string) (t0 t1 t2 : Q) (bound : Z) :
  (Z.min (RateLimiter.per_minute self) (RateLimiter.per_hour self) <= bound)%Z ->
  (forall key, (Z.of_nat (List.length (RateLimiter.stamps self key)) <= bound)%Z) ->
  forall key,
    (Z.of_nat (List.length
                 (RateLimiter.stamps
                    (fst (RateLimiter.check_rate_limit self api_key t0 t1 t2)) key))
     <= bound)%Z.
Proof.
  intros Hbound Hinv key.
  pose proof (hour_list_length self api_key t1 t2) as Hshorter.
  assert (List.length (RateLimiter.minute_list self api_key t1)
          <= List.length (RateLimiter.stamps self api_key))%nat as Hminute
      by apply filter_length_le.
  pose proof (Hinv api_key) as Hold.
  destruct (String.eqb_spec key api_key) as [-> | Hne].
  - destruct (check_rate_limit_cases self api_key t0 t1 t2)
      as (_ & _ & _
          & [(_ & Hst & _) | [(_ & _ & Hst & _) | (Hm & Hh & Hst & _)]]);
      rewrite Hst; try lia.
    rewrite length_app. cbn [List.length]. lia.
  - destruct (check_rate_limit_cases self api_key t0 t1 t2)
      as (_ & _ & Hframe & _).
    rewrite (Hframe key Hne). apply Hinv.
Qed.

(** X3.  Starting from the empty store, after any sequence of
    [check_rate_limit] calls (any keys, any clock readings) no key holds
    more than [min(per_minute, per_hour)] stamps, for non-negative limits. *)
Theorem rate_limit_store_bounded
    (settings : Settings) (calls : list RateLimiter.request) (key : string) :
  (0 <= rate_limit_per_minute settings)%Z ->
  (0 <= rate_limit_per_hour settings)%Z ->
  (Z.of_nat
     (List.length
        (RateLimiter.stamps
           (RateLimiter.after (RateLimiter.__init__ settings) calls) key))
   <= Z.min (rate_limit_per_minute settings) (rate_limit_per_hour settings))%Z.
Proof.
  intros Hpm Hph.
  set (bound := Z.min (rate_limit_per_minute settings) (rate_limit_per_hour settings)).
  assert (forall self,
             RateLimiter.per_minute self = rate_limit_per_minute settings ->
             RateLimiter.per_hour self = rate_limit_per_hour settings ->
             (forall k, (Z.of_nat (List.length (RateLimiter.stamps self k))
                         <= bound)%Z) ->
             forall k,
               (Z.of_nat (List.length
                            (RateLimiter.stamps (RateLimiter.after self calls) k))
                <= bound)%Z) as Hrun.
  { induction calls as [|[api_key [[t0 t1] t2]] calls IH];
      intros self Hm Hh Hinv k.
    - apply Hinv.
    - unfold RateLimiter.after. cbn [fold_left].
      fold (RateLimiter.after
              (fst (RateLimiter.check_rate_limit self api_key t0 t1 t2)) calls).
      destruct (check_rate_limit_cases self api_key t0 t1 t2)
        as (Hm' & Hh' & _).
      apply IH.
      + rewrite Hm'. exact Hm.
      + rewrite Hh'. exact Hh.
      + apply check_rate_limit_keeps_bound; [|exact Hinv].
        rewrite Hm, Hh. subst bound. lia. }
  apply Hrun; try reflexivity.
  intro k. rewrite stamps_init. cbn. subst bound. lia.
Qed.

Lemma rate_limit_store_bounded_witness :
  (Z.of_nat
     (List.length
        (RateLimiter.stamps
           (RateLimiter.after (RateLimiter.__init__ default_settings)
              [("demo_key_12345", (1, 1, 1)%Q); ("demo_key_12345", (2, 2, 2)%Q)])
           "demo_key_12345"))
   <= 60)%Z.
Proof.
  apply (rate_limit_store_bounded default_settings
           [("demo_key_12345", (1, 1, 1)%Q); ("demo_key_12345", (2, 2, 2)%Q)]
           "demo_key_12345"); cbn; lia.
Defined.

Lemma recent_from_length (i : nat) (now : nat -> Q) (xs : list Q) :
  (List.length (RateLimiter.recent_from i now xs) <= List.length xs)%nat.
Proof.
  revert i. induction xs as [|ts xs IH]; intro i; cbn; [lia|].
  destruct (ts >? now i - 60); cbn; specialize (IH (S i)); lia.
Qed.

(** X4.  [get_remaining] drops the stamps of the key that are older than an
    hour and records nothing; the stamps of other keys stay.  Both counts
    it reports lie between 0 and the limit, and the hourly one is the limit
    minus the number of stamps of the last hour, cut at 0. *)
Theorem get_remaining_bounds
    (self : RateLimiter.t) (api_key : string) (t1 : Q) (now : nat -> Q) :
  RateLimiter.stamps (fst (RateLimiter.get_remaining self api_key t1 now)) api_key
  = filter (fun ts => Py.gtb ts (t1 - 3600)%Q) (RateLimiter.stamps self api_key)
  /\ (forall other, other <> api_key ->
        RateLimiter.stamps (fst (RateLimiter.get_remaining self api_key t1 now))
          other
        = RateLimiter.stamps self other)
  /\ Py.get (snd (RateLimiter.get_remaining self api_key t1 now))
       "remaining_per_hour" 0%Z
     = Z.max 0 (RateLimiter.per_hour self
                - Z.of_nat (List.length
                              (filter (fun ts => Py.gtb ts (t1 - 3600)%Q)
                                 (RateLimiter.stamps self api_key))))
  /\ (0 <= Py.get (snd (RateLimiter.get_remaining self api_key t1 now))
             "remaining_per_minute" 0
      <= Z.max 0 (RateLimiter.per_minute self))%Z
  /\ (0 <= Py.get (snd (RateLimiter.get_remaining self api_key t1 now))
             "remaining_per_hour" 0
      <= Z.max 0 (RateLimiter.per_hour self))%Z
  /\ (Z.max 0 (RateLimiter.per_minute self
               - Z.of_nat (List.length
                             (filter (fun ts => Py.gtb ts (t1 - 3600)%Q)
                                (RateLimiter.stamps self api_key))))
      <= Py.get (snd (RateLimiter.get_remaining self api_key t1 now))
           "remaining_per_minute" 0)%Z.
Proof.
  unfold RateLimiter.get_remaining, RateLimiter._cleanup_old_requests.
  cbn [fst snd RateLimiter.per_minute RateLimiter.per_hour
       RateLimiter.with_requests].
  rewrite !stamps_set_same.
  set (kept := filter (fun ts => Py.gtb ts (t1 - 3600)%Q) (RateLimiter.stamps self api_key)).
  pose proof (recent_from_length 0 now kept) as Hrecent.
  split; [reflexivity|].
  split; [intros other Hne; apply stamps_set_other, Hne|].
  unfold Py.get. cbn [Py.find String.eqb Ascii.eqb Bool.eqb].
  cbn -[Z.max Z.sub Z.of_nat].
  repeat split; lia.
Qed.

(** X5.  [verify_api_key] returns the key exactly when it is non-empty, is
    one of the configured keys and the rate limiter admits the request.  A
    missing or empty key gives 401 and an unknown key 403, and in both cases
    the rate limiter is left exactly as it was; an admitted or rejected
    known key gives the key or 429 with [Retry-After: 60]. *)
Theorem verify_api_key_outcomes
    (settings : Settings) (rate_limiter : RateLimiter.t)
    (api_key : option string) (t0 t1 t2 t3 : Q) (now : nat -> Q) :
  let out := verify_api_key settings rate_limiter api_key t0 t1 t2 t3 now in
  ((api_key = None \/ api_key = Some "") ->
   fst out = rate_limiter
   /\ exists e, snd out = inl e /\ status_code e = 401%Z)
  /\ (forall key,
        api_key = Some key -> key <> "" -> ~ In key (api_keys settings) ->
        fst out = rate_limiter
        /\ exists e, snd out = inl e /\ status_code e = 403%Z)
  /\ (forall key,
        api_key = Some key -> key <> "" -> In key (api_keys settings) ->
        (fst (snd (RateLimiter.check_rate_limit rate_limiter key t0 t1 t2)) = true ->
         snd out = inr key
         /\ fst out = fst (RateLimiter.check_rate_limit rate_limiter key t0 t1 t2))
        /\ (fst (snd (RateLimiter.check_rate_limit rate_limiter key t0 t1 t2))
            = false ->
            exists e, snd out = inl e /\ status_code e = 429%Z
                      /\ Py.find (headers e) "Retry-After" = Some "60"))
  /\ (forall key, snd out = inr key ->
        api_key = Some key /\ key <> "" /\ In key (api_keys settings)
        /\ fst (snd (RateLimiter.check_rate_limit rate_limiter key t0 t1 t2))
           = true).
Proof.
  cbv zeta.
  assert (forall key, existsb (String.eqb key) (api_keys settings) = true
                      <-> In key (api_keys settings)) as Hmember.
  { intro key. rewrite existsb_exists. split.
    - intros (k & Hin & Heq). apply String.eqb_eq in Heq. subst k. exact Hin.
    - intro Hin. exists key. split; [exact Hin | apply String.eqb_refl]. }
  split; [|split; [|split]].
  - intros [-> | ->]; cbn; (split; [reflexivity|]); eexists; split; reflexivity.
  - intros key -> Hne Hnotin.
    unfold verify_api_key.
    destruct key as [|a key']; [contradiction Hne; reflexivity|].
    destruct (existsb (String.eqb (String a key')) (api_keys settings)) eqn:Hin.
    + exfalso. apply Hnotin, Hmember, Hin.
    + cbn. split; [reflexivity|]. eexists. split; reflexivity.
  - intros key -> Hne Hin.
    unfold verify_api_key.
    destruct key as [|a key']; [contradiction Hne; reflexivity|].
    apply Hmember in Hin. rewrite Hin. cbn [negb].
    destruct (RateLimiter.check_rate_limit rate_limiter (String a key') t0 t1 t2)
      as [limiter' [is_allowed error_message]].
    cbn [fst snd]. split; intros ->; cbn [negb].
    + split; reflexivity.
    + destruct (RateLimiter.get_remaining limiter' (String a key') t3 now)
        as [limiter'' remaining].
      cbn [snd]. eexists. split; [reflexivity|]. split; reflexivity.
  - intros key Hout.
    unfold verify_api_key in Hout.
    destruct api_key as [[|a key']|]; [discriminate Hout | | discriminate Hout].
    destruct (existsb (String.eqb (String a key')) (api_keys settings)) eqn:Hin;
      cbn [negb] in Hout; [|discriminate Hout].
    destruct (RateLimiter.check_rate_limit rate_limiter (String a key') t0 t1 t2)
      as [limiter' [is_allowed error_message]] eqn:Hcheck.
    destruct is_allowed; cbn [negb] in Hout.
    + cbn [snd] in Hout. injection Hout as <-.
      split; [reflexivity|]. split; [discriminate|].
      split; [apply Hmember, Hin | rewrite Hcheck; reflexivity].
    + destruct (RateLimiter.get_remaining limiter' (String a key') t3 now).
      discriminate Hout.
Qed.

Lemma verify_api_key_outcomes_witness :
  fst (verify_api_key default_settings (RateLimiter.__init__ default_settings)
         (Some "guess") 1 1 1 1 (fun _ => 1))
  = RateLimiter.__init__ default_settings
  /\ exists e,
       snd (verify_api_key default_settings (RateLimiter.__init__ default_settings)
              (Some "guess") 1 1 1 1 (fun _ => 1)) = inl e
       /\ status_code e = 403%Z.
Proof.
  apply (verify_api_key_outcomes default_settings
           (RateLimiter.__init__ default_settings) (Some "guess") 1 1 1 1
           (fun _ => 1)) with (key := "guess").
  - reflexivity.
  - discriminate.
  - cbn. intros [Hk | []]. discriminate Hk.
Defined.

(* ================================================================= *)
(** ** Failures of the ensemble *)

Lemma ensemble_score_cases (self : EnsembleVoiceClassifier.t) (features : list Q) :
  Py.wf (EnsembleVoiceClassifier.models self) ->
  EnsembleVoiceClassifier.ensemble_score self features
  = match Spec.scaled self features with
    | None => Py.Raise (Py.ExternalError "scaler.transform")
    | Some X =>
        match Spec.survivors (EnsembleVoiceClassifier.models self) X with
        | [] => Py.Raise (Py.RuntimeError "All models failed to predict")
        | answers =>
            Py.Ok (Spec.fused (EnsembleVoiceClassifier.weights self) answers)
        end
    end.
Proof.
  intro Hwf.
  destruct (Spec.scaled self features) as [X|] eqn:Hscaled.
  - destruct (Spec.survivors (EnsembleVoiceClassifier.models self) X)
      as [|answer answers] eqn:Hsurv.
    + unfold EnsembleVoiceClassifier.ensemble_score.
      unfold Spec.scaled in Hscaled. revert Hscaled.
      destruct (EnsembleVoiceClassifier.scaler self) as [sc|]; intro Hscaled.
      * rewrite Hscaled. cbn [Py.external Py.bind].
        rewrite (predictions_of_survivors self X Hwf), Hsurv. reflexivity.
      * injection Hscaled as <-. cbn [Py.bind].
        rewrite (predictions_of_survivors self _ Hwf), Hsurv. reflexivity.
    + rewrite <- Hsurv. apply ensemble_score_survivors; try assumption.
      rewrite Hsurv. discriminate.
  - unfold EnsembleVoiceClassifier.ensemble_score.
    unfold Spec.scaled in Hscaled. revert Hscaled.
    destruct (EnsembleVoiceClassifier.scaler self) as [sc|]; intro Hscaled;
      [|discriminate Hscaled].
    rewrite Hscaled. reflexivity.
Qed.

(** X6.  [EnsembleVoiceClassifier.predict] fails in exactly two ways: with
    the [RuntimeError] "All models failed to predict" when the scaler ran
    and no sub-model answered, and with the scaler's own exception when
    [scaler.transform] raised; in every other case it returns a result. *)
Theorem ensemble_predict_failures
    (self : EnsembleVoiceClassifier.t) (features : list Q) (language : string) :
  Py.wf (EnsembleVoiceClassifier.models self) ->
  (EnsembleVoiceClassifier.predict self features language
   = Py.Raise (Py.RuntimeError "All models failed to predict")
   <-> exists X,
         Spec.scaled self features = Some X
         /\ Spec.survivors (EnsembleVoiceClassifier.models self) X = [])
  /\ (EnsembleVoiceClassifier.predict self features language
      = Py.Raise (Py.ExternalError "scaler.transform")
      <-> Spec.scaled self features = None)
  /\ (forall e,
        EnsembleVoiceClassifier.predict self features language = Py.Raise e ->
        e = Py.RuntimeError "All models failed to predict"
        \/ e = Py.ExternalError "scaler.transform")
  /\ ((exists label confidence,
          EnsembleVoiceClassifier.predict self features language
          = Py.Ok (label, confidence))
      <-> exists X,
            Spec.scaled self features = Some X
            /\ Spec.survivors (EnsembleVoiceClassifier.models self) X <> []).
Proof.
  intro Hwf.
  unfold EnsembleVoiceClassifier.predict.
  rewrite (ensemble_score_cases self features Hwf).
  destruct (Spec.scaled self features) as [X|].
  - destruct (Spec.survivors (EnsembleVoiceClassifier.models self) X)
      as [|answer answers] eqn:Hsurv; cbn [Py.bind].
    + split;
        [split; [intros _; exists X; split; [reflexivity | exact Hsurv]
                | reflexivity]|].
      split; [split; discriminate|].
      split; [intros e He; injection He as <-; left; reflexivity|].
      split.
      * intros (label & confidence & Hok). discriminate Hok.
      * intros (X' & HX' & Hne). injection HX' as <-.
        rewrite Hsurv in Hne. contradiction Hne. reflexivity.
    + split.
      { split; [discriminate|].
        intros (X' & HX' & Hnil). injection HX' as <-.
        rewrite Hsurv in Hnil. discriminate Hnil. }
      split; [split; discriminate|].
      split; [intros e He; discriminate He|].
      split.
      * intros _. exists X. split; [reflexivity|]. rewrite Hsurv. discriminate.
      * intros _. do 2 eexists. reflexivity.
  - cbn [Py.bind].
    split; [split; [discriminate | intros (X & HX & _); discriminate HX]|].
    split; [split; reflexivity|].
    split; [intros e He; injection He as <-; right; reflexivity|].
    split.
    + intros (label & confidence & Hok). discriminate Hok.
    + intros (X & HX & _). discriminate HX.
Qed.

Lemma all_broken_wf :
  Py.wf (EnsembleVoiceClassifier.models AppInstances.all_broken).
Proof.
  unfold Py.wf. cbn.
  repeat constructor; cbn; intuition discriminate.
Defined.

Lemma ensemble_predict_failures_witness :
  EnsembleVoiceClassifier.predict AppInstances.all_broken Examples.zeros "english"
  = Py.Raise (Py.RuntimeError "All models failed to predict").
Proof.
  apply (ensemble_predict_failures AppInstances.all_broken Examples.zeros
           "english" all_broken_wf).
  exists [Examples.zeros]. split; reflexivity.
Defined.

(* ================================================================= *)
(** ** The request path *)

Lemma round_nonneg (x : Q) (ndigits : nat) : 0 <= x -> 0 <= Py.round x ndigits.
Proof.
  intro Hx. unfold Py.round.
  assert (0 < inject_Z (10 ^ Z.of_nat ndigits)) as Hscale.
  { change 0 with (inject_Z 0). rewrite <- Zlt_Qlt.
    apply Z.pow_pos_nonneg; lia. }
  assert (inject_Z 0 <= x * inject_Z (10 ^ Z.of_nat ndigits)) as Hscaled.
  { change (inject_Z 0) with 0. apply Qmult_le_0_compat; [exact Hx|].
    apply Qlt_le_weak, Hscale. }
  apply round_half_even_ge in Hscaled. rewrite Zle_Qle in Hscaled.
  change (inject_Z 0) with 0 in Hscaled.
  apply Qle_shift_div_l; [exact Hscale|]. rewrite Qmult_0_l. exact Hscaled.
Qed.

(** X7.  [validate_base64] returns its argument unchanged exactly when the
    string decodes to at least 100 bytes.  Every failure is a [ValueError]
    whose message starts with "Invalid base64 encoding: ": a string that
    decodes to fewer than 100 bytes is reported as "Invalid base64 encoding:
    Audio data too small", because the handler catches the validator's own
    error too. *)
Theorem validate_base64_outcomes `{Base64}
    (external_text : string -> string) (v : string) :
  (validate_base64 external_text v = Py.Ok v
   <-> exists decoded,
         b64decode v = Some decoded /\ (100 <= List.length decoded)%nat)
  /\ (forall w, validate_base64 external_text v = Py.Ok w -> w = v)
  /\ (forall decoded,
        b64decode v = Some decoded -> (List.length decoded < 100)%nat ->
        validate_base64 external_text v
        = Py.Raise (Py.ValueError
                      "Invalid base64 encoding: Audio data too small" []))
  /\ (b64decode v = None ->
      validate_base64 external_text v
      = Py.Raise (Py.ValueError
                    ("Invalid base64 encoding: "
                     ++ external_text "base64.b64decode") [])).
Proof.
  unfold validate_base64, Py.try_except, Py.external, Py.bind.
  destruct (b64decode v) as [decoded|].
  - destruct (List.length decoded <? 100)%nat eqn:Hlen.
    + apply Nat.ltb_lt in Hlen.
      split; [split; [discriminate|]|].
      { intros (d & Hd & Hbig). injection Hd as <-. lia. }
      split; [intros w Hw; discriminate Hw|].
      split; [intros d Hd _; reflexivity | discriminate].
    + apply Nat.ltb_ge in Hlen.
      split; [split; [intros _; exists decoded; split; [reflexivity | exact Hlen]
                     | reflexivity]|].
      split; [intros w Hw; injection Hw as <-; reflexivity|].
      split; [|discriminate].
      intros d Hd Hsmall. injection Hd as <-. lia.
  - split; [split; [discriminate | intros (d & Hd & _); discriminate Hd]|].
    split; [intros w Hw; discriminate Hw|].
    split; [intros d Hd; discriminate Hd | reflexivity].
Qed.

Lemma validate_base64_outcomes_witness :
  @b64decode AppInstances.strict_base64 "//////8="
  = Some [xff; xff; xff; xff; xff]
  /\ @validate_base64 AppInstances.strict_base64 AppInstances.call_name "//////8="
     = Py.Raise (Py.ValueError
                   "Invalid base64 encoding: Audio data too small" []).
Proof.
  split; [reflexivity|].
  apply (@validate_base64_outcomes AppInstances.strict_base64
           AppInstances.call_name "//////8=")
    with (decoded := [xff; xff; xff; xff; xff]).
  - reflexivity.
  - cbn. lia.
Defined.

Section RequestPath.

Context `{Base64} `{Librosa} `{Numeric}.

(** What a successful [detect_voice] went through. *)
Lemma detect_voice_ok_inv
    (settings : Settings) (audio_processor : AudioProcessor.t)
    (c : classifier) (request : VoiceDetectionRequest)
    (r start_time end_time : Q) (now_text : string)
    (response : VoiceDetectionResponse) :
  detect_voice settings audio_processor c request r start_time end_time now_text
  = inr response ->
  exists audio_bytes audio sr duration label conf,
    b64decode (audio_base64 request) = Some audio_bytes
    /\ (Z.of_nat (List.length audio_bytes)
        <= max_file_size_mb settings * 1024 * 1024)%Z
    /\ AudioProcessor.preprocess audio_processor audio_bytes
       = Py.Ok (audio, sr, duration)
    /\ classifier_predict c
         (Np.arr_data (AudioProcessor.extract_all_features audio sr))
         (language request) r = Py.Ok (label, conf)
    /\ new_VoiceDetectionResponse label conf (language request)
         (Py.round ((end_time - start_time) * 1000) 2) now_text
         (Py.round duration 2) (classifier_model_version c)
       = Py.Ok response.
Proof.
  unfold detect_voice.
  destruct (b64decode (audio_base64 request)) as [audio_bytes|];
    [|discriminate].
  destruct (max_file_size_mb settings * 1024 * 1024
            <? Z.of_nat (List.length audio_bytes))%Z eqn:Hsize; [discriminate|].
  apply Z.ltb_ge in Hsize.
  destruct (AudioProcessor.preprocess audio_processor audio_bytes)
    as [[[audio sr] duration]|e] eqn:Hpre; [|destruct e; discriminate].
  destruct (classifier_predict c
              (Np.arr_data (AudioProcessor.extract_all_features audio sr))
              (language request) r) as [[label conf]|e] eqn:Hcls; [|discriminate].
  destruct (new_VoiceDetectionResponse label conf (language request)
              (Py.round ((end_time - start_time) * 1000) 2) now_text
              (Py.round duration 2) (classifier_model_version c))
    as [resp|e] eqn:Hresp; [|discriminate].
  intro Hok. injection Hok as <-.
  exists audio_bytes, audio, sr, duration, label, conf.
  repeat split; try assumption; reflexivity.
Qed.

Lemma new_response_inv (label : string) (conf : Q) (lang : string) (ms : Q)
    (now_text : string) (duration : Q) (version : string)
    (response : VoiceDetectionResponse) :
  new_VoiceDetectionResponse label conf lang ms now_text duration version
  = Py.Ok response ->
  response = {| prediction := label; confidence := conf;
                response_language := lang; processing_time_ms := ms;
                timestamp := now_text; audio_duration_seconds := duration;
                response_model_version := version |}
  /\ (label = "AI_GENERATED" \/ label = "HUMAN")
  /\ 0 <= conf /\ conf <= 1 /\ 0 <= ms /\ 0 <= duration.
Proof.
  unfold new_VoiceDetectionResponse.
  destruct ((String.eqb label "AI_GENERATED" || String.eqb label "HUMAN")
            && Qle_bool 0 conf && Qle_bool conf 1 && Qle_bool 0 ms
            && Qle_bool 0 duration) eqn:Hchecks; [|discriminate].
  intro Hok. injection Hok as <-.
  repeat rewrite andb_true_iff in Hchecks.
  destruct Hchecks as [[[[Hlabel Hc0] Hc1] Hms] Hd].
  apply orb_true_iff in Hlabel.
  rewrite !String.eqb_eq in Hlabel.
  apply Qle_bool_iff in Hc0, Hc1, Hms, Hd.
  repeat split; assumption.
Qed.

Lemma new_response_ok (label : string) (conf : Q) (lang : string) (ms : Q)
    (now_text : string) (duration : Q) (version : string) :
  (label = "AI_GENERATED" \/ label = "HUMAN") ->
  0 <= conf -> conf <= 1 -> 0 <= ms -> 0 <= duration ->
  new_VoiceDetectionResponse label conf lang ms now_text duration version
  = Py.Ok {| prediction := label; confidence := conf;
             response_language := lang; processing_time_ms := ms;
             timestamp := now_text; audio_duration_seconds := duration;
             response_model_version := version |}.
Proof.
  intros Hlabel Hc0 Hc1 Hms Hd.
  unfold new_VoiceDetectionResponse.
  apply Qle_bool_iff in Hc0, Hc1, Hms, Hd.
  rewrite Hc0, Hc1, Hms, Hd.
  destruct Hlabel as [-> | ->]; reflexivity.
Qed.

(** Either classifier answers one of the two labels with at least 0.5. *)
Lemma classifier_predict_ok (c : classifier) (features : list Q)
    (lang label : string) (r conf : Q) :
  classifier_predict c features lang r = Py.Ok (label, conf) ->
  (label = "AI_GENERATED" \/ label = "HUMAN") /\ 0.5 <= conf.
Proof.
  destruct c as [m | e]; cbn [classifier_predict].
  - rewrite predict_unfold. intro Hok. injection Hok as <- <-.
    split; [apply label_of_cases | apply round3_mass, mass_of_ge_half].
  - intro Hok.
    destruct (predict_inv e features lang label conf Hok) as (s & _ & -> & ->).
    split; [apply label_of_cases | apply round3_mass, mass_of_ge_half].
Qed.

End RequestPath.

(** X8.  Every response [detect_voice] returns carries one of the two
    labels, a confidence between 0.5 and 1, a non-negative processing time,
    the request's language, the classifier's model version, and as
    [audio_duration_seconds] the duration of the decoded buffer (before
    trimming) rounded to two decimals. *)
Theorem detect_voice_response `{Base64} `{Librosa} `{Numeric}
    (settings : Settings) (audio_processor : AudioProcessor.t)
    (c : classifier) (request : VoiceDetectionRequest)
    (r start_time end_time : Q) (now_text : string)
    (response : VoiceDetectionResponse) :
  detect_voice settings audio_processor c request r start_time end_time now_text
  = inr response ->
  (prediction response = "AI_GENERATED" \/ prediction response = "HUMAN")
  /\ 0.5 <= confidence response
  /\ confidence response <= 1
  /\ 0 <= processing_time_ms response
  /\ processing_time_ms response = Py.round ((end_time - start_time) * 1000) 2
  /\ response_language response = language request
  /\ response_model_version response = classifier_model_version c
  /\ exists audio_bytes decoded sr,
       b64decode (audio_base64 request) = Some audio_bytes
       /\ load audio_bytes (AudioProcessor.target_sr audio_processor)
          = Some (decoded, sr)
       /\ audio_duration_seconds response
          = Py.round (get_duration decoded sr) 2
       /\ 0 <= audio_duration_seconds response.
Proof.
  intro Hok.
  destruct (detect_voice_ok_inv _ _ _ _ _ _ _ _ _ Hok)
    as (audio_bytes & audio & sr & duration & label & conf
        & Hdecode & _ & Hpre & Hcls & Hresp).
  destruct (new_response_inv _ _ _ _ _ _ _ _ Hresp)
    as (-> & Hlabel & _ & Hc1 & Hms & Hd).
  destruct (classifier_predict_ok _ _ _ _ _ _ Hcls) as [_ Hhalf].
  cbn [prediction confidence processing_time_ms response_language
       response_model_version audio_duration_seconds].
  repeat (split; [first [assumption | reflexivity]|]).
  pose proof (preprocess_cases audio_processor audio_bytes) as Hcases.
  destruct (load audio_bytes (AudioProcessor.target_sr audio_processor))
    as [[decoded sr']|] eqn:Hload; [|rewrite Hcases in Hpre; discriminate Hpre].
  cbv zeta in Hcases.
  destruct (get_duration decoded sr' <? AudioProcessor.min_duration audio_processor);
    [rewrite Hcases in Hpre; discriminate Hpre|].
  destruct (get_duration decoded sr' >? AudioProcessor.max_duration audio_processor);
    [rewrite Hcases in Hpre; discriminate Hpre|].
  rewrite Hcases in Hpre. injection Hpre as _ <- <-.
  exists audio_bytes, decoded, sr'.
  split; [exact Hdecode|]. split; [exact Hload|].
  split; [reflexivity | exact Hd].
Qed.

Lemma detect_voice_response_witness :
  exists response,
    @detect_voice AppInstances.strict_base64 Instances.sample_librosa
      Instances.coarse_numeric default_settings (AudioProcessor.__init__ 10)
      (Mock MockVoiceClassifier.__init__) AppInstances.quiet_start_request
      (1 # 2) 5 6 "2024-02-05T10:30:00"
    = inr response
    /\ 0.5 <= confidence response /\ confidence response <= 1.
Proof.
  assert (exists response,
             @detect_voice AppInstances.strict_base64 Instances.sample_librosa
               Instances.coarse_numeric default_settings
               (AudioProcessor.__init__ 10) (Mock MockVoiceClassifier.__init__)
               AppInstances.quiet_start_request (1 # 2) 5 6
               "2024-02-05T10:30:00"
             = inr response) as [response Hresponse]
      by (eexists; vm_compute; reflexivity).
  exists response. split; [exact Hresponse|].
  destruct (@detect_voice_response AppInstances.strict_base64
              Instances.sample_librosa Instances.coarse_numeric default_settings
              (AudioProcessor.__init__ 10) (Mock MockVoiceClassifier.__init__)
              AppInstances.quiet_start_request (1 # 2) 5 6 "2024-02-05T10:30:00"
              response Hresponse)
    as (_ & Hhalf & Hone & _).
  split; [exact Hhalf | exact Hone].
Defined.

(** X9.  [detect_voice] maps failures to HTTP statuses as follows, for
    every classifier: it raises only 400 or 500; undecodable base64, a
    payload above [max_file_size_mb], an audio stream librosa cannot load
    and a duration outside the bounds all give 400, the last with the text
    of the duration error as detail.  In these cases the classifier is not
    consulted. *)
Theorem detect_voice_client_errors `{Base64} `{Librosa} `{Numeric}
    (settings : Settings) (audio_processor : AudioProcessor.t)
    (c : classifier) (request : VoiceDetectionRequest)
    (r start_time end_time : Q) (now_text : string) :
  (forall e,
      detect_voice settings audio_processor c request r start_time end_time
        now_text = inl e ->
      status_code e = 400%Z \/ status_code e = 500%Z)
  /\ (b64decode (audio_base64 request) = None ->
      detect_voice settings audio_processor c request r start_time end_time
        now_text
      = inl (http_error 400 (TextOf "Invalid base64 encoding: "
                               (Py.ExternalError "base64.b64decode"))))
  /\ (forall audio_bytes,
        b64decode (audio_base64 request) = Some audio_bytes ->
        ((max_file_size_mb settings * 1024 * 1024
          < Z.of_nat (List.length audio_bytes))%Z ->
         detect_voice settings audio_processor c request r start_time end_time
           now_text
         = inl (http_error 400
                  (Text ("File too large. Maximum size: "
                         ++ str_int (max_file_size_mb settings) ++ "MB"))))
        /\ ((Z.of_nat (List.length audio_bytes)
             <= max_file_size_mb settings * 1024 * 1024)%Z ->
            (load audio_bytes (AudioProcessor.target_sr audio_processor) = None ->
             detect_voice settings audio_processor c request r start_time
               end_time now_text
             = inl (http_error 400
                      (TextOf "Could not process audio: "
                         (Py.ExternalError "librosa.load"))))
            /\ (forall audio sr,
                  load audio_bytes (AudioProcessor.target_sr audio_processor)
                  = Some (audio, sr) ->
                  (get_duration audio sr
                   < AudioProcessor.min_duration audio_processor ->
                   detect_voice settings audio_processor c request r start_time
                     end_time now_text
                   = inl (http_error 400
                            (TextOf ""
                               (Py.ValueError "Audio too short"
                                  [get_duration audio sr;
                                   AudioProcessor.min_duration audio_processor]))))
                  /\ (AudioProcessor.min_duration audio_processor
                      <= get_duration audio sr ->
                      AudioProcessor.max_duration audio_processor
                      < get_duration audio sr ->
                      detect_voice settings audio_processor c request r
                        start_time end_time now_text
                      = inl (http_error 400
                               (TextOf ""
                                  (Py.ValueError "Audio too long"
                                     [get_duration audio sr;
                                      AudioProcessor.max_duration
                                        audio_processor]))))))).
Proof.
  split.
  { intros e. unfold detect_voice.
    destruct (b64decode (audio_base64 request)) as [audio_bytes|];
      [|intro He; injection He as <-; left; reflexivity].
    destruct (max_file_size_mb settings * 1024 * 1024
              <? Z.of_nat (List.length audio_bytes))%Z;
      [intro He; injection He as <-; left; reflexivity|].
    destruct (AudioProcessor.preprocess audio_processor audio_bytes)
      as [[[audio sr] duration]|err];
      [|destruct err; intro He; injection He as <-; left; reflexivity].
    destruct (classifier_predict c
                (Np.arr_data (AudioProcessor.extract_all_features audio sr))
                (language request) r) as [[label conf]|err];
      [|intro He; injection He as <-; right; reflexivity].
    destruct (new_VoiceDetectionResponse label conf (language request)
                (Py.round ((end_time - start_time) * 1000) 2) now_text
                (Py.round duration 2) (classifier_model_version c));
      intro He; [discriminate He | injection He as <-; right; reflexivity]. }
  split.
  { intro Hdecode. unfold detect_voice. rewrite Hdecode. reflexivity. }
  intros audio_bytes Hdecode. unfold detect_voice. rewrite Hdecode.
  split.
  { intro Hbig. apply Z.ltb_lt in Hbig. rewrite Hbig. reflexivity. }
  intro Hsize. apply Z.ltb_ge in Hsize. rewrite Hsize.
  split.
  - intro Hload. unfold AudioProcessor.preprocess. rewrite Hload. reflexivity.
  - intros audio sr Hload. split.
    + intro Hshort.
      rewrite (preprocess_too_short audio_processor _ audio sr Hload Hshort).
      reflexivity.
    + intros Hmin Hlong.
      rewrite (preprocess_too_long audio_processor _ audio sr Hload Hmin Hlong).
      reflexivity.
Qed.

Lemma detect_voice_client_errors_witness :
  exists args,
    @detect_voice AppInstances.strict_base64 Instances.sample_librosa
      Instances.coarse_numeric default_settings (AudioProcessor.__init__ 10)
      (Mock MockVoiceClassifier.__init__) AppInstances.half_second_request
      (1 # 2) 5 6 "2024-02-05T10:30:00"
    = inl (http_error 400 (TextOf "" (Py.ValueError "Audio too short" args))).
Proof.
  eexists.
  apply (@detect_voice_client_errors AppInstances.strict_base64
           Instances.sample_librosa Instances.coarse_numeric default_settings
           (AudioProcessor.__init__ 10) (Mock MockVoiceClassifier.__init__)
           AppInstances.half_second_request (1 # 2) 5 6 "2024-02-05T10:30:00")
    with (audio_bytes := [xff; xff; xff; xff; xff])
         (audio := map Instances.pcm_sample [xff; xff; xff; xff; xff])
         (sr := 10%Z).
  - reflexivity.
  - cbn. lia.
  - reflexivity.
  - vm_compute. reflexivity.
Defined.

Lemma mock_confidence_bounds (m : MockVoiceClassifier.t) (features : list Q)
    (lang : string) (r : Q) :
  0.5 <= snd (MockVoiceClassifier.predict m features lang r)
  /\ snd (MockVoiceClassifier.predict m features lang r) <= 0.95.
Proof.
  rewrite predict_unfold. cbn [snd].
  pose proof (ai_score_final_bounds features r) as [Hlo Hhi].
  destruct (mass_of_bounds 0.05 (MockVoiceClassifier.ai_score_final features r))
    as [Hm0 Hm1]; try assumption; try lra.
  split; [apply round3_mass, Hm0|].
  pose proof (round3_le 950
                (Spec.mass_of (MockVoiceClassifier.ai_score_final features r)))
    as Hr.
  change (inject_Z 950) with 950 in Hr.
  assert (Spec.mass_of (MockVoiceClassifier.ai_score_final features r) * 1000
          <= 950) as Hscaled by lra.
  specialize (Hr Hscaled). lra.
Qed.


Lemma quiet_start_preprocessed :
  exists audio duration,
    @AudioProcessor.preprocess Instances.sample_librosa
      (AudioProcessor.__init__ 10) Examples.quiet_start
    = Py.Ok (audio, 10%Z, duration).
Proof. do 2 eexists. vm_compute. reflexivity. Defined.


(** X11.  With the ensemble, a request that passes [preprocess] gets the
    status 500 "Error during classification" when the scaler raises or no
    sub-model answers: the failure of the classifier is not hidden behind a
    response. *)
Theorem detect_voice_ensemble_failure `{Base64} `{Librosa} `{Numeric}
    (settings : Settings) (audio_processor : AudioProcessor.t)
    (e : EnsembleVoiceClassifier.t) (request : VoiceDetectionRequest)
    (r start_time end_time : Q) (now_text : string)
    (audio_bytes : list byte) (audio : list Q) (sr : Z) (duration : Q) :
  b64decode (audio_base64 request) = Some audio_bytes ->
  (Z.of_nat (List.length audio_bytes)
   <= max_file_size_mb settings * 1024 * 1024)%Z ->
  AudioProcessor.preprocess audio_processor audio_bytes
  = Py.Ok (audio, sr, duration) ->
  Py.wf (EnsembleVoiceClassifier.models e) ->
  (Spec.scaled e (Np.arr_data (AudioProcessor.extract_all_features audio sr))
   = None
   \/ exists X,
        Spec.scaled e (Np.arr_data (AudioProcessor.extract_all_features audio sr))
        = Some X
        /\ Spec.survivors (EnsembleVoiceClassifier.models e) X = []) ->
  detect_voice settings audio_processor (Ensemble e) request r start_time
    end_time now_text
  = inl (http_error 500 (Text "Error during classification")).
Proof.
  intros Hdecode Hsize Hpre Hwf Hfail.
  unfold detect_voice. rewrite Hdecode.
  apply Z.ltb_ge in Hsize. rewrite Hsize, Hpre.
  cbn [classifier_predict]. unfold EnsembleVoiceClassifier.predict.
  rewrite (ensemble_score_cases e _ Hwf).
  destruct Hfail as [Hscaler | (X & Hscaled & Hnone)].
  - rewrite Hscaler. reflexivity.
  - rewrite Hscaled, Hnone. reflexivity.
Qed.

Lemma detect_voice_ensemble_failure_witness :
  @detect_voice AppInstances.strict_base64 Instances.sample_librosa
    Instances.coarse_numeric default_settings (AudioProcessor.__init__ 10)
    (Ensemble AppInstances.all_broken) AppInstances.quiet_start_request
    (1 # 2) 5 6 "2024-02-05T10:30:00"
  = inl (http_error 500 (Text "Error during classification")).
Proof.
  destruct quiet_start_preprocessed as (audio & duration & Hpre).
  apply (@detect_voice_ensemble_failure AppInstances.strict_base64
           Instances.sample_librosa Instances.coarse_numeric default_settings
           (AudioProcessor.__init__ 10) AppInstances.all_broken
           AppInstances.quiet_start_request (1 # 2) 5 6 "2024-02-05T10:30:00"
           Examples.quiet_start audio 10%Z duration).
  - vm_compute. reflexivity.
  - vm_compute. intro Hc. discriminate Hc.
  - exact Hpre.
  - exact all_broken_wf.
  - right. eexists. split; reflexivity.
Defined.

(* ================================================================= *)
(** ** The extracted vector as the heuristic classifier reads it *)

Section Offsets.

Context {L : Librosa} {N : Numeric} (shapes : @LibrosaShapes L).

Lemma nth_after {A} (n i : nat) (xs ys : list A) (d : A) :
  List.length xs = n -> nth (n + i) (xs ++ ys) d = nth i ys d.
Proof. intros <-. apply app_nth2_plus. Qed.

(** The vector behind its first 90 entries (MFCC and spectral blocks). *)
Lemma features_from_90 (audio : list Q) (sr : Z) (i : nat) :
  nth (90 + i) (Np.arr_data (AudioProcessor.extract_all_features audio sr)) 0
  = nth i (AudioProcessor._extract_prosodic_features audio sr
           ++ AudioProcessor._extract_voice_quality_features audio sr
           ++ AudioProcessor._extract_temporal_features audio sr
           ++ AudioProcessor._extract_chroma_features audio sr) 0.
Proof.
  unfold AudioProcessor.extract_all_features. cbn [Np.arr_data app].
  rewrite <- !app_assoc.
  rewrite (app_assoc (AudioProcessor._extract_mfcc_features audio sr)).
  apply nth_after.
  unfold AudioProcessor._extract_mfcc_features.
  rewrite !length_app, mean_axis1_length, std_axis1_length, mfcc_rows,
    spectral_length.
  reflexivity.
Qed.

Lemma features_prosodic (audio : list Q) (sr : Z) (i : nat) :
  (i < 6)%nat ->
  nth (90 + i) (Np.arr_data (AudioProcessor.extract_all_features audio sr)) 0
  = nth i (AudioProcessor._extract_prosodic_features audio sr) 0.
Proof.
  intro Hi. rewrite features_from_90. apply app_nth1.
  rewrite prosodic_length. exact Hi.
Qed.

Lemma features_voice_quality (audio : list Q) (sr : Z) (i : nat) :
  (i < 3)%nat ->
  nth (96 + i) (Np.arr_data (AudioProcessor.extract_all_features audio sr)) 0
  = nth i (AudioProcessor._extract_voice_quality_features audio sr) 0.
Proof.
  intro Hi. change (96 + i)%nat with (90 + (6 + i))%nat.
  rewrite features_from_90.
  rewrite (nth_after 6 i) by apply prosodic_length.
  apply app_nth1. rewrite voice_quality_length. exact Hi.
Qed.

Lemma features_temporal (audio : list Q) (sr : Z) (i : nat) :
  (i < 4)%nat ->
  nth (99 + i) (Np.arr_data (AudioProcessor.extract_all_features audio sr)) 0
  = nth i (AudioProcessor._extract_temporal_features audio sr) 0.
Proof.
  intro Hi. change (99 + i)%nat with (90 + (6 + (3 + i)))%nat.
  rewrite features_from_90.
  rewrite (nth_after 6 (3 + i)) by apply prosodic_length.
  rewrite (nth_after 3 i) by apply voice_quality_length.
  apply app_nth1. rewrite temporal_length. exact Hi.
Qed.

Lemma features_mfcc_std (audio : list Q) (sr : Z) :
  Np.slice (Np.arr_data (AudioProcessor.extract_all_features audio sr)) 40 80
  = Np.std_axis1 (feature_mfcc audio sr 40).
Proof.
  unfold AudioProcessor.extract_all_features,
    AudioProcessor._extract_mfcc_features, Np.slice.
  cbn [Np.arr_data app]. rewrite <- !app_assoc.
  assert (List.length (Np.mean_axis1 (feature_mfcc audio sr 40)) = 40%nat) as Hmean
      by (rewrite mean_axis1_length; apply mfcc_rows).
  assert (List.length (Np.std_axis1 (feature_mfcc audio sr 40)) = 40%nat) as Hstd
      by (rewrite std_axis1_length; apply mfcc_rows).
  change (80 - 40)%nat with 40%nat.
  rewrite skipn_app, Hmean, Nat.sub_diag, skipn_O.
  rewrite skipn_all2 by lia. rewrite app_nil_l.
  rewrite firstn_app, Hstd, Nat.sub_diag, firstn_O, app_nil_r.
  apply firstn_all2. lia.
Qed.

End Offsets.

Lemma temporal_onset (L : Librosa) (N : Numeric) (audio : list Q) (sr : Z) :
  nth 2 (AudioProcessor._extract_temporal_features audio sr) 0
  = Np.mean (onset_strength audio sr)
  /\ nth 3 (AudioProcessor._extract_temporal_features audio sr) 0
     = Np.std (onset_strength audio sr).
Proof.
  unfold AudioProcessor._extract_temporal_features.
  destruct (0 <? List.length (effects_split audio 30))%nat; split; reflexivity.
Qed.

Lemma prosodic_unvoiced (L : Librosa) (N : Numeric) (audio : list Q) (sr : Z) :
  AudioProcessor.pitch_values_of audio sr = [] ->
  nth 0 (AudioProcessor._extract_prosodic_features audio sr) 0 = 0
  /\ nth 1 (AudioProcessor._extract_prosodic_features audio sr) 0 = 0
  /\ nth 2 (AudioProcessor._extract_prosodic_features audio sr) 0 = 0.
Proof.
  intro Hnone. unfold AudioProcessor._extract_prosodic_features.
  rewrite Hnone. repeat split; reflexivity.
Qed.

Lemma jitter_unvoiced (L : Librosa) (N : Numeric) (audio : list Q) (sr : Z) :
  (List.length (AudioProcessor.pitch_values_of audio sr) <= 1)%nat ->
  nth 0 (AudioProcessor._extract_voice_quality_features audio sr) 0 = 0.
Proof.
  intro Hfew. unfold AudioProcessor._extract_voice_quality_features.
  apply Nat.ltb_ge in Hfew. rewrite Hfew.
  destruct (effects_hpss audio). reflexivity.
Qed.

(** X12.  Where the heuristic classifier's offsets fall in the vector of
    [extract_all_features] (librosa's documented shapes assumed): offset 91
    is the second prosodic value (pitch std), offsets 96 to 98 are jitter,
    shimmer and HNR, [40:80] are the MFCC standard deviations, and offset
    101, which [predict] names [onset_std], is the mean of the onset
    strength; its standard deviation is at offset 102, which [predict] does
    not read. *)
Theorem heuristic_offsets_in_extracted_vector
    {L : Librosa} {N : Numeric} (shapes : @LibrosaShapes L)
    (audio : list Q) (sr : Z) :
  MockVoiceClassifier.feature_or_0
    (Np.arr_data (AudioProcessor.extract_all_features audio sr)) 101
  = Np.mean (onset_strength audio sr)
  /\ nth 102 (Np.arr_data (AudioProcessor.extract_all_features audio sr)) 0
     = Np.std (onset_strength audio sr)
  /\ MockVoiceClassifier.feature_or_0
       (Np.arr_data (AudioProcessor.extract_all_features audio sr)) 91
     = nth 1 (AudioProcessor._extract_prosodic_features audio sr) 0
  /\ MockVoiceClassifier.feature_or_0
       (Np.arr_data (AudioProcessor.extract_all_features audio sr)) 96
     = nth 0 (AudioProcessor._extract_voice_quality_features audio sr) 0
  /\ MockVoiceClassifier.feature_or_0
       (Np.arr_data (AudioProcessor.extract_all_features audio sr)) 97
     = nth 1 (AudioProcessor._extract_voice_quality_features audio sr) 0
  /\ MockVoiceClassifier.feature_or_0
       (Np.arr_data (AudioProcessor.extract_all_features audio sr)) 98
     = nth 2 (AudioProcessor._extract_voice_quality_features audio sr) 0
  /\ Np.slice (Np.arr_data (AudioProcessor.extract_all_features audio sr)) 40 80
     = Np.std_axis1 (feature_mfcc audio sr 40).
Proof.
  rewrite !feature_or_0_nth.
  destruct (temporal_onset L N audio sr) as [Hmean Hstd].
  split; [rewrite <- Hmean; apply (features_temporal shapes audio sr 2); lia|].
  split; [rewrite <- Hstd; apply (features_temporal shapes audio sr 3); lia|].
  split; [apply (features_prosodic shapes audio sr 1); lia|].
  split; [apply (features_voice_quality shapes audio sr 0); lia|].
  split; [apply (features_voice_quality shapes audio sr 1); lia|].
  split; [apply (features_voice_quality shapes audio sr 2); lia|].
  apply features_mfcc_std, shapes.
Qed.

Lemma heuristic_offsets_in_extracted_vector_witness :
  MockVoiceClassifier.feature_or_0
    (Np.arr_data
       (@AudioProcessor.extract_all_features Instances.sample_librosa
          Instances.coarse_numeric [1; 0; 0; 1; 1] 10)) 101
  = Np.mean (@onset_strength Instances.sample_librosa [1; 0; 0; 1; 1] 10).
Proof.
  apply (@heuristic_offsets_in_extracted_vector Instances.sample_librosa
           Instances.coarse_numeric sample_librosa_shapes [1; 0; 0; 1; 1] 10).
Defined.

(** The rows of the table other than those on offsets 91 and 96 never
    lower the score, and the whole table moves it by at least -0.2. *)
Lemma scalar_adjustments_lower (f : list Q) :
  Spec.adjustment (nth 91 f 0 <? 30) 0.25
  + Spec.adjustment (nth 91 f 0 >? 100) (-0.10)
  + Spec.adjustment (nth 96 f 0 <? 0.02) 0.15
  + Spec.adjustment (nth 96 f 0 >? 0.05) (-0.10)
  <= Spec.scalar_adjustments f
  /\ -0.2 <= Spec.scalar_adjustments f.
Proof.
  unfold Spec.scalar_adjustments, Spec.adjustment.
  destruct (nth 91 f 0 <? 30), (nth 91 f 0 >? 100), (nth 96 f 0 <? 0.02),
    (nth 96 f 0 >? 0.05), (nth 97 f 0 <? 0.03), (nth 98 f 0 >? 15),
    (nth 101 f 0 <? 0.5); split; lra.
Qed.

Lemma clamp_ge (lo hi x b : Q) :
  b <= hi -> b <= x -> b <= Spec.clamp lo hi x.
Proof.
  intros Hhi Hx. unfold Spec.clamp.
  apply Q.max_le_iff. right. apply Q.min_glb; assumption.
Qed.

Lemma clamp_gt (lo hi x b : Q) :
  b < hi -> b < x -> b < Spec.clamp lo hi x.
Proof.
  intros Hhi Hx. unfold Spec.clamp.
  apply Q.max_lt_iff. right. apply Q.min_glb_lt; assumption.
Qed.

Lemma clamp_le (lo hi x b : Q) :
  lo <= b -> x <= b -> Spec.clamp lo hi x <= b.
Proof.
  intros Hlo Hx. unfold Spec.clamp.
  apply Q.max_lub; [exact Hlo|].
  eapply Qle_trans; [apply Q.le_min_r | exact Hx].
Qed.

Lemma mfcc_row_nonneg (f : list Q) :
  0 <= (if (80 <=? List.length f)%nat
        then Spec.adjustment (Np.std_lt (Np.slice f 40 80) 2) 0.20 else 0).
Proof.
  unfold Spec.adjustment.
  destruct (80 <=? List.length f)%nat; [|lra].
  destruct (Np.std_lt (Np.slice f 40 80) 2); lra.
Qed.

(** X13.  The accumulated score of the heuristic never falls below 0.3, and
    the random draw decides the label only for accumulated scores between
    0.4 and 0.6: above 0.6 the label is AI_GENERATED and below 0.4 it is
    HUMAN for every draw in [0, 1]. *)
Theorem heuristic_noise_margin
    (self : MockVoiceClassifier.t) (features : list Q) (language : string) (r : Q) :
  0 <= r <= 1 ->
  0.3 <= MockVoiceClassifier.ai_score_normalized features
  /\ MockVoiceClassifier.ai_score_normalized features <= 1
  /\ (0.6 < MockVoiceClassifier.ai_score_normalized features ->
      fst (MockVoiceClassifier.predict self features language r) = "AI_GENERATED")
  /\ (MockVoiceClassifier.ai_score_normalized features < 0.4 ->
      fst (MockVoiceClassifier.predict self features language r) = "HUMAN").
Proof.
  intros Hr.
  destruct (uniform_noise_bounds r Hr) as [Hn0 Hn1].
  split.
  { rewrite ai_score_normalized_rows.
    pose proof (scalar_adjustments_lower features) as [_ Hlow].
    pose proof (mfcc_row_nonneg features) as Hrow.
    apply clamp_ge; lra. }
  split.
  { rewrite ai_score_normalized_rows. apply clamp_bounds. lra. }
  rewrite predict_unfold. cbn [fst]. unfold Spec.label_of.
  split.
  - intro Hhigh.
    assert (0.5 < MockVoiceClassifier.ai_score_final features r) as Hfinal.
    { unfold MockVoiceClassifier.ai_score_final.
      apply (clamp_gt 0.05 0.95); lra. }
    apply gtb_lt in Hfinal. rewrite Hfinal. reflexivity.
  - intro Hlow.
    assert (MockVoiceClassifier.ai_score_final features r <= 0.5) as Hfinal.
    { unfold MockVoiceClassifier.ai_score_final.
      apply (clamp_le 0.05 0.95); lra. }
    apply gtb_le in Hfinal. rewrite Hfinal. reflexivity.
Qed.

Lemma heuristic_noise_margin_witness :
  fst (MockVoiceClassifier.predict MockVoiceClassifier.__init__ Examples.zeros
         "english" 0) = "AI_GENERATED".
Proof.
  apply (heuristic_noise_margin MockVoiceClassifier.__init__ Examples.zeros
           "english" 0).
  - split; vm_compute; intro Hc; discriminate Hc.
  - vm_compute. reflexivity.
Defined.

(** X14.  An audio buffer without a voiced frame (no frame whose strongest
    bin has a positive pitch) has pitch mean, std and range 0 and jitter 0;
    the rows on offsets 91 and 96 then both fire, and the heuristic
    classifier answers AI_GENERATED with confidence at least 0.8, whatever
    the rest of the vector and the random draw in [0, 1]. *)
Theorem unvoiced_audio_is_ai
    {L : Librosa} {N : Numeric} (shapes : @LibrosaShapes L)
    (self : MockVoiceClassifier.t) (audio : list Q) (sr : Z)
    (language : string) (r : Q) :
  AudioProcessor.pitch_values_of audio sr = [] ->
  0 <= r <= 1 ->
  nth 90 (Np.arr_data (AudioProcessor.extract_all_features audio sr)) 0 = 0
  /\ nth 91 (Np.arr_data (AudioProcessor.extract_all_features audio sr)) 0 = 0
  /\ nth 92 (Np.arr_data (AudioProcessor.extract_all_features audio sr)) 0 = 0
  /\ nth 96 (Np.arr_data (AudioProcessor.extract_all_features audio sr)) 0 = 0
  /\ 0.9 <= MockVoiceClassifier.ai_score_normalized
              (Np.arr_data (AudioProcessor.extract_all_features audio sr))
  /\ fst (MockVoiceClassifier.predict self
            (Np.arr_data (AudioProcessor.extract_all_features audio sr))
            language r) = "AI_GENERATED"
  /\ 0.8 <= snd (MockVoiceClassifier.predict self
                   (Np.arr_data (AudioProcessor.extract_all_features audio sr))
                   language r).
Proof.
  intros Hnone Hr.
  set (v := Np.arr_data (AudioProcessor.extract_all_features audio sr)).
  destruct (prosodic_unvoiced L N audio sr Hnone) as (Hp0 & Hp1 & Hp2).
  assert (nth 90 v 0 = 0) as H90
      by (subst v; rewrite (features_prosodic shapes audio sr 0) by lia; exact Hp0).
  assert (nth 91 v 0 = 0) as H91
      by (subst v; rewrite (features_prosodic shapes audio sr 1) by lia; exact Hp1).
  assert (nth 92 v 0 = 0) as H92
      by (subst v; rewrite (features_prosodic shapes audio sr 2) by lia; exact Hp2).
  assert (nth 96 v 0 = 0) as H96.
  { subst v. rewrite (features_voice_quality shapes audio sr 0) by lia.
    apply jitter_unvoiced. rewrite Hnone. cbn. lia. }
  assert (0.9 <= MockVoiceClassifier.ai_score_normalized v) as Hacc.
  { rewrite ai_score_normalized_rows.
    pose proof (scalar_adjustments_lower v) as [Hrows _].
    pose proof (mfcc_row_nonneg v) as Hrow.
    rewrite H91, H96 in Hrows.
    change (Spec.adjustment (0 <? 30) 0.25 + Spec.adjustment (0 >? 100) (-0.10)
            + Spec.adjustment (0 <? 0.02) 0.15
            + Spec.adjustment (0 >? 0.05) (-0.10))
      with (0.25 + 0 + 0.15 + 0) in Hrows.
    apply clamp_ge; lra. }
  destruct (uniform_noise_bounds r Hr) as [Hn0 Hn1].
  assert (0.8 <= MockVoiceClassifier.ai_score_final v r) as Hfinal.
  { unfold MockVoiceClassifier.ai_score_final. apply (clamp_ge 0.05 0.95); lra. }
  repeat (split; [assumption|]).
  rewrite predict_unfold. cbn [fst snd]. unfold Spec.label_of, Spec.mass_of.
  assert ((MockVoiceClassifier.ai_score_final v r >? 0.5) = true) as ->
      by (apply gtb_lt; lra).
  split; [reflexivity|].
  assert (inject_Z 800 <= MockVoiceClassifier.ai_score_final v r * 1000) as Hscaled
      by (change (inject_Z 800) with 800; lra).
  apply round_half_even_ge in Hscaled. rewrite Zle_Qle in Hscaled.
  rewrite <- round3_scaled in Hscaled. change (inject_Z 800) with 800 in Hscaled.
  lra.
Qed.

Lemma unvoiced_audio_is_ai_witness :
  fst (MockVoiceClassifier.predict MockVoiceClassifier.__init__
         (Np.arr_data
            (@AudioProcessor.extract_all_features Instances.sample_librosa
               Instances.coarse_numeric [0; 0; 0] 10))
         "english" (1 # 2)) = "AI_GENERATED".
Proof.
  apply (@unvoiced_audio_is_ai Instances.sample_librosa Instances.coarse_numeric
           sample_librosa_shapes MockVoiceClassifier.__init__ [0; 0; 0] 10
           "english" (1 # 2)).
  - reflexivity.
  - split; vm_compute; intro Hc; discriminate Hc.
Defined.

(* ================================================================= *)
(** ** The weights of a loaded ensemble *)

Section DefaultWeights.

Context `{FileSystem}.
Import EnsembleVoiceClassifier.

Ltac next_file_call :=
  match goal with
  | |- context [path_exists (path_join ?d ?f)] =>
      is_var d; destruct (path_exists (path_join d f)) eqn:?
  | |- context [joblib_load (path_join ?d ?f)] =>
      is_var d; destruct (joblib_load (path_join d f)) eqn:?
  | |- context [json_load (path_join ?d ?f)] =>
      is_var d; destruct (json_load (path_join d f)) eqn:?
  end;
  cbn -[path_join].

Ltac decide_key :=
  repeat match goal with
         | |- context [String.eqb ?a ?b] => destruct (String.eqb a b)
         end.

(** Without [weights.json] a loaded ensemble has the weights
    [equal_weights]: one over the number of loaded sub-models each, zero
    for any other name, and total 1. *)
Lemma init_default_weights (dir : string) (c : t) :
  path_exists (path_join dir "weights.json") = false ->
  __init__ dir = Py.Ok c ->
  weights c = equal_weights (models c)
  /\ (forall name, 0 <= Py.get (weights c) name 0)
  /\ (forall name, In name (Py.keys (models c)) ->
        Py.get (weights c) name 0
        == 1 / inject_Z (Z.of_nat (Py.len (models c))))
  /\ (forall name, ~ In name (Py.keys (models c)) ->
        Py.get (weights c) name 0 = 0)
  /\ Spec.total_weight (weights c) (Py.keys (models c)) == 1.
Proof.
  intro Hnoweights.
  unfold __init__, _load_models, Py.try_except, model_names, for_each.
  cbn -[path_join].
  repeat next_file_call; try congruence;
    intro Hc; try discriminate Hc; injection Hc as <-;
    (split; [reflexivity|]);
    (split; [intro name; unfold Py.get; cbn [weights with_weights Py.find];
             decide_key; vm_compute; intro Hle; discriminate Hle|]);
    (split; [intros name Hin; cbn in Hin;
             repeat match type of Hin with
                    | _ \/ _ => destruct Hin as [<- | Hin]
                    | False => contradiction Hin
                    end; vm_compute; reflexivity|]);
    (split; [intros name Hout; cbn in Hout; unfold Py.get;
             cbn [weights with_weights Py.find];
             repeat match goal with
                    | |- context [String.eqb ?a name] =>
                        destruct (String.eqb_spec a name) as [<- | _];
                        [exfalso; apply Hout; tauto|]
                    end; reflexivity|]);
    vm_compute; reflexivity.
Qed.

End DefaultWeights.

(** X15.  An ensemble loaded from a directory without [weights.json] gives
    every loaded sub-model the weight 1/n (n the number of loaded
    sub-models); the weights are non-negative and sum to 1 over the loaded
    sub-models, so they satisfy the range condition under which the
    confidence is at most 1. *)
Theorem default_weights_sum_to_one `{FileSystem}
    (dir : string) (c : EnsembleVoiceClassifier.t) :
  path_exists (path_join dir "weights.json") = false ->
  EnsembleVoiceClassifier.__init__ dir = Py.Ok c ->
  EnsembleVoiceClassifier.weights c
  = EnsembleVoiceClassifier.equal_weights (EnsembleVoiceClassifier.models c)
  /\ (forall name, In name (Py.keys (EnsembleVoiceClassifier.models c)) ->
        Py.get (EnsembleVoiceClassifier.weights c) name 0
        == 1 / inject_Z (Z.of_nat (Py.len (EnsembleVoiceClassifier.models c))))
  /\ (forall name, ~ In name (Py.keys (EnsembleVoiceClassifier.models c)) ->
        Py.get (EnsembleVoiceClassifier.weights c) name 0 = 0)
  /\ Spec.total_weight (EnsembleVoiceClassifier.weights c)
       (Py.keys (EnsembleVoiceClassifier.models c)) == 1
  /\ Spec.weights_in_range c.
Proof.
  intros Hnoweights Hinit.
  destruct (init_default_weights dir c Hnoweights Hinit)
    as (Heq & Hnonneg & Hequal & Hzero & Htotal).
  split; [exact Heq|]. split; [exact Hequal|]. split; [exact Hzero|].
  split; [exact Htotal|].
  split; [exact Hnonneg|]. rewrite Htotal. lra.
Qed.

Lemma default_weights_sum_to_one_witness :
  Spec.total_weight (EnsembleVoiceClassifier.weights Examples.minimal)
    (Py.keys (EnsembleVoiceClassifier.models Examples.minimal)) == 1.
Proof.
  apply (@default_weights_sum_to_one (Instances.directory Examples.minimal_files)
           "models" Examples.minimal); reflexivity.
Defined.

(* ================================================================= *)
(** ** [main.py] *)

Lemma legacy_prosodic_length `{Librosa} `{Numeric} (audio : list Q) (sr : Z) :
  List.length (Legacy.extract_prosodic_features audio sr) = 5%nat.
Proof. reflexivity. Qed.

(** X16.  [main.py]: the vector of [extract_all_features] has 91 entries
    (80 MFCC, 5 prosodic, 6 spectral; librosa's documented shapes assumed).
    Its entry 80, which [VoiceClassifier.predict] reads as the pitch
    variance, is the pitch mean; the pitch standard deviation is entry 81.
    The entries [0:40], whose spread [predict] takes, are the MFCC means. *)
Theorem legacy_feature_layout
    {L : Librosa} {N : Numeric} (shapes : @LibrosaShapes L)
    (audio : list Q) (sr : Z) :
  List.length (Legacy.extract_all_features audio sr) = 91%nat
  /\ MockVoiceClassifier.feature_or_0 (Legacy.extract_all_features audio sr) 80
     = match AudioProcessor.pitch_values_of audio sr with
       | _ :: _ => Np.mean (AudioProcessor.pitch_values_of audio sr)
       | [] => 0
       end
  /\ nth 81 (Legacy.extract_all_features audio sr) 0
     = match AudioProcessor.pitch_values_of audio sr with
       | _ :: _ => Np.std (AudioProcessor.pitch_values_of audio sr)
       | [] => 0
       end
  /\ Np.slice (Legacy.extract_all_features audio sr) 0 40
     = Np.mean_axis1 (feature_mfcc audio sr 40).
Proof.
  assert (List.length (Np.mean_axis1 (feature_mfcc audio sr 40)) = 40%nat) as Hmean
      by (rewrite mean_axis1_length; apply mfcc_rows).
  assert (List.length (Np.std_axis1 (feature_mfcc audio sr 40)) = 40%nat) as Hstd
      by (rewrite std_axis1_length; apply mfcc_rows).
  assert (List.length (Legacy.extract_mfcc_features audio sr) = 80%nat) as Hmfcc.
  { unfold Legacy.extract_mfcc_features. rewrite length_app, Hmean, Hstd.
    reflexivity. }
  split.
  { unfold Legacy.extract_all_features.
    rewrite !length_app, Hmfcc. reflexivity. }
  rewrite feature_or_0_nth.
  unfold Legacy.extract_all_features.
  split.
  { change 80%nat with (80 + 0)%nat.
    rewrite (nth_after 80 0) by exact Hmfcc. reflexivity. }
  split.
  { change 81%nat with (80 + 1)%nat.
    rewrite (nth_after 80 1) by exact Hmfcc. reflexivity. }
  unfold Legacy.extract_mfcc_features, Np.slice.
  rewrite skipn_O, Nat.sub_0_r, <- !app_assoc.
  rewrite firstn_app, Hmean, Nat.sub_diag, firstn_O, app_nil_r.
  apply firstn_all2. lia.
Qed.

Lemma legacy_feature_layout_witness :
  List.length
    (@Legacy.extract_all_features Instances.sample_librosa
       Instances.coarse_numeric [1; 0; 0; 1; 1] 10) = 91%nat.
Proof.
  apply (@legacy_feature_layout Instances.sample_librosa
           Instances.coarse_numeric sample_librosa_shapes [1; 0; 0; 1; 1] 10).
Defined.

Lemma legacy_predict_unfold (features : list Q) (language : string) (r : Q) :
  Legacy.predict features language r
  = (Spec.label_of (Legacy.ai_score features r),
     Spec.mass_of (Legacy.ai_score features r)).
Proof.
  unfold Legacy.predict, Spec.label_of, Spec.mass_of.
  destruct (Legacy.ai_score features r >? 0.5); reflexivity.
Qed.

Lemma legacy_ai_score_rows (features : list Q) (r : Q) :
  Legacy.ai_score features r
  == Spec.adjustment (MockVoiceClassifier.feature_or_0 features 80 <? 20) 0.3
     + Spec.adjustment (Legacy.std_lt (Np.slice features 0 40) 5) 0.3
     + 0.4 * r.
Proof.
  unfold Legacy.ai_score, Spec.adjustment, Py.random_uniform.
  destruct (MockVoiceClassifier.feature_or_0 features 80 <? 20),
    (Legacy.std_lt (Np.slice features 0 40) 5); ring.
Qed.

(** X17.  [main.py]'s [VoiceClassifier.predict], for a draw in [0, 1]: the
    score is 0.3 for each of its two rules that fire plus 0.4 times the
    draw.  When neither rule fires the label is HUMAN and when both fire it
    is AI_GENERATED, whatever the draw; when exactly one fires the label is
    AI_GENERATED exactly for draws above 1/2.  The confidence lies in
    [0.5, 1]. *)
Theorem legacy_predict_rules (features : list Q) (language : string) (r : Q) :
  0 <= r <= 1 ->
  let low_pitch := MockVoiceClassifier.feature_or_0 features 80 <? 20 in
  let low_spread := Legacy.std_lt (Np.slice features 0 40) 5 in
  (low_pitch = false -> low_spread = false ->
   fst (Legacy.predict features language r) = "HUMAN")
  /\ (low_pitch = true -> low_spread = true ->
      fst (Legacy.predict features language r) = "AI_GENERATED")
  /\ (xorb low_pitch low_spread = true ->
      (fst (Legacy.predict features language r) = "AI_GENERATED"
       <-> 1 # 2 < r))
  /\ 0.5 <= snd (Legacy.predict features language r)
  /\ snd (Legacy.predict features language r) <= 1.
Proof.
  intros [Hr0 Hr1]. cbv zeta.
  rewrite legacy_predict_unfold. cbn [fst snd].
  pose proof (legacy_ai_score_rows features r) as Hscore.
  unfold Spec.adjustment in Hscore.
  split; [|split; [|split; [|split]]].
  - intros Hp Hs. rewrite Hp, Hs in Hscore.
    unfold Spec.label_of.
    assert ((Legacy.ai_score features r >? 0.5) = false) as ->; [|reflexivity].
    apply gtb_le. rewrite Hscore. lra.
  - intros Hp Hs. rewrite Hp, Hs in Hscore.
    apply label_of_ai. rewrite Hscore. lra.
  - intro Hone. rewrite label_of_ai, Hscore.
    destruct (MockVoiceClassifier.feature_or_0 features 80 <? 20),
      (Legacy.std_lt (Np.slice features 0 40) 5);
      try discriminate Hone; split; intro; lra.
  - apply mass_of_ge_half.
  - apply (mass_of_bounds 0); try lra; rewrite Hscore;
      destruct (MockVoiceClassifier.feature_or_0 features 80 <? 20),
        (Legacy.std_lt (Np.slice features 0 40) 5); lra.
Qed.

Lemma legacy_predict_rules_witness :
  fst (Legacy.predict [] "english" (9 # 10)) = "AI_GENERATED".
Proof.
  destruct (legacy_predict_rules [] "english" (9 # 10)) as (_ & _ & Hone & _).
  - split; vm_compute; intro Hc; discriminate Hc.
  - apply Hone; reflexivity.
Defined.

Lemma legacy_response_ok (label : string) (conf : Q) (lang : string) (ms : Q)
    (now_text : string) (duration : Q) (version : string) :
  (label = "AI_GENERATED" \/ label = "HUMAN") ->
  0 <= conf -> conf <= 1 ->
  Legacy.new_response label conf lang ms now_text duration version
  = Py.Ok {| prediction := label; confidence := conf;
             response_language := lang; processing_time_ms := ms;
             timestamp := now_text; audio_duration_seconds := duration;
             response_model_version := version |}.
Proof.
  intros Hlabel Hc0 Hc1.
  unfold Legacy.new_response.
  apply Qle_bool_iff in Hc0, Hc1.
  rewrite Hc0, Hc1.
  destruct Hlabel as [-> | ->]; reflexivity.
Qed.

(** X18.  [main.py]'s [detect_voice]: undecodable base64 and an audio stream
    librosa cannot load both give the status 500; a duration below 1 s or
    above 60 s gives 400; every other request is answered (for a draw in
    [0, 1]), with the features taken from the decoded buffer as it is, not
    normalized and not trimmed, and the confidence rounded to 3 decimals. *)
Theorem legacy_detect_voice_outcomes
    `{Base64} `{LibrosaNative} `{Librosa} `{Numeric}
    (request : VoiceDetectionRequest) (r start_time end_time : Q)
    (now_text : string) :
  (b64decode (audio_base64 request) = None ->
   exists e,
     Legacy.detect_voice request r start_time end_time now_text = inl e
     /\ status_code e = 500%Z)
  /\ (forall audio_bytes,
        b64decode (audio_base64 request) = Some audio_bytes ->
        (load_native audio_bytes = None ->
         exists e,
           Legacy.detect_voice request r start_time end_time now_text = inl e
           /\ status_code e = 500%Z)
        /\ (forall audio sr,
              load_native audio_bytes = Some (audio, sr) ->
              (get_duration audio sr < 1 \/ 60 < get_duration audio sr ->
               Legacy.detect_voice request r start_time end_time now_text
               = inl (http_error 400
                        (TextNumber
                           "Audio duration must be between 1-60 seconds. Got "
                           (get_duration audio sr) "s")))
              /\ (1 <= get_duration audio sr -> get_duration audio sr <= 60 ->
                  0 <= r <= 1 ->
                  Legacy.detect_voice request r start_time end_time now_text
                  = inr {| prediction :=
                             fst (Legacy.predict
                                    (Legacy.extract_all_features audio sr)
                                    (language request) r);
                           confidence :=
                             Py.round
                               (snd (Legacy.predict
                                       (Legacy.extract_all_features audio sr)
                                       (language request) r)) 3;
                           response_language := language request;
                           processing_time_ms :=
                             Py.round ((end_time - start_time) * 1000) 2;
                           timestamp := now_text;
                           audio_duration_seconds :=
                             Py.round (get_duration audio sr) 2;
                           response_model_version := "1.0.0" |}))).
Proof.
  split.
  { intro Hdecode. unfold Legacy.detect_voice. rewrite Hdecode.
    eexists. split; reflexivity. }
  intros audio_bytes Hdecode. unfold Legacy.detect_voice. rewrite Hdecode.
  split.
  { intro Hload. rewrite Hload. eexists. split; reflexivity. }
  intros audio sr Hload. rewrite Hload. cbv zeta.
  split.
  - intro Hout.
    assert ((get_duration audio sr <? 1) || (get_duration audio sr >? 60) = true)
      as ->; [|reflexivity].
    apply orb_true_iff.
    destruct Hout as [Hshort | Hlong];
      [left; apply ltb_lt, Hshort | right; apply gtb_lt, Hlong].
  - intros Hmin Hmax Hr.
    assert ((get_duration audio sr <? 1) || (get_duration audio sr >? 60) = false)
      as ->.
    { apply orb_false_iff. split; [apply ltb_ge, Hmin | apply gtb_le, Hmax]. }
    destruct (legacy_predict_rules (Legacy.extract_all_features audio sr)
                (language request) r Hr) as (_ & _ & _ & Hhalf & Hone).
    destruct (Legacy.predict (Legacy.extract_all_features audio sr)
                (language request) r) as [label conf] eqn:Hpredict.
    cbn [fst snd] in *.
    rewrite legacy_response_ok; [reflexivity | | |].
    + rewrite legacy_predict_unfold in Hpredict. injection Hpredict as <- _.
      apply label_of_cases.
    + pose proof (round3_mass conf Hhalf). lra.
    + pose proof (round3_le 1000 conf) as Hround.
      change (inject_Z 1000) with 1000 in Hround.
      assert (conf * 1000 <= 1000) as Hscaled by lra.
      specialize (Hround Hscaled). lra.
Qed.

(** X19.  [health_check] reports [model_loaded] exactly when
    [get_classifier] returned the ensemble, that is when the model
    directory has its two required files and everything in it loads. *)
Theorem health_model_loaded_iff `{FileSystem} (model_dir : option string) :
  health_model_loaded (Some (get_classifier model_dir)) = true
  <-> Spec.ensemble_available model_dir.
Proof.
  rewrite <- get_classifier_ensemble.
  unfold health_model_loaded.
  destruct (get_classifier_cases model_dir)
    as [Hmock | (dir & c & _ & _ & _ & _ & Hinit & Hens)].
  - rewrite Hmock. cbn. split; [discriminate|].
    intros [c Hc]. discriminate Hc.
  - rewrite Hens. cbn.
    destruct (init_ok dir c Hinit) as (-> & _).
    split; [intros _; exists c; reflexivity | reflexivity].
Qed.

Lemma legacy_detect_voice_outcomes_witness :
  exists duration,
    @Legacy.detect_voice AppInstances.strict_base64
      TrainingInstances.pcm_native Instances.sample_librosa
      Instances.coarse_numeric AppInstances.half_second_request
      (1 # 2) 5 6 "2024-02-05T10:30:00"
    = inl (http_error 400
             (TextNumber "Audio duration must be between 1-60 seconds. Got "
                duration "s")).
Proof.
  eexists.
  apply (@legacy_detect_voice_outcomes AppInstances.strict_base64
           TrainingInstances.pcm_native Instances.sample_librosa
           Instances.coarse_numeric AppInstances.half_second_request
           (1 # 2) 5 6 "2024-02-05T10:30:00")
    with (audio_bytes := [xff; xff; xff; xff; xff])
         (audio := map Instances.pcm_sample [xff; xff; xff; xff; xff])
         (sr := 10%Z).
  - reflexivity.
  - reflexivity.
  - left. vm_compute. reflexivity.
Defined.

(* ================================================================= *)
(** ** [train_model.py] *)

Section TrainingFeatures.

Context {L : Librosa} {N : Numeric} (shapes : @LibrosaShapes L).

(** The vector of [features_of] when the last step does not raise. *)
Lemma features_of_value (audio : list Q) (sr : Z) (v : list Q) :
  Training.features_of audio sr = inr v ->
  v = Np.mean_axis1 (feature_mfcc audio sr 40)
      ++ Np.std_axis1 (feature_mfcc audio sr 40)
      ++ AudioProcessor._extract_chroma_features audio sr
      ++ skipn 104 v
  /\ List.length (skipn 104 v) = 14%nat.
Proof.
  unfold Training.features_of, AudioProcessor._extract_chroma_features.
  destruct (effects_hpss audio) as [harmonic percussive].
  assert (List.length (Np.mean_axis1 (feature_mfcc audio sr 40)) = 40%nat) as Hmean
      by (rewrite mean_axis1_length; apply mfcc_rows).
  assert (List.length (Np.std_axis1 (feature_mfcc audio sr 40)) = 40%nat) as Hstd
      by (rewrite std_axis1_length; apply mfcc_rows).
  assert (List.length (Np.mean_axis1 (feature_chroma_stft audio sr)) = 12%nat)
    as Hcm by (rewrite mean_axis1_length; apply chroma_rows).
  assert (List.length (Np.std_axis1 (feature_chroma_stft audio sr)) = 12%nat)
    as Hcs by (rewrite std_axis1_length; apply chroma_rows).
  cbn [app].
  set (m := Np.mean_axis1 (feature_mfcc audio sr 40)) in *.
  set (s := Np.std_axis1 (feature_mfcc audio sr 40)) in *.
  set (cm := Np.mean_axis1 (feature_chroma_stft audio sr)) in *.
  set (cs := Np.std_axis1 (feature_chroma_stft audio sr)) in *.
  intro Hv.
  assert (exists tail, v = (m ++ s ++ cm ++ cs) ++ tail
                       /\ List.length tail = 14%nat) as (tail & -> & Htail).
  { destruct (effects_split audio 30) as [|iv ivs], audio as [|x xs];
      try discriminate Hv; injection Hv as <-;
      eexists; (split; [rewrite <- !app_assoc; cbn [app]; reflexivity
                       | reflexivity]). }
  assert (List.length (m ++ s ++ cm ++ cs) = 104%nat) as Hprefix
      by (rewrite !length_app, Hmean, Hstd, Hcm, Hcs; reflexivity).
  rewrite skipn_app, Hprefix, Nat.sub_diag, skipn_O.
  rewrite skipn_all2 by lia. rewrite app_nil_l.
  split; [rewrite <- !app_assoc; reflexivity | exact Htail].
Qed.

End TrainingFeatures.



Section OptimizedWeights.

Lemma dict_of_zip_from (names : list string) :
  forall (values : list Q) (acc : Py.dict Q),
    NoDup (Py.keys acc ++ names) ->
    fold_left (fun d '(name, w) => Py.set d name w) (combine names values) acc
    = acc ++ combine names values.
Proof.
  induction names as [|n ns IH]; intros values acc Hnodup; cbn [combine fold_left].
  - symmetry. apply app_nil_r.
  - destruct values as [|w ws]; cbn [combine fold_left].
    + symmetry. apply app_nil_r.
    + rewrite set_fresh.
      * rewrite IH.
        -- rewrite <- app_assoc. reflexivity.
        -- rewrite keys_app. cbn. rewrite <- app_assoc. exact Hnodup.
      * apply NoDup_remove_2 in Hnodup.
        intro Hin. apply Hnodup. apply in_or_app. left. exact Hin.
Qed.

Lemma dict_of_zip_combine (names : list string) (values : list Q) :
  NoDup names -> Training.dict_of_zip names values = combine names values.
Proof.
  intro Hnodup. unfold Training.dict_of_zip.
  rewrite dict_of_zip_from; [reflexivity | exact Hnodup].
Qed.

Lemma combine_fst {A B} (xs : list A) :
  forall ys : list B,
    List.length xs = List.length ys -> map fst (combine xs ys) = xs.
Proof.
  induction xs as [|x xs IH]; intros [|y ys] Hlen; try discriminate Hlen.
  - reflexivity.
  - cbn. rewrite IH; [reflexivity | injection Hlen as Hlen; exact Hlen].
Qed.

Lemma combine_snd {A B} (xs : list A) :
  forall ys : list B,
    List.length xs = List.length ys -> map snd (combine xs ys) = ys.
Proof.
  induction xs as [|x xs IH]; intros [|y ys] Hlen; try discriminate Hlen.
  - reflexivity.
  - cbn. rewrite IH; [reflexivity | injection Hlen as Hlen; exact Hlen].
Qed.

Lemma sum_scaled (s : Q) (xs : list Q) :
  Py.sum (map (fun w => w / s) xs) == Py.sum xs / s.
Proof.
  induction xs as [|x xs IH].
  - unfold Py.sum. cbn. unfold Qdiv. ring.
  - cbn [map]. rewrite !sum_cons, IH. unfold Qdiv. ring.
Qed.

Lemma sum_nonneg (xs : list Q) :
  Forall (fun x => 0 <= x) xs -> 0 <= Py.sum xs.
Proof.
  induction 1 as [|x xs Hx _ IH].
  - unfold Py.sum. cbn. lra.
  - rewrite sum_cons. lra.
Qed.

Lemma le_sum (xs : list Q) :
  Forall (fun x => 0 <= x) xs -> Forall (fun x => x <= Py.sum xs) xs.
Proof.
  induction 1 as [|x xs Hx Hxs IH].
  - constructor.
  - pose proof (sum_nonneg xs Hxs) as Hsum.
    constructor.
    + rewrite sum_cons. lra.
    + apply (Forall_impl _ (P := fun y => y <= Py.sum xs)); [|exact IH].
      intros y Hy. rewrite sum_cons. lra.
Qed.

Lemma within_repeated_bounds (lo hi : Q) (n : nat) :
  forall xs : list Q,
    Forall2 (fun x (b : Q * Q) => fst b <= x /\ x <= snd b) xs (repeat (lo, hi) n) ->
    Forall (fun x => lo <= x /\ x <= hi) xs.
Proof.
  induction n as [|n IH]; intros xs Hxs; cbn [repeat] in Hxs;
    inversion Hxs as [|x b xs' bs Hx Hrest]; subst.
  - constructor.
  - constructor; [exact Hx | apply IH; exact Hrest].
Qed.

Context {O : Optimizer} (laws : @OptimizerLaws O).

Lemma result_x_length (predictions_dict : Py.dict (list Q)) (y_true : list Q) :
  List.length (Training.result_x predictions_dict y_true)
  = List.length (Py.keys predictions_dict).
Proof.
  unfold Training.result_x. rewrite minimize_length, repeat_length.
  unfold Py.len, Py.keys. symmetry. apply length_map.
Qed.

Lemma result_x_bounds (predictions_dict : Py.dict (list Q)) (y_true : list Q) :
  Forall (fun x => 0 <= x /\ x <= 1) (Training.result_x predictions_dict y_true).
Proof.
  unfold Training.result_x.
  apply within_repeated_bounds with (n := Py.len predictions_dict).
  apply minimize_in_bounds.
  - rewrite !repeat_length. reflexivity.
  - apply Forall_forall. intros b Hb.
    apply repeat_spec in Hb. subst b. cbn. lra.
Qed.

End OptimizedWeights.

Section OptimizedWeightsParts.

Context {O : Optimizer} (laws : @OptimizerLaws O).
Variables (predictions_dict : Py.dict (list Q)) (y_true : list Q).

Lemma optimize_weights_combine :
  Py.wf predictions_dict ->
  Py.keys (Training._optimize_weights predictions_dict y_true)
  = Py.keys predictions_dict
  /\ map snd (Py.items (Training._optimize_weights predictions_dict y_true))
     = Training.normalize (Training.result_x predictions_dict y_true).
Proof.
  intro Hwf.
  pose proof (result_x_length laws predictions_dict y_true) as Hlen.
  unfold Training._optimize_weights.
  set (x := Training.result_x predictions_dict y_true) in *.
  rewrite dict_of_zip_combine by exact Hwf.
  assert (List.length (Py.keys predictions_dict)
          = List.length (Training.normalize x)) as Hlen'
      by (unfold Training.normalize; rewrite length_map; symmetry; exact Hlen).
  unfold Py.items, Py.keys at 1.
  rewrite combine_fst, combine_snd by exact Hlen'.
  split; reflexivity.
Qed.

Lemma normalized_in_range :
  ~ Py.sum (Training.result_x predictions_dict y_true) == 0 ->
  Forall (fun w => 0 <= w /\ w <= 1)
    (Training.normalize (Training.result_x predictions_dict y_true))
  /\ Py.sum (Training.normalize (Training.result_x predictions_dict y_true)) == 1.
Proof.
  intro Hsum.
  pose proof (result_x_bounds laws predictions_dict y_true) as Hbounds.
  set (x := Training.result_x predictions_dict y_true) in *.
  assert (Forall (fun w => 0 <= w) x) as Hnonneg
      by (apply (Forall_impl _ (P := fun w => 0 <= w /\ w <= 1));
          [intros w [Hw _]; exact Hw | exact Hbounds]).
  assert (0 < Py.sum x) as Hpos.
  { pose proof (sum_nonneg x Hnonneg) as Hge.
    apply Qle_lteq in Hge. destruct Hge as [Hlt | Heq]; [exact Hlt|].
    exfalso. apply Hsum. symmetry. exact Heq. }
  split.
  - unfold Training.normalize. apply Forall_map.
    apply (Forall_impl _ (P := fun w => 0 <= w /\ w <= Py.sum x)).
    + intros w [Hlo Hhi]. split.
      * apply Qle_shift_div_l; [exact Hpos | lra].
      * apply Qle_shift_div_r; [exact Hpos | lra].
    + apply Forall_and; [exact Hnonneg | apply le_sum; exact Hnonneg].
  - unfold Training.normalize. rewrite sum_scaled.
    field. exact Hsum.
Qed.

End OptimizedWeightsParts.

(** X21.  When the optimizer keeps its documented contract (a point of the
    start point's dimension, inside the bounds) and its point does not sum
    to 0, [_optimize_weights] returns one weight per entry of the prediction
    dict, under the same names in the same order; the weights are the
    optimizer's point divided by its sum, each lies between 0 and 1, and
    together they sum to 1. *)
Theorem optimized_weights_normalized
    {O : Optimizer} (laws : @OptimizerLaws O)
    (predictions_dict : Py.dict (list Q)) (y_true : list Q) :
  Py.wf predictions_dict ->
  ~ Py.sum (Training.result_x predictions_dict y_true) == 0 ->
  Py.keys (Training._optimize_weights predictions_dict y_true)
  = Py.keys predictions_dict
  /\ map snd (Py.items (Training._optimize_weights predictions_dict y_true))
     = Training.normalize (Training.result_x predictions_dict y_true)
  /\ Forall (fun w => 0 <= w /\ w <= 1)
       (map snd (Py.items (Training._optimize_weights predictions_dict y_true)))
  /\ Py.sum (map snd (Py.items (Training._optimize_weights predictions_dict y_true)))
     == 1.
Proof.
  intros Hwf Hsum.
  destruct (optimize_weights_combine laws predictions_dict y_true Hwf)
    as [Hkeys Hvalues].
  destruct (normalized_in_range laws predictions_dict y_true Hsum)
    as [Hrange Hone].
  rewrite Hvalues.
  split; [exact Hkeys|]. split; [reflexivity|].
  split; [exact Hrange | exact Hone].
Qed.

Lemma idle_optimizer_laws : @OptimizerLaws TrainingInstances.idle_optimizer.
Proof.
  split; cbn.
  - intros _ x0. induction x0 as [|x xs IH]; intros [|[lo hi] bs]; cbn;
      try reflexivity.
    rewrite IH. reflexivity.
  - intros _ x0. induction x0 as [|x xs IH]; intros [|[lo hi] bs] Hlen Hproper;
      try discriminate Hlen; cbn.
    + constructor.
    + inversion Hproper as [|b bs' Hb Hbs]; subst. cbn in Hb.
      constructor.
      * cbn. split.
        -- apply Q.le_max_l.
        -- apply Q.max_lub; [exact Hb | apply Q.le_min_r].
      * apply IH; [injection Hlen as Hlen; exact Hlen | exact Hbs].
Qed.

Lemma optimized_weights_normalized_witness :
  Py.keys (@Training._optimize_weights TrainingInstances.idle_optimizer
             TrainingInstances.validation_predictions [1; 0])
  = ["random_forest"; "gradient_boosting"; "svm"]
  /\ Py.sum (map snd (Py.items
       (@Training._optimize_weights TrainingInstances.idle_optimizer
          TrainingInstances.validation_predictions [1; 0])))
     == 1.
Proof.
  destruct (@optimized_weights_normalized TrainingInstances.idle_optimizer
              idle_optimizer_laws TrainingInstances.validation_predictions [1; 0])
    as (Hkeys & _ & _ & Hsum).
  - unfold Py.wf. vm_compute.
    repeat constructor; cbn; intuition discriminate.
  - vm_compute. intro Hc. discriminate Hc.
  - split; [exact Hkeys | exact Hsum].
Defined.

Section TrainedWeights.

Lemma get_keys_values (W : Py.dict Q) :
  Py.wf W -> map (fun name => Py.get W name 0) (Py.keys W) = map snd W.
Proof.
  unfold Py.wf. induction W as [|[k v] W IH]; intro Hwf; [reflexivity|].
  inversion Hwf as [|k' ks Hfresh Hrest]; subst.
  cbn [Py.keys map fst snd]. f_equal.
  - unfold Py.get. cbn [Py.find]. rewrite String.eqb_refl. reflexivity.
  - rewrite <- (IH Hrest). apply map_ext_in.
    intros name Hin. unfold Py.get. cbn [Py.find].
    destruct (String.eqb_spec k name) as [-> | _]; [contradiction | reflexivity].
Qed.

Lemma get_in_range (W : Py.dict Q) (hi : Q) :
  0 <= hi ->
  Forall (fun w => 0 <= w /\ w <= hi) (map snd W) ->
  forall name, 0 <= Py.get W name 0 /\ Py.get W name 0 <= hi.
Proof.
  intros Hhi Hall name. unfold Py.get.
  induction W as [|[k v] W IH]; cbn [Py.find].
  - split; [apply Qle_refl | exact Hhi].
  - inversion Hall as [|w ws Hw Hws]; subst.
    destruct (String.eqb k name); [exact Hw | apply IH; exact Hws].
Qed.

End TrainedWeights.

(** X22.  Training feeds serving: an ensemble whose weight map is the one
    [_optimize_weights] returned for its sub-models (the optimizer keeping
    its contract, its point not summing to 0) has weights that sum to 1 over
    the loaded sub-models; with sub-model probabilities in [0, 1] every
    fused score it computes lies in [0, 1], and every confidence it returns
    in [0.5, 1]. *)
Theorem trained_weights_serving
    {O : Optimizer} (laws : @OptimizerLaws O)
    (self : EnsembleVoiceClassifier.t)
    (predictions_dict : Py.dict (list Q)) (y_true : list Q) :
  Py.wf predictions_dict ->
  ~ Py.sum (Training.result_x predictions_dict y_true) == 0 ->
  EnsembleVoiceClassifier.weights self
  = Training._optimize_weights predictions_dict y_true ->
  Py.keys (EnsembleVoiceClassifier.models self) = Py.keys predictions_dict ->
  Spec.probabilities_in_range self ->
  Spec.total_weight (EnsembleVoiceClassifier.weights self)
    (Py.keys (EnsembleVoiceClassifier.models self)) == 1
  /\ (forall features s,
        EnsembleVoiceClassifier.ensemble_score self features = Py.Ok s ->
        0 <= s /\ s <= 1)
  /\ (forall features language label confidence,
        EnsembleVoiceClassifier.predict self features language
        = Py.Ok (label, confidence) ->
        0.5 <= confidence /\ confidence <= 1).
Proof.
  intros Hwf Hsum Hweights Hkeys Hprobas.
  destruct (optimize_weights_combine laws predictions_dict y_true Hwf)
    as [HWkeys Hvalues].
  destruct (normalized_in_range laws predictions_dict y_true Hsum)
    as [Hrange Hone].
  rewrite <- Hvalues in Hrange, Hone. unfold Py.items in Hrange, Hone.
  rewrite <- Hweights in HWkeys, Hrange, Hone.
  set (W := EnsembleVoiceClassifier.weights self) in *.
  assert (Py.wf (EnsembleVoiceClassifier.models self)) as Hmodels_wf
      by (unfold Py.wf; rewrite Hkeys; exact Hwf).
  assert (Py.wf W) as HW_wf by (unfold Py.wf; rewrite HWkeys; exact Hwf).
  assert (Spec.total_weight W (Py.keys (EnsembleVoiceClassifier.models self)) == 1)
    as Htotal.
  { unfold Spec.total_weight. rewrite Hkeys, <- HWkeys.
    rewrite (get_keys_values W HW_wf). exact Hone. }
  assert (forall name, 0 <= Py.get W name 0) as Hnonneg.
  { intro name. apply (get_in_range W 1); [lra | exact Hrange]. }
  assert (forall features s,
             EnsembleVoiceClassifier.ensemble_score self features = Py.Ok s ->
             0 <= s /\ s <= 1) as Hscore.
  { intros features s.
    unfold EnsembleVoiceClassifier.ensemble_score.
    destruct (match EnsembleVoiceClassifier.scaler self with
              | Some sc => Py.external "scaler.transform" (transform sc [features])
              | None => Py.Ok [features]
              end) as [X|e]; [|discriminate].
    cbn [Py.bind].
    rewrite (predictions_of_survivors self X Hmodels_wf).
    destruct (negb (Py.truthy (Spec.survivors
                                 (EnsembleVoiceClassifier.models self) X)));
      [discriminate|].
    intro Hs. injection Hs as <-.
    destruct (fused_bounds W (EnsembleVoiceClassifier.models self) X Hnonneg)
      as [Hf0 Hf1].
    { intros name model p Hin Hp. apply (Hprobas name model X p Hin Hp). }
    change (0 <= Spec.fused W
                   (Spec.survivors (EnsembleVoiceClassifier.models self) X)
            /\ Spec.fused W
                 (Spec.survivors (EnsembleVoiceClassifier.models self) X)
               <= 1).
    split; lra. }
  split; [exact Htotal|]. split; [exact Hscore|].
  intros features language label confidence Hpredict.
  destruct (predict_inv self features language label confidence Hpredict)
    as (s & Hs & _ & ->).
  destruct (Hscore features s Hs) as [Hs0 Hs1].
  split; [apply round3_mass, mass_of_ge_half|].
  destruct (mass_of_bounds 0 s) as [_ Hm1]; try lra.
  pose proof (round3_le 1000 (Spec.mass_of s)) as Hr.
  change (inject_Z 1000) with 1000 in Hr.
  assert (Spec.mass_of s * 1000 <= 1000) as Hscaled by lra.
  specialize (Hr Hscaled). lra.
Qed.

Lemma degraded_probabilities_in_range (W : Py.dict Q) :
  Spec.probabilities_in_range
    (EnsembleVoiceClassifier.with_weights Examples.degraded W).
Proof.
  intros name model X p Hin Hp.
  cbn in Hin.
  destruct Hin as [Hin | [Hin | [Hin | []]]]; injection Hin as _ <-;
    unfold Spec.proba_of in Hp; cbn in Hp;
    try discriminate Hp;
    (destruct X as [|row X]; cbn in Hp; [discriminate|]);
    injection Hp as <-; split; vm_compute; intro Hc; discriminate Hc.
Defined.

Lemma trained_weights_serving_witness :
  exists label confidence,
    EnsembleVoiceClassifier.predict
      (EnsembleVoiceClassifier.with_weights Examples.degraded
         (@Training._optimize_weights TrainingInstances.idle_optimizer
            TrainingInstances.validation_predictions [1; 0]))
      Examples.zeros "english"
    = Py.Ok (label, confidence)
    /\ 0.5 <= confidence /\ confidence <= 1.
Proof.
  assert (exists label confidence,
    EnsembleVoiceClassifier.predict
      (EnsembleVoiceClassifier.with_weights Examples.degraded
         (@Training._optimize_weights TrainingInstances.idle_optimizer
            TrainingInstances.validation_predictions [1; 0]))
      Examples.zeros "english"
    = Py.Ok (label, confidence)) as (label & confidence & Hpredict)
    by (do 2 eexists; vm_compute; reflexivity).
  exists label, confidence. split; [exact Hpredict|].
  destruct (@trained_weights_serving TrainingInstances.idle_optimizer
              idle_optimizer_laws
              (EnsembleVoiceClassifier.with_weights Examples.degraded
                 (@Training._optimize_weights TrainingInstances.idle_optimizer
                    TrainingInstances.validation_predictions [1; 0]))
              TrainingInstances.validation_predictions [1; 0])
    as (_ & _ & Hconfidence).
  - unfold Py.wf. vm_compute.
    repeat constructor; cbn; intuition discriminate.
  - vm_compute. intro Hc. discriminate Hc.
  - reflexivity.
  - reflexivity.
  - apply degraded_probabilities_in_range.
  - exact (Hconfidence Examples.zeros "english" label confidence Hpredict).
Defined.
